(** * Campus club bot: events, attendance sessions, reminders, persistence

    A shallow embedding of [bot.py].  The module-level dictionary
    [club_data] becomes a record that is threaded through every handler;
    Python dictionaries become insertion-ordered association lists (the
    order is what [dict.items()] iterates in); an exception raised by a
    handler becomes the [Raise] outcome.  The two parsers of the
    [datetime] library that the bot calls, [strptime] and
    [fromisoformat], are an interface ([DatetimeLib]): every theorem holds
    for any implementation of it. *)

From Stdlib Require Import ZArith List String Ascii Bool Lia Arith.
From Stdlib Require Import Numbers.DecimalString Numbers.DecimalPos Numbers.DecimalZ.
From Stdlib Require Import Sorting.Sorted Sorting.Permutation.
Import ListNotations.

Set Warnings "-register-all".

Open Scope list_scope.
Open Scope string_scope.

(** ** Python string primitives *)

(** [str(n)] for an integer. *)
Definition str_of_Z (z : Z) : string := NilZero.string_of_int (Z.to_int z).

(** [str(len(d))]. *)
Definition str_of_nat (n : nat) : string := str_of_Z (Z.of_nat n).

Definition lower_ascii (c : ascii) : ascii :=
  let n := nat_of_ascii c in
  if (65 <=? n)%nat && (n <=? 90)%nat then ascii_of_nat (n + 32) else c.

(** [s.lower()].  Strings are byte strings here, and only the letters
    [A]-[Z] are mapped; the registry keys are lower-case ASCII, so a key
    with any other byte is outside the registry before and after. *)
Fixpoint lower (s : string) : string :=
  match s with
  | EmptyString => EmptyString
  | String c s' => String (lower_ascii c) (lower s')
  end.

(** [sub in s] on strings. *)
Fixpoint str_in (sub s : string) : bool :=
  prefix sub s ||
  match s with
  | EmptyString => false
  | String _ s' => str_in sub s'
  end.

(** [x in l] on a list of strings. *)
Definition list_in (x : string) (l : list string) : bool :=
  existsb (String.eqb x) l.

(** [s.split(sep)] for a non-empty [sep]: a left-to-right scan for
    non-overlapping occurrences.  [skip] counts the bytes of the separator
    still to be dropped, [cur] is the piece being collected. *)
Fixpoint split_from (sep : string) (skip : nat) (cur s : string) : list string :=
  match s with
  | EmptyString => [cur]
  | String c s' =>
      match skip with
      | S k => split_from sep k cur s'
      | O =>
          if prefix sep s
          then cur :: split_from sep (String.length sep - 1) EmptyString s'
          else split_from sep 0 (cur ++ String c EmptyString) s'
      end
  end.

Definition split (sep s : string) : list string :=
  split_from sep 0 EmptyString s.

(** Decimal rendering of [n], left-padded with zeros to [width]
    (the [%02d], [%04d], [%06d] of the datetime printers). *)
Definition zero_pad (width : nat) (n : Z) : string :=
  let s := str_of_Z n in
  String.concat "" (repeat "0" (width - String.length s)) ++ s.

(** ** Dictionaries

    A Python [dict] with string keys: association list in insertion order,
    keys pairwise distinct ([dict_wf]).  Assigning to an existing key keeps
    its position, assigning to a new key appends. *)

Definition dict (V : Type) : Type := list (string * V).

Fixpoint dict_get {V} (k : string) (d : dict V) : option V :=
  match d with
  | [] => None
  | (k', v) :: d' => if String.eqb k k' then Some v else dict_get k d'
  end.

Definition dict_mem {V} (k : string) (d : dict V) : bool :=
  match dict_get k d with Some _ => true | None => false end.

Fixpoint dict_set {V} (k : string) (v : V) (d : dict V) : dict V :=
  match d with
  | [] => [(k, v)]
  | (k', v') :: d' =>
      if String.eqb k k' then (k', v) :: d' else (k', v') :: dict_set k v d'
  end.

Definition dict_keys {V} (d : dict V) : list string := map fst d.

Definition dict_wf {V} (d : dict V) : Prop := NoDup (dict_keys d).

(** ** Exceptions *)

Inductive exn : Type :=
| TypeError
| IndexError
| ValueError
| KeyError
| OverflowError.

Inductive outcome (A : Type) : Type :=
| Done (a : A)
| Raise (e : exn).

Arguments Done {A} a.
Arguments Raise {A} e.

Definition bind {A B} (m : outcome A) (f : A -> outcome B) : outcome B :=
  match m with
  | Done a => f a
  | Raise e => Raise e
  end.

Notation "x <- m ;; k" := (bind m (fun x => k))
  (at level 61, m at next level, right associativity).

Definition or_raise {A} (e : exn) (o : option A) : outcome A :=
  match o with
  | Some a => Done a
  | None => Raise e
  end.

(** ** [datetime] values

    A naive [datetime] is its seven fields; comparison is lexicographic on
    them. *)

Record datetime : Type := mk_datetime {
  year : Z;
  month : Z;
  day : Z;
  hour : Z;
  minute : Z;
  second : Z;
  microsecond : Z
}.

Definition dt_fields (d : datetime) : list Z :=
  [year d; month d; day d; hour d; minute d; second d; microsecond d].

Fixpoint lex_compare (a b : list Z) : comparison :=
  match a, b with
  | [], [] => Eq
  | [], _ :: _ => Lt
  | _ :: _, [] => Gt
  | x :: a', y :: b' =>
      match Z.compare x y with
      | Eq => lex_compare a' b'
      | c => c
      end
  end.

Definition dt_compare (a b : datetime) : comparison :=
  lex_compare (dt_fields a) (dt_fields b).

(** [a < b] and [a <= b] on datetimes. *)
Definition dt_ltb (a b : datetime) : bool :=
  match dt_compare a b with Lt => true | _ => false end.

Definition dt_leb (a b : datetime) : bool :=
  match dt_compare a b with Gt => false | _ => true end.

Definition is_leap (y : Z) : bool :=
  ((y mod 4 =? 0) && (negb (y mod 100 =? 0) || (y mod 400 =? 0)))%Z.

Definition days_in_month (y m : Z) : Z :=
  if (m =? 2)%Z then (if is_leap y then 29 else 28)%Z
  else if ((m =? 4) || (m =? 6) || (m =? 9) || (m =? 11))%Z then 30%Z
  else 31%Z.

(** [d + timedelta(hours=1)]; past 9999-12-31 the addition raises
    [OverflowError]. *)
Definition add_one_hour (d : datetime) : outcome datetime :=
  if (hour d <? 23)%Z then
    Done (mk_datetime (year d) (month d) (day d) (hour d + 1)
                      (minute d) (second d) (microsecond d))
  else if (day d <? days_in_month (year d) (month d))%Z then
    Done (mk_datetime (year d) (month d) (day d + 1) 0
                      (minute d) (second d) (microsecond d))
  else if (month d <? 12)%Z then
    Done (mk_datetime (year d) (month d + 1) 1 0
                      (minute d) (second d) (microsecond d))
  else if (year d <? 9999)%Z then
    Done (mk_datetime (year d + 1) 1 1 0
                      (minute d) (second d) (microsecond d))
  else Raise OverflowError.

(** [d.isoformat()]. *)
Definition isoformat (d : datetime) : string :=
  zero_pad 4 (year d) ++ "-" ++ zero_pad 2 (month d) ++ "-" ++
  zero_pad 2 (day d) ++ "T" ++ zero_pad 2 (hour d) ++ ":" ++
  zero_pad 2 (minute d) ++ ":" ++ zero_pad 2 (second d) ++
  (if (microsecond d =? 0)%Z then "" else "." ++ zero_pad 6 (microsecond d)).

(** [d.strftime('%Y%m%d_%H%M%S')]. *)
Definition strftime_session (d : datetime) : string :=
  zero_pad 4 (year d) ++ zero_pad 2 (month d) ++ zero_pad 2 (day d) ++ "_" ++
  zero_pad 2 (hour d) ++ zero_pad 2 (minute d) ++ zero_pad 2 (second d).

(** The parsers of the [datetime] library the bot calls:
    [datetime.strptime(s, "%Y-%m-%d %H:%M")] and
    [datetime.fromisoformat(s)]; [None] is their [ValueError]. *)
Class DatetimeLib : Type := {
  strptime : string -> option datetime;
  fromisoformat : string -> option datetime
}.

(** ** The club registry *)

Record ClubInfo : Type := mk_club {
  name : string;
  emoji : string;
  color : Z
}.

Definition CAMPUS_CLUBS : dict ClubInfo :=
  [ ("debate", mk_club "Debate Club" "🎤" 0xff6b6b);
    ("drama", mk_club "Drama Club" "🎭" 0x4ecdc4);
    ("music", mk_club "Music Club" "🎵" 0x45b7d1);
    ("art", mk_club "Art Club" "🎨" 0x96ceb4);
    ("science", mk_club "Science Club" "🔬" 0xfeca57);
    ("sports", mk_club "Sports Club" "⚽" 0xff9ff3);
    ("literature", mk_club "Literature Club" "📚" 0x54a0ff) ].

(** ** JSON documents and the Python values they are made from *)

Inductive json : Type :=
| JNull
| JBool (b : bool)
| JInt (z : Z)
| JStr (s : string)
| JArr (l : list json)
| JObj (o : list (string * json)).

(** A Python value; [PyOther] is any object [json] cannot write, with the
    text [str()] gives for it. *)
Inductive pyobj : Type :=
| PyNone
| PyBool (b : bool)
| PyInt (z : Z)
| PyStr (s : string)
| PyList (l : list pyobj)
| PyDict (d : list (string * pyobj))
| PyOther (str : string).

(** What [json.dump(v, f, default=str)] writes. *)
Fixpoint json_encode (v : pyobj) : json :=
  match v with
  | PyNone => JNull
  | PyBool b => JBool b
  | PyInt z => JInt z
  | PyStr s => JStr s
  | PyList l => JArr (map json_encode l)
  | PyDict d => JObj (map (fun kv => match kv with (k, x) => (k, json_encode x) end) d)
  | PyOther s => JStr s
  end.

(** What [json.load(f)] builds. *)
Fixpoint json_decode (j : json) : pyobj :=
  match j with
  | JNull => PyNone
  | JBool b => PyBool b
  | JInt z => PyInt z
  | JStr s => PyStr s
  | JArr l => PyList (map json_decode l)
  | JObj o => PyDict (map (fun kv => match kv with (k, x) => (k, json_decode x) end) o)
  end.

(** The JSON value a Python value made of [None], [bool], [int], [str],
    [list] and [dict] only is; [None] when it holds another object. *)
Fixpoint native_json (v : pyobj) : option json :=
  match v with
  | PyNone => Some JNull
  | PyBool b => Some (JBool b)
  | PyInt z => Some (JInt z)
  | PyStr s => Some (JStr s)
  | PyList l =>
      option_map JArr
        (fold_right (fun x acc =>
           match native_json x, acc with
           | Some j, Some js => Some (j :: js)
           | _, _ => None
           end) (Some []) l)
  | PyDict d =>
      option_map JObj
        (fold_right (fun kv acc =>
           match kv with
           | (k, x) =>
               match native_json x, acc with
               | Some j, Some js => Some ((k, j) :: js)
               | _, _ => None
               end
           end) (Some []) d)
  | PyOther _ => None
  end.

(** ** The store *)

Record Event : Type := mk_event {
  ev_club : string;
  ev_title : string;
  ev_description : string;
  ev_datetime : string;      (* [isoformat()] text *)
  ev_creator : string;
  ev_attendees : list string
}.

Record Session : Type := mk_session {
  ss_club : string;
  ss_start_time : string;    (* [isoformat()] text *)
  ss_duration : Z;
  ss_present : list string
}.

(** [club_data].  ['announcements'] and ['club_roles'] are never read or
    written by a handler: they hold whatever was loaded. *)
Record ClubData : Type := mk_club_data {
  events : dict Event;
  announcements : dict json;
  attendance : dict Session;
  club_roles : dict json;
  member_clubs : dict (list string)
}.

Definition empty_club_data : ClubData := mk_club_data [] [] [] [] [].

(** [bot_data.json] on disk. *)
Inductive file_state : Type :=
| Missing
| Corrupt                  (* present, not a JSON document *)
| Document (j : json).

(** The process state: the store, the file, and whether writing the file
    currently succeeds. *)
Record World : Type := mk_world {
  club_data : ClubData;
  bot_data_json : file_state;
  disk_writable : bool
}.

Definition set_club_data (w : World) (d : ClubData) : World :=
  mk_world d (bot_data_json w) (disk_writable w).

Definition set_events (d : ClubData) (e : dict Event) : ClubData :=
  mk_club_data e (announcements d) (attendance d) (club_roles d) (member_clubs d).

Definition set_attendance (d : ClubData) (a : dict Session) : ClubData :=
  mk_club_data (events d) (announcements d) a (club_roles d) (member_clubs d).

Definition set_attendees (e : Event) (l : list string) : Event :=
  mk_event (ev_club e) (ev_title e) (ev_description e) (ev_datetime e)
           (ev_creator e) l.

Definition set_present (s : Session) (l : list string) : Session :=
  mk_session (ss_club s) (ss_start_time s) (ss_duration s) l.

(** *** The store as the Python value [json.dump] is given *)

Definition str_list_py (l : list string) : pyobj := PyList (map PyStr l).

Definition event_py (e : Event) : pyobj :=
  PyDict [ ("club", PyStr (ev_club e));
           ("title", PyStr (ev_title e));
           ("description", PyStr (ev_description e));
           ("datetime", PyStr (ev_datetime e));
           ("creator", PyStr (ev_creator e));
           ("attendees", str_list_py (ev_attendees e)) ].

Definition session_py (s : Session) : pyobj :=
  PyDict [ ("club", PyStr (ss_club s));
           ("start_time", PyStr (ss_start_time s));
           ("duration", PyInt (ss_duration s));
           ("present", str_list_py (ss_present s)) ].

Definition dict_py {V} (f : V -> pyobj) (d : dict V) : pyobj :=
  PyDict (map (fun kv => (fst kv, f (snd kv))) d).

Definition club_data_py (d : ClubData) : pyobj :=
  PyDict [ ("events", dict_py event_py (events d));
           ("announcements", dict_py json_decode (announcements d));
           ("attendance", dict_py session_py (attendance d));
           ("club_roles", dict_py json_decode (club_roles d));
           ("member_clubs", dict_py str_list_py (member_clubs d)) ].

(** *** Reading a Python value as a store

    [json.load] hands back plain dictionaries; the handlers then index
    them by the keys above.  [club_data_of_py] is that reading; it is
    [None] on a document that lacks a key or has a value of another
    type.  Keys the handlers never index are not kept. *)

Definition obind {A B} (o : option A) (f : A -> option B) : option B :=
  match o with
  | Some a => f a
  | None => None
  end.

Notation "'let?' x ':=' m 'in' k" := (obind m (fun x => k))
  (at level 10, x name, m at level 100, k at level 200).

Fixpoint map_opt {A B} (f : A -> option B) (l : list A) : option (list B) :=
  match l with
  | [] => Some []
  | x :: l' =>
      let? y := f x in
      let? ys := map_opt f l' in
      Some (y :: ys)
  end.

Definition as_str (v : pyobj) : option string :=
  match v with PyStr s => Some s | _ => None end.

Definition as_int (v : pyobj) : option Z :=
  match v with PyInt z => Some z | _ => None end.

Definition as_list (v : pyobj) : option (list pyobj) :=
  match v with PyList l => Some l | _ => None end.

Definition as_dict (v : pyobj) : option (dict pyobj) :=
  match v with PyDict d => Some d | _ => None end.

Definition str_list_of_py (v : pyobj) : option (list string) :=
  let? l := as_list v in map_opt as_str l.

Definition field {A} (k : string) (f : pyobj -> option A) (d : dict pyobj)
  : option A :=
  let? v := dict_get k d in f v.

Definition event_of_py (v : pyobj) : option Event :=
  let? d := as_dict v in
  let? c := field "club" as_str d in
  let? t := field "title" as_str d in
  let? ds := field "description" as_str d in
  let? dt := field "datetime" as_str d in
  let? cr := field "creator" as_str d in
  let? at_ := field "attendees" str_list_of_py d in
  Some (mk_event c t ds dt cr at_).

Definition session_of_py (v : pyobj) : option Session :=
  let? d := as_dict v in
  let? c := field "club" as_str d in
  let? st := field "start_time" as_str d in
  let? du := field "duration" as_int d in
  let? pr := field "present" str_list_of_py d in
  Some (mk_session c st du pr).

Definition dict_of_py {V} (f : pyobj -> option V) (v : pyobj)
  : option (dict V) :=
  let? d := as_dict v in
  map_opt (fun kv => let? x := f (snd kv) in Some (fst kv, x)) d.

Definition club_data_of_py (v : pyobj) : option ClubData :=
  let? d := as_dict v in
  let? ev := field "events" (dict_of_py event_of_py) d in
  let? an := field "announcements" (dict_of_py native_json) d in
  let? att := field "attendance" (dict_of_py session_of_py) d in
  let? cr := field "club_roles" (dict_of_py native_json) d in
  let? mc := field "member_clubs" (dict_of_py str_list_of_py) d in
  Some (mk_club_data ev an att cr mc).

(** ** Persistence

    The file is modelled by the JSON document it holds, not by its text:
    [json.dump] is the conversion of the Python value to a document and
    [json.load] the conversion back. *)

(** [save_data()]: an exception while writing is logged and swallowed. *)
Definition save_data (w : World) : World :=
  if disk_writable w
  then mk_world (club_data w)
                (Document (json_encode (club_data_py (club_data w))))
                (disk_writable w)
  else w.

(** [load_data()]: no file, nothing happens; a file that does not parse is
    logged and nothing happens; otherwise [club_data] becomes the loaded
    value.  [None]: the loaded value is not a store the handlers can
    index. *)
Definition load_data (w : World) : option World :=
  match bot_data_json w with
  | Missing => Some w
  | Corrupt => Some w
  | Document j =>
      let? d := club_data_of_py (json_decode j) in
      Some (set_club_data w d)
  end.

(** ** The chat platform, as far as the handlers look at it *)

Record Role : Type := mk_role {
  role_id : Z;
  role_name : string
}.

Record Channel : Type := mk_channel {
  channel_id : Z;
  channel_name : string
}.

Record Guild : Type := mk_guild {
  guild_id : Z;
  roles : list Role;
  text_channels : list Channel
}.

Record User : Type := mk_user {
  user_id : Z;
  user_bot : bool
}.

(** [ctx]: the author of the command, the roles the author holds, and the
    guild the command was sent in. *)
Record Context : Type := mk_context {
  author : User;
  author_roles : list Role;
  guild : Guild
}.

(** An embed; [em_footer] is [embed.footer.text], [None] when the embed
    was built without a footer. *)
Record Embed : Type := mk_embed {
  em_title : string;
  em_description : string;
  em_color : Z;
  em_fields : list (string * string);
  em_footer : option string
}.

Record Message : Type := mk_message {
  embeds : list Embed
}.

(** [reaction.emoji] is a string for a Unicode emoji and an object for a
    custom one. *)
Inductive Emoji : Type :=
| UnicodeEmoji (s : string)
| CustomEmoji (id : Z).

Record Reaction : Type := mk_reaction {
  r_emoji : Emoji;
  r_message : Message
}.

(** What a handler asks the platform to do, in order. *)
Inductive action : Type :=
| Send (content : string) (embed : option Embed)          (* [ctx.send] *)
| ChannelSend (ch : Channel) (content : string) (embed : option Embed)
| AddReaction (emoji : string)
| Edit (embed : Embed)                                    (* [message.edit] *)
| Sleep (seconds : Z)
| CreateRole (role : Role) (color : Z)
| AddRoles (role : Role)
| RemoveRoles (role : Role).

Definition nl : string := String (ascii_of_nat 10) EmptyString.
Definition dquote : string := String (ascii_of_nat 34) EmptyString.
Definition check_mark : string := "✅".

(** [role.mention]. *)
Definition mention (r : Role) : string := "<@&" ++ str_of_Z (role_id r) ++ ">".

(** [discord.utils.get(items, name=n)]: the first item of that name. *)
Definition get_by_name {A} (name_of : A -> string) (n : string) (items : list A)
  : option A :=
  find (fun x => String.eqb (name_of x) n) items.

Definition get_club_role (g : Guild) (club_key : string) : option Role :=
  match dict_get club_key CAMPUS_CLUBS with
  | None => None
  | Some club_info =>
      let role_name_ := name club_info ++ " Member" in
      get_by_name role_name role_name_ (roles g)
  end.

Definition month_names : list string :=
  [ "January"; "February"; "March"; "April"; "May"; "June"; "July";
    "August"; "September"; "October"; "November"; "December" ].

(** [d.strftime('%B %d, %Y at %I:%M %p')]. *)
Definition strftime_long (d : datetime) : string :=
  let h12 := (if (hour d mod 12 =? 0)%Z then 12 else hour d mod 12)%Z in
  nth (Z.to_nat (month d - 1)) month_names "" ++ " " ++
  zero_pad 2 (day d) ++ ", " ++ zero_pad 4 (year d) ++ " at " ++
  zero_pad 2 h12 ++ ":" ++ zero_pad 2 (minute d) ++ " " ++
  (if (hour d <? 12)%Z then "AM" else "PM").

(** Truth value of a command argument that defaults to [None]. *)
Definition given (a : option string) : bool :=
  match a with
  | Some s => negb (String.eqb s "")
  | None => false
  end.

Definition arg (a : option string) : string :=
  match a with Some s => s | None => "" end.

(** ** Club membership *)

Definition set_member_clubs (d : ClubData) (m : dict (list string)) : ClubData :=
  mk_club_data (events d) (announcements d) (attendance d) (club_roles d) m.

(** [role in member.roles]: roles are equal when their ids are. *)
Definition has_role (r : Role) (l : list Role) : bool :=
  existsb (fun r' => (role_id r' =? role_id r)%Z) l.

(** [l.remove(x)] on a list that holds [x]: the first occurrence goes. *)
Fixpoint remove_first (x : string) (l : list string) : list string :=
  match l with
  | [] => []
  | y :: l' => if String.eqb y x then l' else y :: remove_first x l'
  end.

(** [user.mention]. *)
Definition mention_user (u : User) : string := "<@" ++ str_of_Z (user_id u) ++ ">".

(** The reply to an unknown club key ([InvalidClub]). *)
Definition club_not_found (club_key : string) : action :=
  Send ("❌ Club '" ++ club_key ++ "' not found.") None.

(** [join_club]; [new_role_id] is the id the platform gives the role when
    it has to be created. *)
Definition join_club (ctx : Context) (new_role_id : Z) (club_key : option string)
    (w : World) : World * list action :=
  if negb (given club_key)
  then (w, [Send "❌ Please specify a club to join. Use `!clubs` to see available clubs." None])
  else
    let club_key := lower (arg club_key) in
    match dict_get club_key CAMPUS_CLUBS with
    | None =>
        (w, [Send ("❌ Club '" ++ club_key ++
                   "' not found. Use `!clubs` to see available clubs.") None])
    | Some club_info =>
        let role_name_ := name club_info ++ " Member" in
        let (role, created) :=
          match get_by_name role_name role_name_ (roles (guild ctx)) with
          | Some role => (role, [])
          | None =>
              let role := mk_role new_role_id role_name_ in
              (role, [CreateRole role (color club_info)])
          end in
        if has_role role (author_roles ctx)
        then (w, (created ++
                  [Send ("📋 You're already a member of " ++ name club_info ++ "!")
                        None])%list)
        else
          let d := club_data w in
          let uid := str_of_Z (user_id (author ctx)) in
          let m1 :=
            if dict_mem uid (member_clubs d) then member_clubs d
            else dict_set uid [] (member_clubs d) in
          let clubs := match dict_get uid m1 with Some l => l | None => [] end in
          let m2 :=
            if list_in club_key clubs then m1
            else dict_set uid (clubs ++ [club_key])%list m1 in
          (save_data (set_club_data w (set_member_clubs d m2)),
           (created ++
            [ AddRoles role;
              Send "" (Some (mk_embed
                               ("🎉 Welcome to " ++ name club_info ++ "!")
                               (mention_user (author ctx) ++
                                " has successfully joined " ++ name club_info ++ "!")
                               (color club_info) [] None)) ])%list)
    end.

Definition leave_club (ctx : Context) (club_key : option string) (w : World)
  : World * list action :=
  if negb (given club_key)
  then (w, [Send "❌ Please specify a club to leave. Use `!myclubs` to see your clubs." None])
  else
    let club_key := lower (arg club_key) in
    match dict_get club_key CAMPUS_CLUBS with
    | None => (w, [club_not_found club_key])
    | Some club_info =>
        let not_a_member :=
          (w, [Send ("❌ You're not a member of " ++ name club_info ++ ".") None]) in
        match get_club_role (guild ctx) club_key with
        | None => not_a_member
        | Some role =>
            if negb (has_role role (author_roles ctx)) then not_a_member
            else
              let d := club_data w in
              let uid := str_of_Z (user_id (author ctx)) in
              let m :=
                match dict_get uid (member_clubs d) with
                | Some clubs =>
                    if list_in club_key clubs
                    then dict_set uid (remove_first club_key clubs) (member_clubs d)
                    else member_clubs d
                | None => member_clubs d
                end in
              (save_data (set_club_data w (set_member_clubs d m)),
               [ RemoveRoles role;
                 Send ("👋 You have left " ++ name club_info ++ ".") None ])
        end
    end.

(** ** Event management *)

Definition usage_event : action :=
  Send ("❌ Usage: `!event <club> " ++ dquote ++ "<title>" ++ dquote ++ " " ++
        dquote ++ "<description>" ++ dquote ++ " <YYYY-MM-DD> <HH:MM>`") None.

(** The reply to a date and time that do not parse ([InvalidTimestamp]). *)
Definition invalid_datetime : action :=
  Send "❌ Invalid date/time format. Use YYYY-MM-DD HH:MM" None.

Definition event_embed (club_info : ClubInfo) (title description : string)
    (event_datetime : datetime) (event_id : string) : Embed :=
  mk_embed ("📅 New " ++ name club_info ++ " Event") "" (color club_info)
    [ ("Event", title);
      ("Description", description);
      ("Date & Time", strftime_long event_datetime);
      ("RSVP", "React with ✅ to attend!") ]
    (Some ("Event ID: " ++ event_id)).

(** The identifier [create_event] gives the next event of [club_key]. *)
Definition next_event_id (club_key : string) (d : ClubData) : string :=
  club_key ++ "_" ++ str_of_nat (List.length (events d)).

Definition create_event `{DatetimeLib} (ctx : Context)
    (club_key title description date time : option string) (w : World)
  : World * list action :=
  if negb (given club_key && given title && given description &&
           given date && given time)
  then (w, [usage_event])
  else
    let club_key := lower (arg club_key) in
    match dict_get club_key CAMPUS_CLUBS with
    | None => (w, [club_not_found club_key])
    | Some club_info =>
        match strptime (arg date ++ " " ++ arg time) with
        | None => (w, [invalid_datetime])
        | Some event_datetime =>
            let d := club_data w in
            let event_id := next_event_id club_key d in
            let event :=
              mk_event club_key (arg title) (arg description)
                       (isoformat event_datetime)
                       (str_of_Z (user_id (author ctx))) [] in
            let w' :=
              save_data
                (set_club_data w (set_events d (dict_set event_id event (events d)))) in
            (w',
             ([ Send "" (Some (event_embed club_info (arg title) (arg description)
                                           event_datetime event_id));
                AddReaction check_mark ] ++
              match get_club_role (guild ctx) club_key with
              | Some role => [Send ("📢 " ++ mention role ++ " - New event announced!") None]
              | None => []
              end)%list)
        end
    end.

(** An entry of [upcoming_events]: identifier, event, parsed time. *)
Definition entry : Type := (string * Event * datetime)%type.

Definition entry_id (x : entry) : string := fst (fst x).
Definition entry_event (x : entry) : Event := snd (fst x).
Definition entry_time (x : entry) : datetime := snd x.

(** The loop of [list_events] that fills [upcoming_events]. *)
Fixpoint collect_upcoming `{DatetimeLib} (club_key : option string)
    (current_time : datetime) (evs : dict Event) : outcome (list entry) :=
  match evs with
  | [] => Done []
  | (event_id, event) :: rest =>
      event_time <- or_raise ValueError (fromisoformat (ev_datetime event)) ;;
      tail <- collect_upcoming club_key current_time rest ;;
      Done (if dt_ltb current_time event_time &&
               match club_key with
               | None => true
               | Some k => String.eqb (ev_club event) (lower k)
               end
            then (event_id, event, event_time) :: tail
            else tail)
  end.

(** [upcoming_events.sort(key=lambda x: x[2])]: the sort is stable. *)
Fixpoint insert_by_time (x : entry) (l : list entry) : list entry :=
  match l with
  | [] => [x]
  | y :: l' =>
      if dt_leb (entry_time x) (entry_time y) then x :: y :: l'
      else y :: insert_by_time x l'
  end.

Fixpoint sort_by_time (l : list entry) : list entry :=
  match l with
  | [] => []
  | x :: l' => insert_by_time x (sort_by_time l')
  end.

(** The entries the embed of [list_events] is built from:
    [upcoming_events[:10]] after the sort. *)
Definition listed_events `{DatetimeLib} (club_key : option string)
    (current_time : datetime) (w : World) : outcome (list entry) :=
  l <- collect_upcoming club_key current_time (events (club_data w)) ;;
  Done (firstn 10 (sort_by_time l)).

Definition event_field (x : entry) : outcome (string * string) :=
  club_info <- or_raise KeyError (dict_get (ev_club (entry_event x)) CAMPUS_CLUBS) ;;
  Done (emoji club_info ++ " " ++ ev_title (entry_event x),
        "**Club:** " ++ name club_info ++ nl ++
        "**When:** " ++ strftime_long (entry_time x) ++ nl ++
        "**Attendees:** " ++ str_of_nat (List.length (ev_attendees (entry_event x)))).

Fixpoint event_fields (l : list entry) : outcome (list (string * string)) :=
  match l with
  | [] => Done []
  | x :: l' =>
      f <- event_field x ;;
      fs <- event_fields l' ;;
      Done (f :: fs)
  end.

(** The reply of [list_events] when [upcoming_events] is empty. *)
Definition nothing_upcoming (club_key : option string) : action :=
  let club_name :=
    if given club_key then
      match dict_get (lower (arg club_key)) CAMPUS_CLUBS with
      | Some club_info => name club_info
      | None => "any club"
      end
    else "any club" in
  Send ("📅 No upcoming events for " ++ club_name ++ ".") None.

Definition list_events `{DatetimeLib} (club_key : option string)
    (current_time : datetime) (w : World) : outcome (list action) :=
  upcoming_events <- collect_upcoming club_key current_time (events (club_data w)) ;;
  match upcoming_events with
  | [] => Done [nothing_upcoming club_key]
  | _ :: _ =>
      fs <- event_fields (firstn 10 (sort_by_time upcoming_events)) ;;
      Done [Send "" (Some (mk_embed "📅 Upcoming Events" "" 0xe74c3c fs None))]
  end.

(** ** Attendance tracking *)

Definition usage_attendance : action :=
  Send "❌ Usage: `!attendance <club> [duration_in_minutes]`" None.

Definition attendance_embed (club_info : ClubInfo) (duration : Z)
    (session_id : string) : Embed :=
  mk_embed ("📝 " ++ name club_info ++ " Attendance")
    ("Attendance tracking has started!" ++ nl ++
     "Duration: " ++ str_of_Z duration ++ " minutes" ++ nl ++ nl ++
     "React with ✅ to mark yourself present!")
    (color club_info) [] (Some ("Session ID: " ++ session_id)).

(** What the coroutine keeps across its sleep. *)
Record OpenSession : Type := mk_open_session {
  os_session_id : string;
  os_club_info : ClubInfo
}.

(** [start_attendance] up to and including [asyncio.sleep]; [duration] is
    [None] when the command gives no minutes.  [now_id] and [now_start] are
    the two readings of the clock. *)
Definition start_attendance (ctx : Context) (club_key : option string)
    (duration : option Z) (now_id now_start : datetime) (w : World)
  : World * list action * option OpenSession :=
  let duration := match duration with Some n => n | None => 5%Z end in
  if negb (given club_key) then (w, [usage_attendance], None)
  else
    let club_key := lower (arg club_key) in
    match dict_get club_key CAMPUS_CLUBS with
    | None => (w, [club_not_found club_key], None)
    | Some club_info =>
        let session_id := club_key ++ "_" ++ strftime_session now_id in
        let d := club_data w in
        let session := mk_session club_key (isoformat now_start) duration [] in
        let w' :=
          save_data
            (set_club_data w
               (set_attendance d (dict_set session_id session (attendance d)))) in
        (w',
         ([ Send "" (Some (attendance_embed club_info duration session_id));
            AddReaction check_mark ] ++
          match get_club_role (guild ctx) club_key with
          | Some role => [Send ("📢 " ++ mention role ++ " - Attendance is being taken!") None]
          | None => []
          end ++
          [ Sleep (duration * 60) ])%list,
         Some (mk_open_session session_id club_info))
    end.

Definition closed_embed (club_info : ClubInfo) (total_present : nat) : Embed :=
  mk_embed ("📝 " ++ name club_info ++ " Attendance - CLOSED")
    ("Attendance tracking has ended." ++ nl ++
     "Total present: " ++ str_of_nat total_present)
    0x95a5a6 [] None.

(** [start_attendance] after the sleep, on the store as it is by then;
    whatever is raised is swallowed ([except: pass]). *)
Definition close_attendance (o : OpenSession) (w : World) : list action :=
  match dict_get (os_session_id o) (attendance (club_data w)) with
  | Some session =>
      [Edit (closed_embed (os_club_info o) (List.length (ss_present session)))]
  | None => []
  end.

(** ** Reaction handler *)

Definition is_check_mark (e : Emoji) : bool :=
  match e with
  | UnicodeEmoji s => String.eqb s check_mark
  | CustomEmoji _ => false
  end.

(** [text.split(": ")[1]]. *)
Definition token_of (text : string) : outcome string :=
  or_raise IndexError (nth_error (split ": " text) 1).

Definition on_reaction_add (reaction : Reaction) (user : User) (w : World)
  : outcome World :=
  if user_bot user then Done w
  else
    match is_check_mark (r_emoji reaction), embeds (r_message reaction) with
    | true, embed :: _ =>
        text <- or_raise TypeError (em_footer embed) ;;
        let d := club_data w in
        if str_in "Event ID:" text then
          event_id <- token_of text ;;
          match dict_get event_id (events d) with
          | Some event =>
              let uid := str_of_Z (user_id user) in
              if list_in uid (ev_attendees event) then Done w
              else
                let event' := set_attendees event (ev_attendees event ++ [uid])%list in
                Done (save_data
                        (set_club_data w
                           (set_events d (dict_set event_id event' (events d)))))
          | None => Done w
          end
        else if str_in "Session ID:" text then
          session_id <- token_of text ;;
          match dict_get session_id (attendance d) with
          | Some session =>
              let uid := str_of_Z (user_id user) in
              if list_in uid (ss_present session) then Done w
              else
                let session' := set_present session (ss_present session ++ [uid])%list in
                Done (save_data
                        (set_club_data w
                           (set_attendance d
                              (dict_set session_id session' (attendance d)))))
          | None => Done w
          end
        else Done w
    | _, _ => Done w
    end.

(** ** Reminder sweep

    The sweep sends messages one by one and may raise in between: a run is
    the messages sent so far, each labelled with the identifier of the event
    it is about, and how the run ended. *)

Definition trace (A : Type) : Type := (list (string * action) * outcome A)%type.

Definition ret {A} (a : A) : trace A := ([], Done a).

Definition emit (event_id : string) (a : action) : trace unit :=
  ([(event_id, a)], Done tt).

Definition lift {A} (m : outcome A) : trace A := ([], m).

Definition tbind {A B} (m : trace A) (f : A -> trace B) : trace B :=
  match m with
  | (log, Done a) => let (log', r) := f a in ((log ++ log')%list, r)
  | (log, Raise e) => (log, Raise e)
  end.

Notation "x <~ m ;; k" := (tbind m (fun x => k))
  (at level 61, m at next level, right associativity).

(** [for x in l: body(x)]. *)
Fixpoint for_each {A} (l : list A) (body : A -> trace unit) : trace unit :=
  match l with
  | [] => ret tt
  | x :: l' => _ <~ body x ;; for_each l' body
  end.

Definition reminder_embed (club_info : ClubInfo) (event : Event) : Embed :=
  mk_embed "⏰ Event Reminder"
    ("**" ++ ev_title event ++ "** starts in 1 hour!")
    (color club_info) [] None.

(** The body of [for guild in bot.guilds]. *)
Definition remind_guild (event_id : string) (event : Event) (g : Guild)
  : trace unit :=
  let club_key := ev_club event in
  match get_club_role g club_key with
  | Some role =>
      match get_by_name channel_name "general" (text_channels g) with
      | Some channel =>
          club_info <~ lift (or_raise KeyError (dict_get club_key CAMPUS_CLUBS)) ;;
          emit event_id
               (ChannelSend channel (mention role)
                            (Some (reminder_embed club_info event)))
      | None => ret tt
      end
  | None => ret tt
  end.

(** The body of [for event_id, event in club_data['events'].items()]. *)
Definition remind_event `{DatetimeLib} (current_time reminder_time : datetime)
    (guilds : list Guild) (kv : string * Event) : trace unit :=
  let (event_id, event) := kv in
  event_time <~ lift (or_raise ValueError (fromisoformat (ev_datetime event))) ;;
  if dt_ltb current_time event_time && dt_leb event_time reminder_time
  then for_each guilds (remind_guild event_id event)
  else ret tt.

(** One run of the [tasks.loop(minutes=30)] body.  It reads the store and
    writes nothing back. *)
Definition check_reminders `{DatetimeLib} (current_time : datetime)
    (guilds : list Guild) (w : World) : trace unit :=
  reminder_time <~ lift (add_one_hour current_time) ;;
  for_each (events (club_data w)) (remind_event current_time reminder_time guilds).

(** How many messages of a log are about one event. *)
Definition count_for (event_id : string) (log : list (string * action)) : nat :=
  List.length (filter (fun la => String.eqb (fst la) event_id) log).

(** The reminders a run sent about one event. *)
Definition reminders_for (event_id : string) (t : trace unit)
  : list (string * action) :=
  filter (fun la => String.eqb (fst la) event_id) (fst t).

(** ** An implementation of the datetime parsers

    [strptime] and [fromisoformat] on the zero-padded texts
    [YYYY-MM-DD HH:MM] and [YYYY-MM-DDTHH:MM:SS[.ffffff]], where they agree
    with the library (which accepts further spellings).  It instantiates
    the interface in the examples. *)

Definition digit (c : ascii) : option Z :=
  let n := nat_of_ascii c in
  if (48 <=? n)%nat && (n <=? 57)%nat then Some (Z.of_nat (n - 48)) else None.

Fixpoint number_from (acc : Z) (s : string) : option Z :=
  match s with
  | EmptyString => Some acc
  | String c s' =>
      let? v := digit c in number_from (acc * 10 + v) s'
  end.

Definition number (s : string) : option Z :=
  match s with
  | EmptyString => None
  | _ => number_from 0 s
  end.

Definition char_is (n : nat) (c : string) (s : string) : bool :=
  String.eqb (substring n 1 s) c.

Definition in_range (lo x hi : Z) : bool := ((lo <=? x) && (x <=? hi))%Z.

Definition valid_date (y m d : Z) : bool :=
  in_range 1 y 9999 && in_range 1 m 12 && in_range 1 d (days_in_month y m).

Definition valid_time (h mi s us : Z) : bool :=
  in_range 0 h 23 && in_range 0 mi 59 && in_range 0 s 59 && in_range 0 us 999999.

Definition strptime_padded (s : string) : option datetime :=
  if (String.length s =? 16)%nat && char_is 4 "-" s && char_is 7 "-" s &&
     char_is 10 " " s && char_is 13 ":" s
  then
    let? y := number (substring 0 4 s) in
    let? m := number (substring 5 2 s) in
    let? d := number (substring 8 2 s) in
    let? h := number (substring 11 2 s) in
    let? mi := number (substring 14 2 s) in
    if valid_date y m d && valid_time h mi 0 0
    then Some (mk_datetime y m d h mi 0 0)
    else None
  else None.

Definition fromisoformat_padded (s : string) : option datetime :=
  if char_is 4 "-" s && char_is 7 "-" s && char_is 10 "T" s &&
     char_is 13 ":" s && char_is 16 ":" s
  then
    let? y := number (substring 0 4 s) in
    let? m := number (substring 5 2 s) in
    let? d := number (substring 8 2 s) in
    let? h := number (substring 11 2 s) in
    let? mi := number (substring 14 2 s) in
    let? sec := number (substring 17 2 s) in
    let? us :=
      if (String.length s =? 19)%nat then Some 0%Z
      else if (String.length s =? 26)%nat && char_is 19 "." s
           then number (substring 20 6 s)
           else None in
    if valid_date y m d && valid_time h mi sec us
    then Some (mk_datetime y m d h mi sec us)
    else None
  else None.

(** [n] is written in exactly [width] digits, and read back. *)
Definition pad_check (width : nat) (n : Z) : bool :=
  (String.length (zero_pad width n) =? width)%nat &&
  match number (zero_pad width n) with
  | Some m => (m =? n)%Z
  | None => false
  end.

#[export] Instance padded_datetime_lib : DatetimeLib := {
  strptime := strptime_padded;
  fromisoformat := fromisoformat_padded
}.

(** ** Routing of a reaction

    The record a reaction is routed to, read off the handler's tests: the
    first embed's footer names an event when it contains [Event ID:], and
    otherwise a session when it contains [Session ID:]; the token is the
    second piece of the footer split at colon-space. *)

Definition event_token (r : Reaction) : option string :=
  match embeds (r_message r) with
  | embed :: _ =>
      match em_footer embed with
      | Some text =>
          if str_in "Event ID:" text
          then match token_of text with Done t => Some t | Raise _ => None end
          else None
      | None => None
      end
  | [] => None
  end.

Definition session_token (r : Reaction) : option string :=
  match embeds (r_message r) with
  | embed :: _ =>
      match em_footer embed with
      | Some text =>
          if str_in "Event ID:" text then None
          else if str_in "Session ID:" text
          then match token_of text with Done t => Some t | Raise _ => None end
          else None
      | None => None
      end
  | [] => None
  end.

(** A check-in: the check mark, put by an account that is not a bot. *)
Definition is_check_in (r : Reaction) (u : User) : bool :=
  is_check_mark (r_emoji r) && negb (user_bot u).

Definition attendees_of (event_id : string) (w : World) : list string :=
  match dict_get event_id (events (club_data w)) with
  | Some e => ev_attendees e
  | None => []
  end.

Definition present_of (session_id : string) (w : World) : list string :=
  match dict_get session_id (attendance (club_data w)) with
  | Some s => ss_present s
  | None => []
  end.

(** The events recorded for one club. *)
Definition events_of_club (club_key : string) (d : ClubData) : dict Event :=
  filter (fun kv => String.eqb (ev_club (snd kv)) club_key) (events d).

(** [x] is listed no later than [y]. *)
Definition by_time (x y : entry) : Prop :=
  dt_leb (entry_time x) (entry_time y) = true.

(** Every stored [datetime] text is one [fromisoformat] reads. *)
Definition events_parse `{DatetimeLib} (w : World) : Prop :=
  Forall (fun kv => fromisoformat (ev_datetime (snd kv)) <> None)
         (events (club_data w)).

(** What the loop of [list_events] keeps: stored events, with the time
    their text parses to, later than now, of the club asked for. *)
Definition kept `{DatetimeLib} (club_key : option string) (now : datetime) (evs : dict Event)
    (x : entry) : Prop :=
  dt_ltb now (entry_time x) = true /\
  In (entry_id x, entry_event x) evs /\
  fromisoformat (ev_datetime (entry_event x)) = Some (entry_time x) /\
  match club_key with
  | None => True
  | Some k => ev_club (entry_event x) = lower k
  end.

(** Every stored event belongs to a club of the registry. *)
Definition events_known (w : World) : Prop :=
  Forall (fun kv => dict_mem (ev_club (snd kv)) CAMPUS_CLUBS = true)
         (events (club_data w)).

(** [t] lies in the window [(now, now + 1h]] of a sweep run at [now]. *)
Definition in_reminder_window (now t : datetime) : bool :=
  match add_one_hour now with
  | Done reminder_time => dt_ltb now t && dt_leb t reminder_time
  | Raise _ => false
  end.

(** A guild the sweep can post in for a club: the member role and a
    channel named [general] both exist. *)
Definition can_remind (club_key : string) (g : Guild) : bool :=
  match get_club_role g club_key, get_by_name channel_name "general" (text_channels g) with
  | Some _, Some _ => true
  | _, _ => false
  end.

(** ** Runs of the bot

    The states a run goes through: a process starts with the empty store,
    the handlers change it, and a restart reads back the file the last
    successful save wrote. *)

Inductive reachable `{DatetimeLib} : World -> Prop :=
| reach_boot writable :
    reachable (mk_world empty_club_data Missing writable)
| reach_disk w writable :
    reachable w ->
    reachable (mk_world (club_data w) (bot_data_json w) writable)
| reach_restart w writable w' :
    reachable w ->
    load_data (mk_world empty_club_data (bot_data_json w) writable) = Some w' ->
    reachable w'
| reach_create w ctx club_key title description date time :
    reachable w ->
    reachable (fst (create_event ctx club_key title description date time w))
| reach_attendance w ctx club_key duration now_id now_start :
    reachable w ->
    reachable (fst (fst (start_attendance ctx club_key duration now_id now_start w)))
| reach_reaction w r u w' :
    reachable w ->
    on_reaction_add r u w = Done w' ->
    reachable w'
| reach_join w ctx new_role_id club_key :
    reachable w ->
    reachable (fst (join_club ctx new_role_id club_key w))
| reach_leave w ctx club_key :
    reachable w ->
    reachable (fst (leave_club ctx club_key w)).

(** The shape every reachable store has: distinct event keys, distinct
    session keys, event times that parse, event clubs of the registry. *)
Definition store_ok `{DatetimeLib} (d : ClubData) : Prop :=
  dict_wf (events d) /\
  dict_wf (attendance d) /\
  Forall (fun kv => fromisoformat (ev_datetime (snd kv)) <> None) (events d) /\
  Forall (fun kv => dict_mem (ev_club (snd kv)) CAMPUS_CLUBS = true) (events d).

(** The file, when it is a document, is a saved store of that shape. *)
Definition file_ok `{DatetimeLib} (f : file_state) : Prop :=
  match f with
  | Document j => exists d, j = json_encode (club_data_py d) /\ store_ok d
  | _ => True
  end.

Definition world_ok `{DatetimeLib} (w : World) : Prop :=
  store_ok (club_data w) /\ file_ok (bot_data_json w).

(** ** Example data *)

Definition fresh_world : World := mk_world empty_club_data Missing true.

Definition campus_guild : Guild :=
  mk_guild 1
    [ mk_role 10 "Science Club Member"; mk_role 11 "Art Club Member" ]
    [ mk_channel 20 "general" ].

Definition officer : Context := mk_context (mk_user 7 false) [] campus_guild.

Definition member : User := mk_user 42 false.

Definition helper_bot : User := mk_user 99 true.

(** The store after [!event debate "Finals" "Grand final" 2025-03-01 18:00]. *)
Definition debate_world : World :=
  fst (create_event officer (Some "debate") (Some "Finals")
         (Some "Grand final") (Some "2025-03-01") (Some "18:00") fresh_world).

(** The store after [!event science "Lab Night" "Bring goggles" 2025-01-01 12:00]. *)
Definition lab_night_world : World :=
  fst (create_event officer (Some "science") (Some "Lab Night")
         (Some "Bring goggles") (Some "2025-01-01") (Some "12:00") fresh_world).

Definition check_on (e : Embed) : Reaction :=
  mk_reaction (UnicodeEmoji check_mark) (mk_message [e]).

Definition lab_night_rsvp : Reaction :=
  check_on (event_embed (mk_club "Science Club" "🔬" 0xfeca57) "Lab Night"
              "Bring goggles" (mk_datetime 2025 1 1 12 0 0 0) "science_0").

Definition thumbs_up : Reaction :=
  mk_reaction (UnicodeEmoji "👍") (r_message lab_night_rsvp).

(** Two consecutive runs of the sweep, thirty minutes apart, and the time
    of the Lab Night event. *)
Definition sweep_1110 : datetime := mk_datetime 2025 1 1 11 10 0 0.
Definition sweep_1140 : datetime := mk_datetime 2025 1 1 11 40 0 0.
Definition lab_night_time : datetime := mk_datetime 2025 1 1 12 0 0 0.

Definition art_start : datetime := mk_datetime 2025 1 1 9 0 0 0.

(** [!attendance art 1] at 09:00:00. *)
Definition art_session_started : World * list action * option OpenSession :=
  start_attendance officer (Some "art") (Some 1%Z) art_start art_start fresh_world.

Definition art_world : World := fst (fst art_session_started).

Definition art_open : OpenSession :=
  mk_open_session "art_20250101_090000" (mk_club "Art Club" "🎨" 0x96ceb4).

Definition art_check_in : Reaction :=
  check_on (attendance_embed (os_club_info art_open) 1 (os_session_id art_open)).

Definition science_club : ClubInfo := mk_club "Science Club" "🔬" 0xfeca57.

(** The store after the debate event, then a science event, then the art
    session: two events and one session. *)
Definition campus_world : World :=
  let w := fst (create_event officer (Some "Science") (Some "Lab Night")
                  (Some "Bring goggles") (Some "2025-01-01") (Some "12:00")
                  debate_world) in
  fst (fst (start_attendance officer (Some "art") (Some 1%Z) art_start art_start w)).

Definition science_rsvp : Reaction :=
  check_on (event_embed science_club "Lab Night" "Bring goggles"
              (mk_datetime 2025 1 1 12 0 0 0) "science_1").

(** ** Further commands *)



(** A member of the guild: the account, its roles, and whether a direct
    message to it goes through ([member.send] raises otherwise). *)
Record Member : Type := mk_member {
  m_user : User;
  m_roles : list Role;
  m_accepts_dm : bool
}.

(** [role.members]: the members of the guild that hold the role. *)
Definition role_members (r : Role) (members : list Member) : list Member :=
  filter (fun m => has_role r (m_roles m)) members.

(** The embed of an announcement, with its timestamp and author line. *)
Record Announcement : Type := mk_announcement {
  an_embed : Embed;
  an_timestamp : datetime;
  an_author_name : string;
  an_icon_url : option string
}.

(** What [announce_dm] does, in order. *)
Inductive announce_step : Type :=
| Dm (to : User) (a : Announcement)    (* [member.send] that went through *)
| DmFailed (to : User)                 (* [member.send] that raised *)
| Wait (seconds : Z)                   (* [asyncio.sleep] *)
| Say (content : string).              (* [ctx.send] *)

(** The loop over [role.members], with its two counters. *)
Fixpoint dm_loop (a : Announcement) (ms : list Member) (success_count fail_count : nat)
  : list announce_step * nat * nat :=
  match ms with
  | [] => ([], success_count, fail_count)
  | m :: ms' =>
      if m_accepts_dm m then
        let '(steps, s, f) := dm_loop a ms' (S success_count) fail_count in
        (Dm (m_user m) a :: Wait 1 :: steps, s, f)
      else
        let '(steps, s, f) := dm_loop a ms' success_count (S fail_count) in
        (DmFailed (m_user m) :: steps, s, f)
  end.

Definition announce_report (success_count fail_count : nat) : string :=
  "✅ Announcement sent via DM to " ++ str_of_nat success_count ++
  " members. Failed to send to " ++ str_of_nat fail_count ++ " members.".

(** [announce_dm]; [members] is [ctx.guild.members], [display_name] and
    [avatar_url] are the author's, [now] is the clock. *)
Definition announce_dm (ctx : Context) (members : list Member)
    (display_name : string) (avatar_url : option string) (now : datetime)
    (club_key message : option string) : list announce_step :=
  if negb (given club_key) || negb (given message)
  then [Say ("❌ Usage: `!announce <club> " ++ dquote ++ "<your announcement>" ++
             dquote ++ "`")]
  else
    let club_key := lower (arg club_key) in
    match dict_get club_key CAMPUS_CLUBS with
    | None => [Say ("❌ Club '" ++ club_key ++ "' not found.")]
    | Some club_info =>
        match get_club_role (guild ctx) club_key with
        | None => [Say ("❌ Role for " ++ name club_info ++ " not found.")]
        | Some role =>
            let a :=
              mk_announcement
                (mk_embed ("📢 " ++ name club_info ++ " Announcement") (arg message)
                          (color club_info) [] None)
                now display_name avatar_url in
            let '(steps, success_count, fail_count) :=
              dm_loop a (role_members role members) 0 0 in
            (steps ++ [Say (announce_report success_count fail_count)])%list
        end
    end.

(** [int(s)] and [random.randint(1, limit)] as the dice command uses them:
    [py_int] is [None] where [int] raises, and [draw i] is what the [i]-th
    call of [randint] returns. *)
Class DiceLib : Type := {
  py_int : string -> option Z;
  draw : nat -> Z
}.

(** How a roll ends. *)
Inductive roll_outcome : Type :=
| TooManyDice
| BadFormat
| Rolled (results : list Z).

(** The [try] block of [roll]: any exception in it is the bad-format
    case ([randint] raises when the limit is below one). *)
Definition roll_outcome_of `{DiceLib} (dice : option string) : roll_outcome :=
  let dice := match dice with Some s => s | None => "1d6" end in
  match split "d" (lower dice) with
  | [a; b] =>
      match py_int a, py_int b with
      | Some rolls, Some limit =>
          if (rolls >? 20)%Z then TooManyDice
          else if (0 <? rolls)%Z && (limit <? 1)%Z then BadFormat
          else Rolled (map draw (seq 0 (Z.to_nat rolls)))
      | _, _ => BadFormat
      end
  | _ => BadFormat
  end.

Definition roll `{DiceLib} (ctx : Context) (dice : option string) : action :=
  match roll_outcome_of dice with
  | TooManyDice => Send "❌ I can't roll more than 20 dice at once!" None
  | BadFormat => Send "❌ Format has to be NdN! Example: !roll 2d6" None
  | Rolled results =>
      Send ("🎲 " ++ mention_user (author ctx) ++ " rolled: " ++
            String.concat ", " (map str_of_Z results) ++
            " (Total: " ++ str_of_Z (fold_right Z.add 0%Z results) ++ ")") None
  end.

(** Plain digit strings read as integers, and the draws 3, 1, 4, ... *)
#[export] Instance digits_dice_lib : DiceLib := {
  py_int := number;
  draw := fun i => nth i [3; 1; 4; 1; 5; 9; 2; 6]%Z 1%Z
}.

(** One reaction put on the same message by several accounts, one after
    the other; an exception in the handler is logged by the library and the
    next reaction is handled on the state as it is. *)
Fixpoint react_all (r : Reaction) (users : list User) (w : World) : World :=
  match users with
  | [] => w
  | u :: users' =>
      match on_reaction_add r u w with
      | Done w' => react_all r users' w'
      | Raise _ => react_all r users' w
      end
  end.

(** ** Characters of identifiers

    The identifiers the bot writes into footers are made of registry keys,
    digits, the minus sign and the underscore. *)

Fixpoint str_all (P : ascii -> bool) (s : string) : bool :=
  match s with
  | EmptyString => true
  | String c s' => P c && str_all P s'
  end.

(** Neither the colon the footer is split at nor the capital [E] that
    opens [Event ID:]. *)
Definition token_char (c : ascii) : bool :=
  negb (Ascii.eqb c ":") && negb (Ascii.eqb c "E").

Definition not_underscore (c : ascii) : bool := negb (Ascii.eqb c "_").

(** ** One handler run

    [handler_step w w']: a command or a reaction takes the process from
    [w] to [w']. *)
Inductive handler_step `{DatetimeLib} : World -> World -> Prop :=
| step_create w ctx club_key title description date time :
    handler_step w (fst (create_event ctx club_key title description date time w))
| step_attendance w ctx club_key duration now_id now_start :
    handler_step w
      (fst (fst (start_attendance ctx club_key duration now_id now_start w)))
| step_reaction w r u w' :
    on_reaction_add r u w = Done w' -> handler_step w w'
| step_join w ctx new_role_id club_key :
    handler_step w (fst (join_club ctx new_role_id club_key w))
| step_leave w ctx club_key :
    handler_step w (fst (leave_club ctx club_key w)).

(** [on_ready]: the store is read from the file (the reminder loop is
    started next, and runs [check_reminders] from then on). *)
Definition on_ready (w : World) : option World := load_data w.

(** A process that has just started: the empty store, the file as the last
    process left it. *)
Definition fresh_process (f : file_state) (writable : bool) : World :=
  mk_world empty_club_data f writable.

(** The file, when it is a document, is a saved store with property [P]. *)
Definition file_holds (P : ClubData -> Prop) (f : file_state) : Prop :=
  match f with
  | Document j => exists d, j = json_encode (club_data_py d) /\ P d
  | _ => True
  end.

(** No member is twice in an attendee list or a present list. *)
Definition check_ins_distinct (d : ClubData) : Prop :=
  Forall (fun kv => NoDup (ev_attendees (snd kv))) (events d) /\
  Forall (fun kv => NoDup (ss_present (snd kv))) (attendance d).

(** Every member has one record, with clubs of the registry, none twice. *)
Definition records_distinct (d : ClubData) : Prop :=
  dict_wf (member_clubs d) /\
  Forall (fun kv =>
            NoDup (snd kv) /\
            Forall (fun c => dict_mem c CAMPUS_CLUBS = true) (snd kv))
         (member_clubs d).

(** Every event key is a key without underscore, an underscore, and a
    number below the number of events. *)
Definition event_ids_numbered (d : ClubData) : Prop :=
  forall k, In k (dict_keys (events d)) ->
    exists c i,
      k = c ++ "_" ++ str_of_nat i /\
      str_all not_underscore c = true /\
      (i < List.length (events d))%nat.

(** The clubs recorded for a member. *)
Definition clubs_of (uid : string) (w : World) : list string :=
  match dict_get uid (member_clubs (club_data w)) with
  | Some l => l
  | None => []
  end.

(** The debate store in a process whose disk has become read-only. *)
Definition offline_world : World :=
  mk_world (club_data debate_world) (bot_data_json debate_world) false.

(** [!event science "Lab Night" "Bring goggles" 2025-01-01 12:00] run on a
    given state. *)
Definition add_lab_night (w : World) : World * list action :=
  create_event officer (Some "science") (Some "Lab Night")
    (Some "Bring goggles") (Some "2025-01-01") (Some "12:00") w.

(** The membership records after [join_club] has recorded [club_key] for
    [uid]: a record is made if there is none, and the club is appended if it
    is not in it. *)
Definition record_join (uid club_key : string) (m : dict (list string))
  : dict (list string) :=
  let m1 := if dict_mem uid m then m else dict_set uid [] m in
  let clubs := match dict_get uid m1 with Some l => l | None => [] end in
  if list_in club_key clubs then m1
  else dict_set uid (clubs ++ [club_key])%list m1.

(** The ways the handlers change the store. *)
Inductive store_change `{DatetimeLib} : ClubData -> ClubData -> Prop :=
| change_event d club_key club_info title description text dt creator :
    dict_get club_key CAMPUS_CLUBS = Some club_info ->
    strptime text = Some dt ->
    store_change d
      (set_events d
         (dict_set (next_event_id club_key d)
            (mk_event club_key title description (isoformat dt) creator [])
            (events d)))
| change_session d club_key club_info now_id start duration :
    dict_get club_key CAMPUS_CLUBS = Some club_info ->
    store_change d
      (set_attendance d
         (dict_set (club_key ++ "_" ++ strftime_session now_id)
            (mk_session club_key start duration [])
            (attendance d)))
| change_attendee d event_id event uid :
    dict_get event_id (events d) = Some event ->
    list_in uid (ev_attendees event) = false ->
    store_change d
      (set_events d
         (dict_set event_id
            (set_attendees event (ev_attendees event ++ [uid])%list)
            (events d)))
| change_present d session_id session uid :
    dict_get session_id (attendance d) = Some session ->
    list_in uid (ss_present session) = false ->
    store_change d
      (set_attendance d
         (dict_set session_id
            (set_present session (ss_present session ++ [uid])%list)
            (attendance d)))
| change_join d uid club_key club_info :
    dict_get club_key CAMPUS_CLUBS = Some club_info ->
    store_change d (set_member_clubs d (record_join uid club_key (member_clubs d)))
| change_leave d uid club_key clubs :
    dict_get uid (member_clubs d) = Some clubs ->
    list_in club_key clubs = true ->
    store_change d
      (set_member_clubs d
         (dict_set uid (remove_first club_key clubs) (member_clubs d))).

(** The campus store after member 42 has put a check mark on the Lab
    Night announcement and has joined the music club. *)
Definition busy_world : World :=
  let w := match on_reaction_add science_rsvp member campus_world with
           | Done w' => w'
           | Raise _ => campus_world
           end in
  fst (join_club (mk_context member [] campus_guild) 12 (Some "music") w).

(** The guild once the music role exists, and member 42 holding it. *)
Definition music_role : Role := mk_role 12 "Music Club Member".

Definition music_guild : Guild :=
  mk_guild 1 (music_role :: roles campus_guild) (text_channels campus_guild).

Definition music_member : Context := mk_context member [music_role] music_guild.

(** The campus store with, between its two events, an event whose time
    is not an ISO text (as a hand-edited file can bring in). *)
Definition damaged_world : World :=
  set_club_data campus_world
    (set_events (club_data campus_world)
       [ ("science_1",
          mk_event "science" "Lab Night" "Bring goggles" "2025-01-01T12:00:00" "7" []);
         ("art_9", mk_event "art" "Vernissage" "Open doors" "next friday" "7" []);
         ("science_2",
          mk_event "science" "Lab Night II" "Again" "2025-01-01T12:00:00" "7" []) ]).

(** The art session of 09:00:00 with member 42 present. *)
Definition art_attended : World :=
  match on_reaction_add art_check_in member art_world with
  | Done w => w
  | Raise _ => art_world
  end.

(** Three members of the guild: 42 holds the music role and takes direct
    messages, 43 holds it and has them closed, 44 does not hold it. *)
Definition guild_members : list Member :=
  [ mk_member member [music_role] true;
    mk_member (mk_user 43 false) [music_role] false;
    mk_member (mk_user 44 false) [] true ].

Definition music_officer : Context := mk_context (mk_user 7 false) [] music_guild.

(** * Properties *)

(** ** Dictionaries *)

Section DictFacts.
Context {V : Type}.
Implicit Types (d : dict V) (k : string) (v : V).

Lemma dict_get_set_same k v d : dict_get k (dict_set k v d) = Some v.
Proof.
  induction d as [|[k' v'] d IH]; simpl.
  - now rewrite String.eqb_refl.
  - destruct (String.eqb k k') eqn:E; simpl; rewrite E; auto.
Qed.

Lemma dict_get_set_other k k' v d :
  k' <> k -> dict_get k' (dict_set k v d) = dict_get k' d.
Proof.
  intros Hne.
  induction d as [|[k0 v0] d IH]; simpl.
  - destruct (String.eqb_spec k' k); congruence.
  - destruct (String.eqb_spec k k0) as [->|Hk]; simpl.
    + destruct (String.eqb_spec k' k0); congruence.
    + now rewrite IH.
Qed.

Lemma dict_keys_set_present k v v0 d :
  dict_get k d = Some v0 -> dict_keys (dict_set k v d) = dict_keys d.
Proof.
  induction d as [|[k' v'] d IH]; simpl; [discriminate|].
  destruct (String.eqb k k') eqn:E; simpl; intros H; [reflexivity|].
  f_equal. now apply IH.
Qed.

Lemma dict_keys_set_absent k v d :
  dict_get k d = None -> dict_keys (dict_set k v d) = (dict_keys d ++ [k])%list.
Proof.
  induction d as [|[k' v'] d IH]; simpl; [reflexivity|].
  destruct (String.eqb k k') eqn:E; simpl; intros H; [discriminate|].
  f_equal. now apply IH.
Qed.

Lemma dict_get_In k v d : dict_get k d = Some v -> In (k, v) d.
Proof.
  induction d as [|[k' v'] d IH]; simpl; [discriminate|].
  destruct (String.eqb_spec k k') as [->|Hk]; intros H.
  - left. congruence.
  - right. auto.
Qed.

Lemma dict_get_None_keys k d : dict_get k d = None -> ~ In k (dict_keys d).
Proof.
  induction d as [|[k' v'] d IH]; simpl; [tauto|].
  destruct (String.eqb_spec k k') as [->|Hk]; [discriminate|].
  intros H [E|HI]; [congruence|]. now apply IH.
Qed.

(** Assignment keeps the keys distinct. *)
Lemma dict_set_wf k v d : dict_wf d -> dict_wf (dict_set k v d).
Proof.
  unfold dict_wf. intros Hwf.
  destruct (dict_get k d) eqn:E.
  - now rewrite (dict_keys_set_present _ _ _ _ E).
  - rewrite (dict_keys_set_absent _ _ _ E).
    apply NoDup_app; [assumption | repeat constructor; simpl; tauto |].
    intros x Hx [<-|[]]. now apply (dict_get_None_keys _ _ E).
Qed.
End DictFacts.

(** ** Persistence never touches the store *)

Lemma club_data_save_data w : club_data (save_data w) = club_data w.
Proof. unfold save_data. now destruct (disk_writable w). Qed.

(** ** The reaction handler, by route *)

Lemma on_reaction_add_event r u w event_id event :
  is_check_in r u = true ->
  event_token r = Some event_id ->
  dict_get event_id (events (club_data w)) = Some event ->
  on_reaction_add r u w =
  let uid := str_of_Z (user_id u) in
  if list_in uid (ev_attendees event) then Done w
  else Done (save_data
               (set_club_data w
                  (set_events (club_data w)
                     (dict_set event_id
                        (set_attendees event (ev_attendees event ++ [uid])%list)
                        (events (club_data w)))))).
Proof.
  unfold is_check_in, event_token, on_reaction_add.
  intros Hc Ht Hg.
  apply andb_prop in Hc as [Hm Hb]. apply negb_true_iff in Hb.
  rewrite Hb, Hm.
  destruct (embeds (r_message r)) as [|embed rest]; [discriminate|].
  destruct (em_footer embed) as [text|]; [simpl|discriminate].
  destruct (str_in "Event ID:" text); [|discriminate].
  destruct (token_of text) as [t|e]; [|discriminate].
  simpl. injection Ht as ->. now rewrite Hg.
Qed.

Lemma on_reaction_add_session r u w session_id session :
  is_check_in r u = true ->
  session_token r = Some session_id ->
  dict_get session_id (attendance (club_data w)) = Some session ->
  on_reaction_add r u w =
  let uid := str_of_Z (user_id u) in
  if list_in uid (ss_present session) then Done w
  else Done (save_data
               (set_club_data w
                  (set_attendance (club_data w)
                     (dict_set session_id
                        (set_present session (ss_present session ++ [uid])%list)
                        (attendance (club_data w)))))).
Proof.
  unfold is_check_in, session_token, on_reaction_add.
  intros Hc Ht Hg.
  apply andb_prop in Hc as [Hm Hb]. apply negb_true_iff in Hb.
  rewrite Hb, Hm.
  destruct (embeds (r_message r)) as [|embed rest]; [discriminate|].
  destruct (em_footer embed) as [text|]; [simpl|discriminate].
  destruct (str_in "Event ID:" text); [discriminate|].
  destruct (str_in "Session ID:" text); [|discriminate].
  destruct (token_of text) as [t|e]; [|discriminate].
  simpl. injection Ht as ->. now rewrite Hg.
Qed.

Lemma list_in_app_self x l : list_in x (l ++ [x])%list = true.
Proof.
  unfold list_in. rewrite existsb_app. simpl.
  rewrite String.eqb_refl. now rewrite orb_true_r.
Qed.

(** A reaction that is not a check-in is dropped. *)
Lemma reaction_ignored_route r u w :
  is_check_in r u = false -> on_reaction_add r u w = Done w.
Proof.
  unfold is_check_in, on_reaction_add. intros H.
  destruct (user_bot u); [reflexivity|].
  rewrite andb_true_r in H. now rewrite H.
Qed.

(** C8: a reaction that is not the check mark, or that a bot account put,
    leaves the whole process state as it is: events, attendance sessions,
    membership records, and the file. *)
Theorem reaction_ignored r u w :
  is_check_mark (r_emoji r) = false \/ user_bot u = true ->
  on_reaction_add r u w = Done w.
Proof.
  unfold on_reaction_add. intros [H|H]; rewrite H.
  - now destruct (user_bot u).
  - reflexivity.
Qed.

Lemma reaction_ignored_thumbs_up :
  on_reaction_add thumbs_up member lab_night_world = Done lab_night_world.
Proof. apply (reaction_ignored thumbs_up member lab_night_world). left. reflexivity. Defined.

(** C4: checking in twice on an existing event is checking in once: the
    second identical check-in leaves the attendee list with the length the
    first one gave it, and indeed leaves the whole state as it was. *)
Theorem check_in_twice r u w event_id event :
  is_check_in r u = true ->
  event_token r = Some event_id ->
  dict_get event_id (events (club_data w)) = Some event ->
  exists w1 w2,
    on_reaction_add r u w = Done w1 /\
    on_reaction_add r u w1 = Done w2 /\
    List.length (attendees_of event_id w2) = List.length (attendees_of event_id w1) /\
    w2 = w1 /\
    list_in (str_of_Z (user_id u)) (attendees_of event_id w1) = true.
Proof.
  intros Hc Ht Hg.
  rewrite (on_reaction_add_event r u w event_id event Hc Ht Hg). cbv zeta.
  destruct (list_in (str_of_Z (user_id u)) (ev_attendees event)) eqn:Hin.
  - exists w, w. split; [reflexivity|].
    rewrite (on_reaction_add_event r u w event_id event Hc Ht Hg).
    cbv zeta. rewrite Hin. repeat split.
    unfold attendees_of. now rewrite Hg.
  - eexists. eexists. split; [reflexivity|].
    match goal with |- on_reaction_add r u ?w1 = _ /\ _ => set (w' := w1) end.
    assert (Hg' : dict_get event_id (events (club_data w')) =
                  Some (set_attendees event
                          (ev_attendees event ++ [str_of_Z (user_id u)])%list)).
    { unfold w'. rewrite club_data_save_data. simpl. apply dict_get_set_same. }
    rewrite (on_reaction_add_event r u w' event_id _ Hc Ht Hg').
    cbv zeta. simpl. rewrite list_in_app_self. repeat split.
    unfold attendees_of. rewrite Hg'. simpl. apply list_in_app_self.
Qed.

Lemma check_in_twice_lab_night :
  exists w1 w2,
    on_reaction_add lab_night_rsvp member lab_night_world = Done w1 /\
    on_reaction_add lab_night_rsvp member w1 = Done w2 /\
    List.length (attendees_of "science_0" w2) =
    List.length (attendees_of "science_0" w1) /\
    w2 = w1 /\
    list_in (str_of_Z (user_id member)) (attendees_of "science_0" w1) = true.
Proof.
  apply (check_in_twice lab_night_rsvp member lab_night_world "science_0"
           (mk_event "science" "Lab Night" "Bring goggles"
                     "2025-01-01T12:00:00" "7" []));
    reflexivity.
Defined.

(** C10: a reaction whose token names an existing event changes at most the
    attendee list of that one event: the sessions, the membership records
    and the two unused collections are the same afterwards, the event keys
    are the same in the same order, every other event is the same, and the
    named event differs in its attendees only. *)
Theorem check_in_frame r u w event_id event :
  event_token r = Some event_id ->
  dict_get event_id (events (club_data w)) = Some event ->
  exists w',
    on_reaction_add r u w = Done w' /\
    attendance (club_data w') = attendance (club_data w) /\
    member_clubs (club_data w') = member_clubs (club_data w) /\
    announcements (club_data w') = announcements (club_data w) /\
    club_roles (club_data w') = club_roles (club_data w) /\
    dict_keys (events (club_data w')) = dict_keys (events (club_data w)) /\
    (forall k, k <> event_id ->
       dict_get k (events (club_data w')) = dict_get k (events (club_data w))) /\
    exists event',
      dict_get event_id (events (club_data w')) = Some event' /\
      event' = set_attendees event (ev_attendees event').
Proof.
  intros Ht Hg.
  assert (Hsame : exists event',
             dict_get event_id (events (club_data w)) = Some event' /\
             event' = set_attendees event (ev_attendees event')).
  { exists event. split; [assumption|]. now destruct event. }
  destruct (is_check_in r u) eqn:Hc.
  - rewrite (on_reaction_add_event r u w event_id event Hc Ht Hg). cbv zeta.
    destruct (list_in (str_of_Z (user_id u)) (ev_attendees event)).
    + exists w. repeat split; auto.
    + eexists. split; [reflexivity|].
      rewrite club_data_save_data. simpl.
      repeat split.
      * now apply dict_keys_set_present with (v0 := event).
      * intros k Hk. now apply dict_get_set_other.
      * eexists. split; [apply dict_get_set_same|reflexivity].
  - exists w. split; [|repeat split; auto].
    apply reaction_ignored_route. exact Hc.
Qed.

Lemma check_in_frame_campus :
  exists w',
    on_reaction_add science_rsvp member campus_world = Done w' /\
    attendees_of "science_1" w' = ["42"] /\
    attendance (club_data w') = attendance (club_data campus_world) /\
    member_clubs (club_data w') = member_clubs (club_data campus_world) /\
    dict_get "debate_0" (events (club_data w')) =
    dict_get "debate_0" (events (club_data campus_world)).
Proof.
  destruct (check_in_frame science_rsvp member campus_world "science_1"
              (mk_event "science" "Lab Night" "Bring goggles"
                        "2025-01-01T12:00:00" "7" []))
    as (w' & Hrun & Hatt & Hmem & _ & _ & _ & Hother & _);
    [reflexivity | reflexivity |].
  exists w'. split; [exact Hrun|]. split.
  - vm_compute in Hrun. injection Hrun as <-. reflexivity.
  - split; [exact Hatt|]. split; [exact Hmem|].
    apply Hother. discriminate.
Defined.

(** ** Attendance sessions *)

(** C7, as the code has it: the store keeps no closed flag and the handler
    asks for none.  When the close action of a session has fired on state
    [w], rendering the number of members present in [w], a later check-in
    whose token names that session is still taken: it does not raise, and
    the member is appended to the present list unless already there. *)
Theorem mark_present_ignores_close r u w o session :
  is_check_in r u = true ->
  session_token r = Some (os_session_id o) ->
  dict_get (os_session_id o) (attendance (club_data w)) = Some session ->
  close_attendance o w =
    [Edit (closed_embed (os_club_info o) (List.length (ss_present session)))] /\
  exists w',
    on_reaction_add r u w = Done w' /\
    present_of (os_session_id o) w' =
      if list_in (str_of_Z (user_id u)) (ss_present session)
      then ss_present session
      else (ss_present session ++ [str_of_Z (user_id u)])%list.
Proof.
  intros Hc Ht Hg. split.
  - unfold close_attendance. now rewrite Hg.
  - rewrite (on_reaction_add_session r u w _ session Hc Ht Hg). cbv zeta.
    destruct (list_in (str_of_Z (user_id u)) (ss_present session)).
    + exists w. split; [reflexivity|]. unfold present_of. now rewrite Hg.
    + eexists. split; [reflexivity|].
      unfold present_of. rewrite club_data_save_data. simpl.
      now rewrite dict_get_set_same.
Qed.

Lemma mark_present_ignores_close_art :
  close_attendance art_open art_world =
    [Edit (closed_embed (os_club_info art_open) 0)] /\
  exists w',
    on_reaction_add art_check_in member art_world = Done w' /\
    present_of (os_session_id art_open) w' = ["42"].
Proof.
  apply (mark_present_ignores_close art_check_in member art_world art_open
           (mk_session "art" "2025-01-01T09:00:00" 1 []));
    reflexivity.
Defined.

(** C7 as stated fails.  [!attendance art 1] opens a session; its close
    action fires with nobody present and renders [Total present: 0].  A
    check mark handled after that, on the message as it still is until the
    edit has gone through (or for good, when the edit fails and the
    exception is swallowed), carries the session token: the member is added
    and the present set goes from empty to one member. *)
Lemma mark_present_changes_closed_session :
  snd art_session_started = Some art_open /\
  close_attendance art_open art_world =
    [Edit (closed_embed (os_club_info art_open) 0)] /\
  present_of (os_session_id art_open) art_world = [] /\
  exists w',
    on_reaction_add art_check_in member art_world = Done w' /\
    present_of (os_session_id art_open) w' = ["42"] /\
    present_of (os_session_id art_open) w' <>
    present_of (os_session_id art_open) art_world.
Proof.
  repeat split.
  eexists. split; [vm_compute; reflexivity|].
  split; [reflexivity|discriminate].
Qed.

(** The message the close action edits loses its footer: a check mark put
    on that very message makes the handler raise [TypeError] before it
    reads the store. *)
Lemma reaction_on_closed_embed club_info n u w :
  user_bot u = false ->
  on_reaction_add (check_on (closed_embed club_info n)) u w = Raise TypeError.
Proof.
  intros Hb. unfold on_reaction_add. rewrite Hb. reflexivity.
Qed.

(** C9: [!attendance <club>] without minutes is [!attendance <club> 5]:
    for a club of the registry the session is stored with duration 5 and the
    coroutine sleeps 300 seconds before it closes. *)
Theorem attendance_default_duration ctx club_key now_id now_start w club_info :
  given club_key = true ->
  dict_get (lower (arg club_key)) CAMPUS_CLUBS = Some club_info ->
  let session_id := lower (arg club_key) ++ "_" ++ strftime_session now_id in
  let run := start_attendance ctx club_key None now_id now_start w in
  run = start_attendance ctx club_key (Some 5%Z) now_id now_start w /\
  dict_get session_id (attendance (club_data (fst (fst run)))) =
    Some (mk_session (lower (arg club_key)) (isoformat now_start) 5 []) /\
  In (Sleep 300) (snd (fst run)) /\
  snd run = Some (mk_open_session session_id club_info).
Proof.
  intros Hg Hc session_id run. split; [reflexivity|].
  unfold run, start_attendance. rewrite Hg, Hc. simpl.
  rewrite club_data_save_data. simpl. rewrite dict_get_set_same.
  repeat split.
  destruct (get_club_role (guild ctx) (lower (arg club_key))); simpl; tauto.
Qed.

Lemma attendance_default_duration_art :
  let run := start_attendance officer (Some "art") None art_start art_start fresh_world in
  run = start_attendance officer (Some "art") (Some 5%Z) art_start art_start fresh_world /\
  dict_get "art_20250101_090000" (attendance (club_data (fst (fst run)))) =
    Some (mk_session "art" "2025-01-01T09:00:00" 5 []) /\
  In (Sleep 300) (snd (fst run)) /\
  snd run = Some (mk_open_session "art_20250101_090000" (os_club_info art_open)).
Proof.
  apply (attendance_default_duration officer (Some "art") art_start art_start
           fresh_world (os_club_info art_open));
    reflexivity.
Defined.

(** ** Event management, for any implementation of the datetime parsers *)

Section EventLedger.
Context {L : DatetimeLib}.

Lemma create_event_created ctx club_key title description date time w club_info dt :
  given club_key && given title && given description &&
  given date && given time = true ->
  dict_get (lower (arg club_key)) CAMPUS_CLUBS = Some club_info ->
  strptime (arg date ++ " " ++ arg time) = Some dt ->
  create_event ctx club_key title description date time w =
  let d := club_data w in
  let event_id := next_event_id (lower (arg club_key)) d in
  let event :=
    mk_event (lower (arg club_key)) (arg title) (arg description)
             (isoformat dt) (str_of_Z (user_id (author ctx))) [] in
  (save_data (set_club_data w (set_events d (dict_set event_id event (events d)))),
   ([ Send "" (Some (event_embed club_info (arg title) (arg description) dt event_id));
      AddReaction check_mark ] ++
    match get_club_role (guild ctx) (lower (arg club_key)) with
    | Some role => [Send ("📢 " ++ mention role ++ " - New event announced!") None]
    | None => []
    end)%list).
Proof.
  intros Hg Hc Hp. unfold create_event. now rewrite Hg, Hc, Hp.
Qed.

(** C3, as the code has it: a successful [create_event] names the event by
    the lower-cased club key, an underscore, and the number of events
    recorded so far for all clubs together.  The announcement carries that
    identifier and the event is stored under it; in an empty ledger the
    first event of club [science] is [science_0]. *)
Theorem event_id_counts_all_events
    ctx club_key title description date time w club_info dt :
  given club_key && given title && given description &&
  given date && given time = true ->
  dict_get (lower (arg club_key)) CAMPUS_CLUBS = Some club_info ->
  strptime (arg date ++ " " ++ arg time) = Some dt ->
  let event_id :=
    lower (arg club_key) ++ "_" ++ str_of_nat (List.length (events (club_data w))) in
  let run := create_event ctx club_key title description date time w in
  hd_error (snd run) =
    Some (Send "" (Some (event_embed club_info (arg title) (arg description)
                                     dt event_id))) /\
  dict_get event_id (events (club_data (fst run))) =
    Some (mk_event (lower (arg club_key)) (arg title) (arg description)
                   (isoformat dt) (str_of_Z (user_id (author ctx))) []) /\
  (events (club_data w) = [] -> arg club_key = "science" -> event_id = "science_0").
Proof.
  intros Hg Hc Hp event_id run. unfold run.
  rewrite (create_event_created _ _ _ _ _ _ _ _ _ Hg Hc Hp). cbv zeta.
  split; [reflexivity|]. split.
  - simpl fst. rewrite club_data_save_data. simpl. apply dict_get_set_same.
  - intros He Hk. unfold event_id. now rewrite He, Hk.
Qed.

(** C6, as the code has it: with all five arguments given, [create_event]
    answers that the club was not found when the lower-cased club key is
    not in the registry, and answers that the date and time are invalid
    when that key is in the registry and the text [date time] does not
    parse; in both cases the state, and so the event collection, is what it
    was. *)
Theorem create_event_rejects ctx club_key title description date time w :
  given club_key && given title && given description &&
  given date && given time = true ->
  (dict_mem (lower (arg club_key)) CAMPUS_CLUBS = false ->
   create_event ctx club_key title description date time w =
   (w, [club_not_found (lower (arg club_key))])) /\
  (dict_mem (lower (arg club_key)) CAMPUS_CLUBS = true ->
   strptime (arg date ++ " " ++ arg time) = None ->
   create_event ctx club_key title description date time w =
   (w, [invalid_datetime])).
Proof.
  intros Hg. unfold create_event, dict_mem. rewrite Hg. simpl negb. cbv iota.
  destruct (dict_get (lower (arg club_key)) CAMPUS_CLUBS); split;
    try discriminate; try reflexivity.
  intros _ Hp. now rewrite Hp.
Qed.

End EventLedger.

Lemma event_id_counts_all_events_science :
  let run := create_event officer (Some "science") (Some "Lab Night")
               (Some "Bring goggles") (Some "2025-01-01") (Some "12:00")
               fresh_world in
  hd_error (snd run) =
    Some (Send "" (Some (event_embed science_club "Lab Night" "Bring goggles"
                           (mk_datetime 2025 1 1 12 0 0 0) "science_0"))) /\
  dict_get "science_0" (events (club_data (fst run))) =
    Some (mk_event "science" "Lab Night" "Bring goggles"
                   "2025-01-01T12:00:00" "7" []).
Proof.
  destruct (event_id_counts_all_events officer (Some "science") (Some "Lab Night")
              (Some "Bring goggles") (Some "2025-01-01") (Some "12:00")
              fresh_world science_club (mk_datetime 2025 1 1 12 0 0 0))
    as (Hsend & Hstored & Hfirst); [reflexivity | reflexivity | reflexivity |].
  cbv zeta in *. rewrite (Hfirst eq_refl eq_refl) in Hsend, Hstored.
  split; [exact Hsend | exact Hstored].
Defined.

(** C3 as stated fails: with one debate event recorded and no science
    event, the next science event is [science_1], not [science_0]. *)
Lemma event_id_not_per_club :
  events_of_club "science" (club_data debate_world) = [] /\
  List.length (events (club_data debate_world)) = 1%nat /\
  hd_error (snd (create_event officer (Some "science") (Some "Lab Night")
                   (Some "Bring goggles") (Some "2025-01-01") (Some "12:00")
                   debate_world)) =
    Some (Send "" (Some (event_embed science_club "Lab Night" "Bring goggles"
                           (mk_datetime 2025 1 1 12 0 0 0) "science_1"))) /\
  event_embed science_club "Lab Night" "Bring goggles"
    (mk_datetime 2025 1 1 12 0 0 0) "science_1" <>
  event_embed science_club "Lab Night" "Bring goggles"
    (mk_datetime 2025 1 1 12 0 0 0) "science_0".
Proof.
  repeat split. discriminate.
Qed.

Lemma create_event_rejects_examples :
  create_event officer (Some "chess") (Some "Open day") (Some "All welcome")
               (Some "2025-01-01") (Some "12:00") debate_world =
    (debate_world, [club_not_found "chess"]) /\
  create_event officer (Some "Science") (Some "Lab Night") (Some "Bring goggles")
               (Some "tomorrow") (Some "noon") debate_world =
    (debate_world, [invalid_datetime]).
Proof.
  split.
  - apply (proj1 (create_event_rejects officer (Some "chess") (Some "Open day")
                    (Some "All welcome") (Some "2025-01-01") (Some "12:00")
                    debate_world eq_refl)).
    reflexivity.
  - apply (proj2 (create_event_rejects officer (Some "Science") (Some "Lab Night")
                    (Some "Bring goggles") (Some "tomorrow") (Some "noon")
                    debate_world eq_refl)); reflexivity.
Defined.

(** C6 as stated fails three ways.  A date that does not parse is not
    reported when the club is unknown: the club is checked first.  A key
    that is not in the registry as supplied, [Science], is accepted after
    lower-casing and the event is stored.  And an unknown club is not
    reported when an argument is missing: the usage line is sent. *)
Lemma create_event_rejection_order :
  (strptime "tomorrow noon" = None /\
   snd (create_event officer (Some "chess") (Some "Open day") (Some "All welcome")
          (Some "tomorrow") (Some "noon") fresh_world) = [club_not_found "chess"] /\
   club_not_found "chess" <> invalid_datetime) /\
  (dict_mem "Science" CAMPUS_CLUBS = false /\
   dict_keys (events (club_data (fst
     (create_event officer (Some "Science") (Some "Lab Night") (Some "Bring goggles")
        (Some "2025-01-01") (Some "12:00") fresh_world)))) = ["science_0"]) /\
  (dict_mem "chess" CAMPUS_CLUBS = false /\
   snd (create_event officer (Some "chess") None None None None fresh_world) =
     [usage_event] /\
   usage_event <> club_not_found "chess").
Proof.
  repeat split; discriminate.
Qed.

(** ** The order on datetimes *)

Lemma lex_compare_antisym a b : lex_compare b a = CompOpp (lex_compare a b).
Proof.
  revert b. induction a as [|x a IH]; intros [|y b]; simpl; try reflexivity.
  rewrite (Z.compare_antisym x y).
  destruct (Z.compare x y); simpl; auto.
Qed.

Lemma lex_compare_le_trans a b c :
  lex_compare a b <> Gt -> lex_compare b c <> Gt -> lex_compare a c <> Gt.
Proof.
  revert b c.
  induction a as [|x a IH]; intros [|y b] [|z c]; simpl; try congruence.
  destruct (Z.compare_spec x y), (Z.compare_spec y z), (Z.compare_spec x z);
    try lia; try congruence.
  apply IH.
Qed.

Lemma dt_leb_total a b : dt_leb a b = false -> dt_leb b a = true.
Proof.
  unfold dt_leb, dt_compare.
  rewrite (lex_compare_antisym (dt_fields a) (dt_fields b)).
  now destruct (lex_compare (dt_fields a) (dt_fields b)).
Qed.

Lemma dt_leb_trans a b c :
  dt_leb a b = true -> dt_leb b c = true -> dt_leb a c = true.
Proof.
  unfold dt_leb, dt_compare. intros Hab Hbc.
  pose proof (lex_compare_le_trans (dt_fields a) (dt_fields b) (dt_fields c)) as H.
  destruct (lex_compare (dt_fields a) (dt_fields b)),
           (lex_compare (dt_fields b) (dt_fields c)),
           (lex_compare (dt_fields a) (dt_fields c));
    try reflexivity; try discriminate; exfalso; apply H; congruence.
Qed.

(** [a < b] is [not (b <= a)]. *)
Lemma dt_ltb_leb a b : dt_ltb a b = negb (dt_leb b a).
Proof.
  unfold dt_ltb, dt_leb, dt_compare.
  rewrite (lex_compare_antisym (dt_fields a) (dt_fields b)).
  now destruct (lex_compare (dt_fields a) (dt_fields b)).
Qed.

(** ** Listing upcoming events *)

Lemma insert_by_time_Forall (P : entry -> Prop) x l :
  P x -> Forall P l -> Forall P (insert_by_time x l).
Proof.
  intros Hx Hl. induction Hl as [|y l Hy Hl IH]; simpl.
  - auto.
  - destruct (dt_leb (entry_time x) (entry_time y)); auto.
Qed.

Lemma sort_by_time_Forall (P : entry -> Prop) l :
  Forall P l -> Forall P (sort_by_time l).
Proof.
  induction 1; simpl; [constructor|]. now apply insert_by_time_Forall.
Qed.

Lemma insert_by_time_sorted x l :
  StronglySorted by_time l -> StronglySorted by_time (insert_by_time x l).
Proof.
  induction 1 as [|y l Hs IH Hy]; simpl.
  - repeat constructor.
  - destruct (dt_leb (entry_time x) (entry_time y)) eqn:E.
    + constructor; [now constructor|].
      constructor; [exact E|].
      eapply Forall_impl; [|exact Hy].
      intros z Hz. unfold by_time in *. eapply dt_leb_trans; eauto.
    + constructor; [exact IH|].
      apply insert_by_time_Forall; [|exact Hy].
      unfold by_time. now apply dt_leb_total.
Qed.

Lemma sort_by_time_sorted l : StronglySorted by_time (sort_by_time l).
Proof.
  induction l; simpl; [constructor|]. now apply insert_by_time_sorted.
Qed.

Lemma insert_by_time_length x l :
  List.length (insert_by_time x l) = S (List.length l).
Proof.
  induction l as [|y l IH]; simpl; [reflexivity|].
  destruct (dt_leb (entry_time x) (entry_time y)); simpl; auto.
Qed.

Lemma sort_by_time_length l : List.length (sort_by_time l) = List.length l.
Proof.
  induction l; simpl; [reflexivity|].
  rewrite insert_by_time_length. now f_equal.
Qed.

Lemma insert_by_time_perm x l : Permutation (insert_by_time x l) (x :: l).
Proof.
  induction l as [|y l IH]; simpl; [reflexivity|].
  destruct (dt_leb (entry_time x) (entry_time y)); [reflexivity|].
  rewrite IH. apply perm_swap.
Qed.

(** The sort only reorders. *)
Lemma sort_by_time_perm l : Permutation (sort_by_time l) l.
Proof.
  induction l as [|x l IH]; simpl; [reflexivity|].
  rewrite insert_by_time_perm. now constructor.
Qed.

Lemma sorted_app_le {A} (R : A -> A -> Prop) l1 l2 :
  StronglySorted R (l1 ++ l2)%list ->
  Forall (fun x => Forall (R x) l2) l1.
Proof.
  induction l1 as [|x l1 IH]; simpl; intros H; [constructor|].
  apply StronglySorted_inv in H as [Hs Hx].
  constructor; [|now apply IH].
  apply Forall_app in Hx. tauto.
Qed.

Lemma In_firstn {A} (y : A) n l : In y (firstn n l) -> In y l.
Proof.
  revert n. induction l as [|x l IH]; intros [|n]; simpl; try tauto.
  intros [E|H]; [now left | right; eauto].
Qed.

Lemma firstn_Forall {A} (P : A -> Prop) n l : Forall P l -> Forall P (firstn n l).
Proof.
  rewrite !Forall_forall. intros H y Hy. apply H. eapply In_firstn; eauto.
Qed.

Lemma firstn_sorted {A} (R : A -> A -> Prop) n l :
  StronglySorted R l -> StronglySorted R (firstn n l).
Proof.
  intros Hs. revert n.
  induction Hs as [|x l Hs IH Hx]; intros [|n]; simpl; try constructor.
  - apply IH.
  - now apply firstn_Forall.
Qed.

Section Listing.
Context {L : DatetimeLib}.

Lemma collect_upcoming_kept club_key now evs :
  Forall (fun kv => fromisoformat (ev_datetime (snd kv)) <> None) evs ->
  exists l,
    collect_upcoming club_key now evs = Done l /\
    Forall (kept club_key now evs) l.
Proof.
  induction 1 as [|[event_id event] evs Hp _ IH]; simpl.
  - exists []. split; [reflexivity | constructor].
  - destruct IH as (tail & -> & Htail).
    simpl in Hp.
    destruct (fromisoformat (ev_datetime event)) as [t|] eqn:Et; [|congruence].
    simpl.
    assert (Htail' : Forall (kept club_key now ((event_id, event) :: evs)) tail).
    { eapply Forall_impl; [|exact Htail].
      intros x (H1 & H2 & H3 & H4). repeat split; auto. now right. }
    eexists. split; [reflexivity|].
    destruct (dt_ltb now t) eqn:Elt; simpl; [|exact Htail'].
    destruct club_key as [k|].
    + destruct (String.eqb_spec (ev_club event) (lower k)) as [Ek|_];
        [|exact Htail'].
      constructor; [|exact Htail'].
      repeat split; simpl; auto.
    + constructor; [|exact Htail'].
      repeat split; simpl; auto.
Qed.

(** The loop leaves out no stored event that is later than now and of the
    club asked for. *)
Lemma collect_upcoming_complete club_key now evs all event_id event t :
  collect_upcoming club_key now evs = Done all ->
  In (event_id, event) evs ->
  fromisoformat (ev_datetime event) = Some t ->
  dt_ltb now t = true ->
  match club_key with
  | None => True
  | Some k => ev_club event = lower k
  end ->
  In (event_id, event, t) all.
Proof.
  intros Hrun Hin Ht Hlt Hclub. revert all Hrun.
  induction evs as [|[k e] evs IH]; simpl; intros all Hrun; [contradiction|].
  destruct (fromisoformat (ev_datetime e)) as [te|] eqn:Ee; [|discriminate].
  simpl in Hrun.
  destruct (collect_upcoming club_key now evs) as [tail|]; [|discriminate].
  simpl in Hrun. injection Hrun as <-.
  destruct Hin as [[= -> ->]|Hin].
  - rewrite Ht in Ee. injection Ee as <-. rewrite Hlt. simpl.
    destruct club_key as [k'|]; [|now left].
    rewrite Hclub, String.eqb_refl. now left.
  - specialize (IH Hin tail eq_refl).
    destruct (dt_ltb now te && _); [now right|exact IH].
Qed.

(** The ten listed are the ten earliest: whatever upcoming entry is left
    out is no earlier than each listed one. *)
Lemma listed_events_earliest club_key now w l :
  listed_events club_key now w = Done l ->
  exists all,
    collect_upcoming club_key now (events (club_data w)) = Done all /\
    Permutation (l ++ skipn 10 (sort_by_time all))%list all /\
    Forall (fun x => Forall (by_time x) (skipn 10 (sort_by_time all))) l.
Proof.
  unfold listed_events.
  destruct (collect_upcoming club_key now (events (club_data w))) as [all|];
    [|discriminate].
  cbn [bind]. intros H. exists all. split; [reflexivity|].
  assert (El : l = firstn 10 (sort_by_time all)) by congruence.
  clear H. subst l. split.
  - rewrite (firstn_skipn 10 (sort_by_time all)). apply sort_by_time_perm.
  - apply sorted_app_le.
    rewrite (firstn_skipn 10 (sort_by_time all)). apply sort_by_time_sorted.
Qed.

Lemma listed_events_upcoming_selected club_key now w :
  events_parse w ->
  exists l,
    listed_events club_key now w = Done l /\
    Forall (kept club_key now (events (club_data w))) l.
Proof.
  intros Hp. unfold listed_events.
  destruct (collect_upcoming_kept club_key now _ Hp) as (l & -> & Hl).
  cbn [bind]. eexists. split; [reflexivity|].
  apply firstn_Forall. now apply sort_by_time_Forall.
Qed.

(** [list_events] renders exactly the listed entries, and reports that
    nothing is upcoming exactly when there are none. *)
Lemma list_events_listed club_key now w :
  list_events club_key now w =
  (l <- listed_events club_key now w ;;
   match l with
   | [] => Done [nothing_upcoming club_key]
   | _ :: _ =>
       fs <- event_fields l ;;
       Done [Send "" (Some (mk_embed "📅 Upcoming Events" "" 0xe74c3c fs None))]
   end).
Proof.
  unfold list_events, listed_events.
  destruct (collect_upcoming club_key now (events (club_data w))) as [l|e];
    [|reflexivity].
  cbn [bind]. destruct l as [|x l]; [reflexivity|].
  destruct (firstn 10 (sort_by_time (x :: l))) as [|y l'] eqn:E; [|reflexivity].
  exfalso.
  assert (Hlen : List.length (firstn 10 (sort_by_time (x :: l))) = 0%nat)
    by now rewrite E.
  rewrite length_firstn, sort_by_time_length in Hlen. simpl in Hlen. lia.
Qed.

(** C2: on a store whose event times parse, [list_events] does not raise
    while it selects, and the entries it then renders are stored events that
    are all strictly later than now, in ascending order of their time, at
    most ten of them, and of the club asked for when one is named; with no
    such entry it answers that nothing is upcoming. *)
Theorem listed_events_upcoming_sorted club_key now w :
  events_parse w ->
  exists l,
    listed_events club_key now w = Done l /\
    Forall (fun x => dt_ltb now (entry_time x) = true /\
                     dt_leb (entry_time x) now = false) l /\
    StronglySorted by_time l /\
    (List.length l <= 10)%nat /\
    Forall (kept club_key now (events (club_data w))) l /\
    list_events club_key now w =
      match l with
      | [] => Done [nothing_upcoming club_key]
      | _ :: _ =>
          fs <- event_fields l ;;
          Done [Send "" (Some (mk_embed "📅 Upcoming Events" "" 0xe74c3c fs None))]
      end.
Proof.
  intros Hp. rewrite list_events_listed. unfold listed_events.
  destruct (collect_upcoming_kept club_key now _ Hp) as (l & -> & Hl).
  cbn [bind]. eexists. split; [reflexivity|].
  assert (Hk : Forall (kept club_key now (events (club_data w)))
                      (firstn 10 (sort_by_time l))).
  { apply firstn_Forall. now apply sort_by_time_Forall. }
  repeat split.
  - eapply Forall_impl; [|exact Hk].
    intros x (Hlt & _). split; [exact Hlt|].
    rewrite dt_ltb_leb in Hlt. now apply negb_true_iff in Hlt.
  - apply firstn_sorted, sort_by_time_sorted.
  - apply firstn_le_length.
  - exact Hk.
Qed.

Lemma event_fields_known l :
  Forall (fun x => dict_mem (ev_club (entry_event x)) CAMPUS_CLUBS = true) l ->
  exists fs, event_fields l = Done fs /\ List.length fs = List.length l.
Proof.
  induction 1 as [|x l Hx _ (fs & IH & Hlen)]; simpl.
  - now exists [].
  - unfold event_field, dict_mem in *.
    destruct (dict_get (ev_club (entry_event x)) CAMPUS_CLUBS); [|discriminate].
    simpl. rewrite IH. simpl. eexists. split; [reflexivity|].
    simpl. now f_equal.
Qed.

(** On a store whose event times parse and whose event clubs are known,
    [list_events] does reply: one embed with a field per listed entry, or
    the line that nothing is upcoming. *)
Lemma list_events_replies club_key now w :
  events_parse w ->
  events_known w ->
  exists l,
    listed_events club_key now w = Done l /\
    (l = [] /\ list_events club_key now w = Done [nothing_upcoming club_key] \/
     exists fs,
       List.length fs = List.length l /\
       list_events club_key now w =
       Done [Send "" (Some (mk_embed "📅 Upcoming Events" "" 0xe74c3c fs None))]).
Proof.
  intros Hp Hc.
  destruct (listed_events_upcoming_selected club_key now w Hp)
    as (l & Hrun & Hk).
  exists l. split; [exact Hrun|].
  rewrite list_events_listed, Hrun. cbn [bind].
  destruct l as [|x l]; [left; now split|right].
  destruct (event_fields_known (x :: l)) as (fs & -> & Hlen).
  - eapply Forall_impl; [|exact Hk].
    intros y (_ & Hin & _). unfold events_known in Hc.
    rewrite Forall_forall in Hc. exact (Hc _ Hin).
  - exists fs. now split.
Qed.

End Listing.

(** Scenario: the Lab Night event, then the science listing: exactly that
    event. *)
Example list_after_create :
  listed_events (Some "science") (mk_datetime 2024 12 31 8 0 0 0) lab_night_world =
  Done [ ("science_0",
          mk_event "science" "Lab Night" "Bring goggles" "2025-01-01T12:00:00" "7" [],
          lab_night_time) ].
Proof. reflexivity. Qed.

Lemma listed_events_campus :
  exists l,
    listed_events None (mk_datetime 2024 12 31 8 0 0 0) campus_world = Done l /\
    map entry_id l = ["science_1"; "debate_0"] /\
    StronglySorted by_time l /\
    (List.length l <= 10)%nat.
Proof.
  destruct (listed_events_upcoming_sorted None (mk_datetime 2024 12 31 8 0 0 0)
              campus_world)
    as (l & Hrun & _ & Hsorted & Hlen & _).
  - repeat constructor; discriminate.
  - exists l. split; [exact Hrun|]. split; [|split; assumption].
    vm_compute in Hrun. injection Hrun as <-. reflexivity.
Defined.

(** ** The reminder sweep *)

Lemma count_for_app event_id log log' :
  count_for event_id (log ++ log')%list =
  (count_for event_id log + count_for event_id log')%nat.
Proof. unfold count_for. now rewrite filter_app, length_app. Qed.

Lemma count_for_same event_id log :
  Forall (fun la => fst la = event_id) log ->
  count_for event_id log = List.length log.
Proof.
  unfold count_for. induction 1 as [|la log Hla _ IH]; simpl; [reflexivity|].
  rewrite Hla, String.eqb_refl. simpl. now f_equal.
Qed.

Lemma count_for_other event_id k log :
  k <> event_id ->
  Forall (fun la => fst la = k) log ->
  count_for event_id log = 0%nat.
Proof.
  unfold count_for. intros Hne. induction 1 as [|la log Hla _ IH]; simpl; [reflexivity|].
  rewrite Hla. destruct (String.eqb_spec k event_id); [contradiction|exact IH].
Qed.

(** A guild with the member role and a [general] channel gets exactly one
    message for the event, any other guild none. *)
Lemma remind_guild_one event_id event g :
  exists log,
    remind_guild event_id event g = (log, Done tt) /\
    Forall (fun la => fst la = event_id) log /\
    List.length log = if can_remind (ev_club event) g then 1%nat else 0%nat.
Proof.
  unfold remind_guild, can_remind, get_club_role.
  destruct (dict_get (ev_club event) CAMPUS_CLUBS) as [club_info|] eqn:Ec.
  - destruct (get_by_name role_name _ (roles g)) as [role|];
      [|exists []; repeat split; constructor].
    destruct (get_by_name channel_name "general" (text_channels g));
      [|exists []; repeat split; constructor].
    eexists. split; [reflexivity|]. split; [|reflexivity].
    repeat constructor.
  - exists []. repeat split; constructor.
Qed.

Lemma remind_guilds_log event_id event guilds :
  exists log,
    for_each guilds (remind_guild event_id event) = (log, Done tt) /\
    Forall (fun la => fst la = event_id) log /\
    List.length log = List.length (filter (can_remind (ev_club event)) guilds).
Proof.
  induction guilds as [|g guilds (log' & Hrun & Hlab & Hlen)]; simpl.
  - exists []. repeat split; constructor.
  - destruct (remind_guild_one event_id event g) as (log & -> & Hl & Hn).
    unfold tbind. rewrite Hrun.
    exists (log ++ log')%list. split; [reflexivity|]. split.
    + apply Forall_app. now split.
    + rewrite length_app, Hn, Hlen.
      now destruct (can_remind (ev_club event) g).
Qed.

Lemma dict_get_not_key {V} k (d : dict V) : ~ In k (dict_keys d) -> dict_get k d = None.
Proof.
  induction d as [|[k' v] d IH]; simpl; [reflexivity|].
  intros H. destruct (String.eqb_spec k k') as [->|_]; [tauto|].
  apply IH. tauto.
Qed.

Section Sweep.
Context {L : DatetimeLib}.

(** How many reminders one pass over the events sends about [event_id]. *)
Lemma remind_events_count now reminder_time guilds evs event_id :
  Forall (fun kv => fromisoformat (ev_datetime (snd kv)) <> None) evs ->
  dict_wf evs ->
  exists log,
    for_each evs (remind_event now reminder_time guilds) = (log, Done tt) /\
    count_for event_id log =
    match dict_get event_id evs with
    | Some event =>
        match fromisoformat (ev_datetime event) with
        | Some t =>
            if dt_ltb now t && dt_leb t reminder_time
            then List.length (filter (can_remind (ev_club event)) guilds)
            else 0%nat
        | None => 0%nat
        end
    | None => 0%nat
    end.
Proof.
  unfold dict_wf.
  induction 1 as [|[k event] evs Hp _ IH]; intros Hwf.
  - exists []. split; reflexivity.
  - simpl in Hwf. apply NoDup_cons_iff in Hwf as [Hk Hwf].
    destruct (IH Hwf) as (log' & Hrun & Hcount). clear IH.
    simpl in Hp.
    destruct (fromisoformat (ev_datetime event)) as [t|] eqn:Et; [|congruence].
    assert (Hhead : exists log,
               remind_event now reminder_time guilds (k, event) = (log, Done tt) /\
               Forall (fun la => fst la = k) log /\
               List.length log =
               if dt_ltb now t && dt_leb t reminder_time
               then List.length (filter (can_remind (ev_club event)) guilds)
               else 0%nat).
    { unfold remind_event. rewrite Et. simpl.
      destruct (dt_ltb now t && dt_leb t reminder_time).
      - destruct (remind_guilds_log k event guilds) as (log & -> & Hl & Hn).
        exists log. auto.
      - exists []. repeat split; constructor. }
    destruct Hhead as (log & Hhead & Hlab & Hlen).
    exists (log ++ log')%list. split.
    + cbn [for_each]. rewrite Hhead. unfold tbind. now rewrite Hrun.
    + rewrite count_for_app, Hcount. simpl dict_get.
      destruct (String.eqb_spec event_id k) as [->|Hne].
      * rewrite (dict_get_not_key _ _ Hk), Et.
        rewrite (count_for_same _ _ Hlab), Hlen. lia.
      * rewrite (count_for_other event_id k log); auto.
Qed.

(** C1, as the code has it: the store has no reminder-sent flag and the
    sweep writes nothing.  A sweep whose window [(now, now + 1h]] holds the
    time of a stored event sends one reminder for it to every guild that has
    the club's member role and a [general] channel (exactly one when the bot
    is in one such guild), and so does every later sweep whose window still
    holds that time. *)
Theorem reminder_sent_every_sweep w guilds now1 now2 event_id event t :
  dict_wf (events (club_data w)) ->
  events_parse w ->
  dict_get event_id (events (club_data w)) = Some event ->
  fromisoformat (ev_datetime event) = Some t ->
  in_reminder_window now1 t = true ->
  in_reminder_window now2 t = true ->
  let n := List.length (filter (can_remind (ev_club event)) guilds) in
  snd (check_reminders now1 guilds w) = Done tt /\
  List.length (reminders_for event_id (check_reminders now1 guilds w)) = n /\
  snd (check_reminders now2 guilds w) = Done tt /\
  List.length (reminders_for event_id (check_reminders now2 guilds w)) = n /\
  (forall g, guilds = [g] -> can_remind (ev_club event) g = true -> n = 1%nat).
Proof.
  intros Hwf Hp Hg Ht H1 H2 n.
  assert (Hsweep : forall now, in_reminder_window now t = true ->
            snd (check_reminders now guilds w) = Done tt /\
            List.length (reminders_for event_id (check_reminders now guilds w)) = n).
  { intros now Hwin. unfold in_reminder_window in Hwin.
    unfold check_reminders, reminders_for.
    destruct (add_one_hour now) as [reminder_time|]; [|discriminate].
    destruct (remind_events_count now reminder_time guilds _ event_id Hp Hwf)
      as (log & Hrun & Hcount).
    unfold lift, tbind. rewrite Hrun. simpl.
    split; [reflexivity|].
    unfold count_for in Hcount. rewrite Hcount, Hg, Ht, Hwin. reflexivity. }
  destruct (Hsweep now1 H1) as [Hs1 Hn1].
  destruct (Hsweep now2 H2) as [Hs2 Hn2].
  repeat split; auto.
  intros g -> Hcan. unfold n. simpl. now rewrite Hcan.
Qed.

End Sweep.

Lemma reminder_sent_every_sweep_lab_night :
  List.length (reminders_for "science_0"
                 (check_reminders sweep_1110 [campus_guild] lab_night_world)) = 1%nat /\
  List.length (reminders_for "science_0"
                 (check_reminders sweep_1140 [campus_guild] lab_night_world)) = 1%nat.
Proof.
  destruct (reminder_sent_every_sweep lab_night_world [campus_guild]
              sweep_1110 sweep_1140 "science_0"
              (mk_event "science" "Lab Night" "Bring goggles"
                        "2025-01-01T12:00:00" "7" [])
              lab_night_time)
    as (_ & Hfirst & _ & Hsecond & _).
  - repeat constructor. simpl. tauto.
  - repeat constructor. discriminate.
  - reflexivity.
  - reflexivity.
  - reflexivity.
  - reflexivity.
  - split; [exact Hfirst | exact Hsecond].
Defined.

(** C1 as stated fails.  The Lab Night event is at 12:00; the sweep of
    11:10 sends its reminder, and the next sweep, at 11:40, finds the event
    in its window again and sends the reminder a second time. *)
Lemma second_sweep_reminds_again :
  in_reminder_window sweep_1110 lab_night_time = true /\
  in_reminder_window sweep_1140 lab_night_time = true /\
  List.length (reminders_for "science_0"
                 (check_reminders sweep_1110 [campus_guild] lab_night_world)) = 1%nat /\
  List.length (reminders_for "science_0"
                 (check_reminders sweep_1140 [campus_guild] lab_night_world)) = 1%nat /\
  reminders_for "science_0"
    (check_reminders sweep_1140 [campus_guild] lab_night_world) <> [].
Proof.
  repeat split. discriminate.
Qed.

(** ** Persistence *)

(** Writing what was read gives the document back. *)
Lemma json_encode_decode : forall j, json_encode (json_decode j) = j.
Proof.
  fix IH 1. intros [ | b | z | s | l | o]; simpl; try reflexivity.
  - f_equal. induction l as [|x l IHl]; simpl; [reflexivity|].
    now rewrite IH, IHl.
  - f_equal. induction o as [|[k x] o IHo]; simpl; [reflexivity|].
    now rewrite IH, IHo.
Qed.

(** What [json.load] builds holds no foreign object. *)
Lemma native_json_decode : forall j, native_json (json_decode j) = Some j.
Proof.
  fix IH 1. intros [ | b | z | s | l | o]; simpl; try reflexivity.
  - induction l as [|x l IHl]; simpl; [reflexivity|].
    rewrite IH.
    destruct (fold_right _ _ (map json_decode l)) as [js|]; [|discriminate].
    simpl in *. congruence.
  - induction o as [|[k x] o IHo]; simpl; [reflexivity|].
    rewrite IH.
    destruct (fold_right _ _ (map _ o)) as [js|]; [|discriminate].
    simpl in *. congruence.
Qed.

(** A value without foreign objects is written as the document it is, and
    read back as itself; a foreign object comes back as its [str()]. *)
Lemma native_json_round_trip :
  forall v j, native_json v = Some j -> json_encode v = j /\ json_decode j = v.
Proof.
  fix IH 1. intros [ | b | z | s | l | d | s] j; simpl; intros H;
    try (injection H as <-; split; reflexivity); try discriminate.
  - revert j H. induction l as [|x l IHl]; simpl; intros j H.
    + injection H as <-. split; reflexivity.
    + destruct (native_json x) as [jx|] eqn:Ex; [|discriminate].
      destruct (fold_right _ _ l) as [js|] eqn:El; [|discriminate].
      injection H as <-.
      destruct (IH x jx Ex) as [H1 H2].
      destruct (IHl (JArr js) eq_refl) as [H3 H4].
      simpl in H3, H4. injection H3 as H3. injection H4 as H4.
      simpl. split; congruence.
  - revert j H. induction d as [|[k x] d IHd]; simpl; intros j H.
    + injection H as <-. split; reflexivity.
    + destruct (native_json x) as [jx|] eqn:Ex; [|discriminate].
      destruct (fold_right _ _ d) as [js|] eqn:El; [|discriminate].
      injection H as <-.
      destruct (IH x jx Ex) as [H1 H2].
      destruct (IHd (JObj js) eq_refl) as [H3 H4].
      simpl in H3, H4. injection H3 as H3. injection H4 as H4.
      simpl. split; congruence.
Qed.

Lemma foreign_object_not_restored s :
  json_decode (json_encode (PyOther s)) = PyStr s.
Proof. reflexivity. Qed.

Lemma decode_encode_str_list l :
  json_decode (json_encode (str_list_py l)) = str_list_py l.
Proof.
  unfold str_list_py. simpl. f_equal.
  induction l as [|x l IH]; simpl; [reflexivity|]. now rewrite IH.
Qed.

Lemma decode_encode_event e : json_decode (json_encode (event_py e)) = event_py e.
Proof.
  unfold event_py. cbn [json_encode json_decode map].
  now rewrite decode_encode_str_list.
Qed.

Lemma decode_encode_session s :
  json_decode (json_encode (session_py s)) = session_py s.
Proof.
  unfold session_py. cbn [json_encode json_decode map].
  now rewrite decode_encode_str_list.
Qed.

Lemma decode_encode_dict_py {V} (f : V -> pyobj) (d : dict V) :
  (forall v, json_decode (json_encode (f v)) = f v) ->
  json_decode (json_encode (dict_py f d)) = dict_py f d.
Proof.
  intros Hf. unfold dict_py. cbn [json_encode json_decode]. f_equal.
  induction d as [|[k v] d IH]; simpl; [reflexivity|].
  now rewrite Hf, IH.
Qed.

(** The store holds strings, integers, lists and dictionaries only: what
    [json.load] reads from the file [json.dump] wrote is the store. *)
Lemma decode_encode_club_data d :
  json_decode (json_encode (club_data_py d)) = club_data_py d.
Proof.
  unfold club_data_py. cbn [json_encode json_decode map].
  rewrite (decode_encode_dict_py event_py), (decode_encode_dict_py session_py),
    (decode_encode_dict_py str_list_py), !(decode_encode_dict_py json_decode);
    auto using decode_encode_event, decode_encode_session, decode_encode_str_list.
  all: intros j; now rewrite json_encode_decode.
Qed.

Lemma str_list_of_py_py l : str_list_of_py (str_list_py l) = Some l.
Proof.
  unfold str_list_of_py, str_list_py. simpl.
  induction l as [|x l IH]; simpl; [reflexivity|]. now rewrite IH.
Qed.

Lemma event_of_py_py e : event_of_py (event_py e) = Some e.
Proof.
  unfold event_of_py, event_py, field. simpl.
  rewrite str_list_of_py_py. simpl. now destruct e.
Qed.

Lemma session_of_py_py s : session_of_py (session_py s) = Some s.
Proof.
  unfold session_of_py, session_py, field. simpl.
  rewrite str_list_of_py_py. simpl. now destruct s.
Qed.

Lemma dict_of_py_py {V} (f : pyobj -> option V) (g : V -> pyobj) (d : dict V) :
  (forall v, f (g v) = Some v) -> dict_of_py f (dict_py g d) = Some d.
Proof.
  intros Hfg. unfold dict_of_py, dict_py. simpl.
  induction d as [|[k v] d IH]; simpl; [reflexivity|].
  now rewrite Hfg, IH.
Qed.

Lemma club_data_of_py_py d : club_data_of_py (club_data_py d) = Some d.
Proof.
  unfold club_data_of_py, club_data_py, field. simpl.
  rewrite (dict_of_py_py event_of_py event_py) by apply event_of_py_py.
  simpl.
  rewrite (dict_of_py_py native_json json_decode) by apply native_json_decode.
  simpl.
  rewrite (dict_of_py_py session_of_py session_py) by apply session_of_py_py.
  simpl.
  rewrite (dict_of_py_py native_json json_decode) by apply native_json_decode.
  simpl.
  rewrite (dict_of_py_py str_list_of_py str_list_py) by apply str_list_of_py_py.
  simpl. now destruct d.
Qed.

(** A failed write is swallowed: the state, file included, is what it was. *)
Lemma save_data_failed w : disk_writable w = false -> save_data w = w.
Proof. unfold save_data. now intros ->. Qed.

(** Without a readable file [load_data] leaves the store alone. *)
Lemma load_data_no_document w :
  bot_data_json w = Missing \/ bot_data_json w = Corrupt -> load_data w = Some w.
Proof. unfold load_data. now intros [-> | ->]. Qed.

(** C5: when the write goes through, [load_data] after [save_data] puts
    back the store that was saved, whatever the store holds when the file is
    read (the empty one after a restart): events, attendance sessions,
    membership records and the two unused collections are equal to the
    saved ones. *)
Theorem save_load_round_trip w :
  disk_writable w = true ->
  forall d0 writable,
  exists w',
    load_data (mk_world d0 (bot_data_json (save_data w)) writable) = Some w' /\
    club_data w' = club_data w /\
    events (club_data w') = events (club_data w) /\
    attendance (club_data w') = attendance (club_data w) /\
    member_clubs (club_data w') = member_clubs (club_data w).
Proof.
  intros Hw d0 writable. unfold save_data. rewrite Hw.
  unfold load_data. cbn [bot_data_json].
  rewrite decode_encode_club_data, club_data_of_py_py. cbn [obind].
  eexists. split; [reflexivity|]. repeat split.
Qed.

Lemma save_load_round_trip_campus :
  exists w',
    load_data (mk_world empty_club_data
                        (bot_data_json (save_data campus_world)) true) = Some w' /\
    club_data w' = club_data campus_world.
Proof.
  destruct (save_load_round_trip campus_world eq_refl empty_club_data true)
    as (w' & Hload & Hsame & _).
  exists w'. split; [exact Hload | exact Hsame].
Defined.

(** ** What every run preserves *)

Lemma Forall_dict_set {V} (P : string * V -> Prop) k v (d : dict V) :
  (forall k1 k2, P (k1, v) -> P (k2, v)) ->
  P (k, v) -> Forall P d -> Forall P (dict_set k v d).
Proof.
  intros Hk Hv. induction 1 as [|[k' v'] d Hx Hd IH]; simpl.
  - auto.
  - destruct (String.eqb k k'); constructor; eauto.
Qed.

Section Runs.
Context {L : DatetimeLib}.

(** What [strptime] returns, [isoformat] writes in a form [fromisoformat]
    reads. *)
Hypothesis strptime_readable :
  forall s dt, strptime s = Some dt -> fromisoformat (isoformat dt) <> None.

Lemma save_data_ok w : world_ok w -> world_ok (save_data w).
Proof.
  intros [Hs Hf]. unfold save_data.
  destruct (disk_writable w); [|now split].
  split; [exact Hs|]. simpl. now exists (club_data w).
Qed.

Lemma load_data_saved d0 d writable :
  load_data (mk_world d0 (Document (json_encode (club_data_py d))) writable) =
  Some (mk_world d (Document (json_encode (club_data_py d))) writable).
Proof.
  unfold load_data. cbn [bot_data_json].
  now rewrite decode_encode_club_data, club_data_of_py_py.
Qed.

Lemma create_event_ok ctx club_key title description date time w :
  world_ok w ->
  world_ok (fst (create_event ctx club_key title description date time w)).
Proof.
  intros Hw. unfold create_event.
  destruct (negb _); [exact Hw|].
  destruct (dict_get _ CAMPUS_CLUBS) eqn:Ec; [|exact Hw].
  destruct (strptime _) as [dt|] eqn:Ep; [|exact Hw].
  simpl fst. apply save_data_ok.
  destruct Hw as [(He & Ha & Hp & Hc) Hf]. split; [|exact Hf].
  repeat split; simpl.
  - now apply dict_set_wf.
  - exact Ha.
  - apply Forall_dict_set; auto. simpl. eapply strptime_readable; eauto.
  - apply Forall_dict_set; auto. simpl. unfold dict_mem. now rewrite Ec.
Qed.

Lemma start_attendance_ok ctx club_key duration now_id now_start w :
  world_ok w ->
  world_ok (fst (fst (start_attendance ctx club_key duration now_id now_start w))).
Proof.
  intros Hw. unfold start_attendance.
  destruct (negb _); [exact Hw|].
  destruct (dict_get _ CAMPUS_CLUBS); [|exact Hw].
  simpl fst. apply save_data_ok.
  destruct Hw as [(He & Ha & Hp & Hc) Hf]. split; [|exact Hf].
  repeat split; simpl; auto. now apply dict_set_wf.
Qed.

Lemma on_reaction_add_ok r u w w' :
  world_ok w -> on_reaction_add r u w = Done w' -> world_ok w'.
Proof.
  intros Hw. unfold on_reaction_add.
  destruct (user_bot u); [now intros [= <-]|].
  destruct (is_check_mark (r_emoji r)); [|now intros [= <-]].
  destruct (embeds (r_message r)) as [|embed rest]; [now intros [= <-]|].
  destruct (em_footer embed) as [text|]; [|discriminate]. simpl.
  destruct Hw as [(He & Ha & Hp & Hc) Hf].
  destruct (str_in "Event ID:" text).
  - destruct (token_of text) as [event_id|]; [|discriminate]. simpl.
    destruct (dict_get event_id (events (club_data w))) as [event|] eqn:Eg;
      [|now intros [= <-]].
    destruct (list_in _ _); intros [= <-]; [now repeat split|].
    apply save_data_ok. split; [|exact Hf].
    repeat split; simpl; auto.
    + now apply dict_set_wf.
    + apply Forall_dict_set; auto. simpl.
      apply dict_get_In in Eg. rewrite Forall_forall in Hp.
      exact (Hp _ Eg).
    + apply Forall_dict_set; auto. simpl.
      apply dict_get_In in Eg. rewrite Forall_forall in Hc.
      exact (Hc _ Eg).
  - destruct (str_in "Session ID:" text); [|now intros [= <-]].
    destruct (token_of text) as [session_id|]; [|discriminate]. simpl.
    destruct (dict_get session_id (attendance (club_data w))) as [session|];
      [|now intros [= <-]].
    destruct (list_in _ _); intros [= <-]; [now repeat split|].
    apply save_data_ok. split; [|exact Hf].
    repeat split; simpl; auto. now apply dict_set_wf.
Qed.

Lemma set_member_clubs_ok w m :
  world_ok w -> world_ok (save_data (set_club_data w (set_member_clubs (club_data w) m))).
Proof.
  intros [(He & Ha & Hp & Hc) Hf]. apply save_data_ok.
  split; [|exact Hf]. now repeat split.
Qed.

Lemma join_club_ok ctx new_role_id club_key w :
  world_ok w -> world_ok (fst (join_club ctx new_role_id club_key w)).
Proof.
  intros Hw. unfold join_club.
  destruct (negb _); [exact Hw|].
  destruct (dict_get _ CAMPUS_CLUBS); [|exact Hw].
  destruct (get_by_name _ _ _); cbv zeta;
    (destruct (has_role _ _); [exact Hw|]); simpl fst;
    now apply set_member_clubs_ok.
Qed.

Lemma leave_club_ok ctx club_key w :
  world_ok w -> world_ok (fst (leave_club ctx club_key w)).
Proof.
  intros Hw. unfold leave_club.
  destruct (negb _); [exact Hw|].
  destruct (dict_get _ CAMPUS_CLUBS); [|exact Hw].
  destruct (get_club_role _ _); [|exact Hw].
  destruct (negb _); [exact Hw|].
  simpl fst. now apply set_member_clubs_ok.
Qed.

(** Every reachable state has distinct keys, event times that parse, and a
    file that is missing or a saved store of the same shape. *)
Theorem reachable_ok w : reachable w -> world_ok w.
Proof.
  induction 1 as [ writable | w writable _ IH | w writable w' _ IH Hload
                 | w ctx ck t ds da ti _ IH | w ctx ck du n1 n2 _ IH
                 | w r u w' _ IH Hrun | w ctx rid ck _ IH | w ctx ck _ IH ].
  - split; [|exact I]. repeat split; constructor.
  - exact IH.
  - destruct IH as [_ Hf].
    destruct (bot_data_json w) as [ | |j] eqn:Ej.
    + injection Hload as <-. split; [|exact I]. repeat split; constructor.
    + injection Hload as <-. split; [|exact I]. repeat split; constructor.
    + destruct Hf as (d & -> & Hd).
      rewrite load_data_saved in Hload. injection Hload as <-.
      split; [exact Hd|]. now exists d.
  - now apply create_event_ok.
  - now apply start_attendance_ok.
  - eapply on_reaction_add_ok; eauto.
  - now apply join_club_ok.
  - now apply leave_club_ok.
Qed.

(** On a reachable state the sweep and the listing meet no unreadable
    time, no repeated key and no unknown club. *)
Corollary reachable_events w :
  reachable w ->
  dict_wf (events (club_data w)) /\ events_parse w /\ events_known w.
Proof.
  intros H. destruct (reachable_ok w H) as [(He & _ & Hp & Hc) _].
  now repeat split.
Qed.

End Runs.

(** ** The padded parsers read what [isoformat] writes *)

Lemma pad_check_below width bound n :
  forallb (pad_check width) (map Z.of_nat (seq 0 bound)) = true ->
  (0 <= n < Z.of_nat bound)%Z ->
  pad_check width n = true.
Proof.
  intros Hall Hn. rewrite forallb_forall in Hall. apply Hall.
  apply in_map_iff. exists (Z.to_nat n). split; [lia|].
  apply in_seq. lia.
Qed.

Lemma pad_check_2 n : (0 <= n < 100)%Z -> pad_check 2 n = true.
Proof. apply (pad_check_below 2 100). vm_compute. reflexivity. Qed.

Lemma pad_check_4 n : (0 <= n < 10000)%Z -> pad_check 4 n = true.
Proof.
  intros Hn. apply (pad_check_below 4 (100 * 100)); [|lia].
  vm_compute. reflexivity.
Qed.

Lemma pad_check_digits_2 n :
  pad_check 2 n = true ->
  exists a b, zero_pad 2 n = String a (String b "") /\
              number (String a (String b "")) = Some n.
Proof.
  unfold pad_check. intros H. apply andb_prop in H as [Hlen Hnum].
  destruct (zero_pad 2 n) as [|a [|b [|c s]]]; try discriminate.
  exists a, b. split; [reflexivity|].
  destruct (number (String a (String b ""))) as [m|]; [|discriminate].
  apply Z.eqb_eq in Hnum. now subst.
Qed.

Lemma pad_check_digits_4 n :
  pad_check 4 n = true ->
  exists a b c d, zero_pad 4 n = String a (String b (String c (String d ""))) /\
                  number (String a (String b (String c (String d "")))) = Some n.
Proof.
  unfold pad_check. intros H. apply andb_prop in H as [Hlen Hnum].
  destruct (zero_pad 4 n) as [|a [|b [|c [|d [|e s]]]]]; try discriminate.
  exists a, b, c, d. split; [reflexivity|].
  destruct (number (String a (String b (String c (String d ""))))) as [m|];
    [|discriminate].
  apply Z.eqb_eq in Hnum. now subst.
Qed.

Lemma days_in_month_le y m : (days_in_month y m <= 31)%Z.
Proof.
  unfold days_in_month.
  destruct (m =? 2)%Z; [destruct (is_leap y); lia|].
  destruct ((m =? 4) || (m =? 6) || (m =? 9) || (m =? 11))%Z; lia.
Qed.

Lemma fromisoformat_isoformat_padded y m d h mi :
  valid_date y m d = true ->
  valid_time h mi 0 0 = true ->
  fromisoformat_padded (isoformat (mk_datetime y m d h mi 0 0)) =
  Some (mk_datetime y m d h mi 0 0).
Proof.
  intros Hd Ht.
  assert (Hr : (1 <= y <= 9999 /\ 1 <= m <= 12 /\ 1 <= d <= 31 /\
                0 <= h <= 23 /\ 0 <= mi <= 59)%Z).
  { unfold valid_date, valid_time, in_range in *.
    pose proof (days_in_month_le y m). lia. }
  destruct (pad_check_digits_4 y) as (y1 & y2 & y3 & y4 & Ey & Ny);
    [apply pad_check_4; lia|].
  destruct (pad_check_digits_2 m) as (m1 & m2 & Em & Nm); [apply pad_check_2; lia|].
  destruct (pad_check_digits_2 d) as (d1 & d2 & Ed & Nd); [apply pad_check_2; lia|].
  destruct (pad_check_digits_2 h) as (h1 & h2 & Eh & Nh); [apply pad_check_2; lia|].
  destruct (pad_check_digits_2 mi) as (i1 & i2 & Ei & Ni); [apply pad_check_2; lia|].
  unfold isoformat. cbn [year month day hour minute second microsecond].
  rewrite Ey, Em, Ed, Eh, Ei.
  unfold fromisoformat_padded.
  cbn -[number valid_date valid_time].
  rewrite Ny. cbn [obind]. rewrite Nm. cbn [obind]. rewrite Nd. cbn [obind].
  rewrite Nh. cbn [obind]. rewrite Ni. cbn [obind].
  change (number "00") with (Some 0%Z). cbn [obind].
  now rewrite Hd, Ht.
Qed.

Lemma strptime_padded_valid s dt :
  strptime_padded s = Some dt ->
  exists y m d h mi,
    dt = mk_datetime y m d h mi 0 0 /\
    valid_date y m d = true /\ valid_time h mi 0 0 = true.
Proof.
  unfold strptime_padded.
  destruct (_ && _ && _ && _ && _); [|discriminate].
  destruct (number (substring 0 4 s)) as [y|]; [|discriminate].
  destruct (number (substring 5 2 s)) as [m|]; [|discriminate].
  destruct (number (substring 8 2 s)) as [d|]; [|discriminate].
  destruct (number (substring 11 2 s)) as [h|]; [|discriminate].
  destruct (number (substring 14 2 s)) as [mi|]; [|discriminate].
  cbn [obind].
  destruct (valid_date y m d) eqn:Hd; [|discriminate].
  destruct (valid_time h mi 0 0) eqn:Ht; [|discriminate].
  intros [= <-]. now exists y, m, d, h, mi.
Qed.

(** The padded parsers meet the assumption of [reachable_ok]. *)
Lemma padded_strptime_readable s dt :
  strptime s = Some dt -> fromisoformat (isoformat dt) <> None.
Proof.
  simpl. intros H.
  destruct (strptime_padded_valid s dt H) as (y & m & d & h & mi & -> & Hd & Ht).
  now rewrite fromisoformat_isoformat_padded.
Qed.

(** With them, every state a run reaches has distinct event keys and event
    times that parse: the listing and the sweep run on it without raising. *)
Lemma padded_reachable_events w :
  reachable w ->
  dict_wf (events (club_data w)) /\ events_parse w /\ events_known w.
Proof. apply reachable_events. exact padded_strptime_readable. Qed.

(** * Further properties of the handlers *)

(** ** Footers written and read *)

Lemma append_empty_r s : s ++ "" = s.
Proof. induction s as [|c s IH]; simpl; [reflexivity|]. now rewrite IH. Qed.

Lemma append_assoc_char a c b : (a ++ String c "") ++ b = a ++ String c b.
Proof. induction a as [|x a IH]; simpl; [reflexivity|]. now rewrite IH. Qed.

Lemma str_all_app P a b : str_all P (a ++ b) = str_all P a && str_all P b.
Proof.
  induction a as [|c a IH]; simpl; [reflexivity|].
  now rewrite IH, andb_assoc.
Qed.

(** A text without the first character of [sep] does not hold [sep]. *)
Lemma str_in_absent c sep s :
  str_all (fun x => negb (Ascii.eqb x c)) s = true ->
  str_in (String c sep) s = false.
Proof.
  induction s as [|x s IH]; simpl; [reflexivity|].
  intros H. apply andb_prop in H as [Hx Hs].
  rewrite (IH Hs), orb_false_r.
  destruct (Ascii.ascii_dec c x) as [->|Hne].
  - now rewrite Ascii.eqb_refl in Hx.
  - reflexivity.
Qed.

Lemma str_all_impl (P Q : ascii -> bool) s :
  (forall c, P c = true -> Q c = true) ->
  str_all P s = true -> str_all Q s = true.
Proof.
  intros HPQ. induction s as [|c s IH]; simpl; [reflexivity|].
  intros H. apply andb_prop in H as [Hc Hs].
  now rewrite (HPQ _ Hc), IH.
Qed.

(** Splitting a text that does not hold the separator gives the text. *)
Lemma split_from_absent sep cur s :
  str_in sep s = false -> split_from sep 0 cur s = [cur ++ s].
Proof.
  revert cur. induction s as [|c s IH]; simpl; intros cur H.
  - now rewrite append_empty_r.
  - apply orb_false_elim in H as [Hp Hs].
    rewrite Hp, (IH _ Hs). now rewrite append_assoc_char.
Qed.

Lemma token_char_no_colon s :
  str_all token_char s = true -> str_in ": " s = false.
Proof.
  intros H. apply str_in_absent.
  eapply str_all_impl; [|exact H].
  unfold token_char. intros c Hc. now apply andb_prop in Hc as [Hc _].
Qed.

Lemma token_char_no_event_label s :
  str_all token_char s = true -> str_in "Event ID:" s = false.
Proof.
  intros H. apply str_in_absent.
  eapply str_all_impl; [|exact H].
  unfold token_char. intros c Hc. now apply andb_prop in Hc as [_ Hc].
Qed.

Lemma prefix_empty s : prefix "" s = true.
Proof. now destruct s. Qed.

(** The event footer names its identifier: what [create_event] writes,
    [on_reaction_add] reads back. *)
Lemma event_footer_token event_id e rest :
  str_all token_char event_id = true ->
  em_footer e = Some ("Event ID: " ++ event_id) ->
  event_token (mk_reaction (UnicodeEmoji check_mark) (mk_message (e :: rest))) =
  Some event_id.
Proof.
  intros Hid He. unfold event_token. cbn [embeds r_message]. rewrite He.
  change (str_in "Event ID:" ("Event ID: " ++ event_id)) with true.
  cbn iota. unfold token_of, split.
  replace (split_from ": " 0 "" ("Event ID: " ++ event_id))
    with ("Event ID" :: split_from ": " 0 "" event_id)
    by (cbn; now rewrite prefix_empty).
  now rewrite (split_from_absent _ _ _ (token_char_no_colon _ Hid)).
Qed.

(** The session footer names its identifier, and is not taken for an
    event footer. *)
Lemma session_footer_token session_id e rest :
  str_all token_char session_id = true ->
  em_footer e = Some ("Session ID: " ++ session_id) ->
  session_token (mk_reaction (UnicodeEmoji check_mark) (mk_message (e :: rest))) =
  Some session_id.
Proof.
  intros Hid He. unfold session_token. cbn [embeds r_message]. rewrite He.
  assert (Hno : str_in "Event ID:" ("Session ID: " ++ session_id) = false).
  { apply str_in_absent. rewrite str_all_app.
    apply andb_true_intro. split; [reflexivity|].
    eapply str_all_impl; [|exact Hid].
    unfold token_char. intros c Hc. now apply andb_prop in Hc as [_ Hc]. }
  rewrite Hno.
  change (str_in "Session ID:" ("Session ID: " ++ session_id)) with true.
  cbn iota. unfold token_of, split.
  replace (split_from ": " 0 "" ("Session ID: " ++ session_id))
    with ("Session ID" :: split_from ": " 0 "" session_id)
    by (cbn; now rewrite prefix_empty).
  now rewrite (split_from_absent _ _ _ (token_char_no_colon _ Hid)).
Qed.

(** ** The identifiers the bot makes *)

Lemma uint_chars (P : ascii -> bool) d :
  (forall c, digit c <> None -> P c = true) ->
  str_all P (NilEmpty.string_of_uint d) = true.
Proof.
  intros HP. induction d; simpl; rewrite ?IHd; try reflexivity;
    rewrite HP; try reflexivity; discriminate.
Qed.

(** [str(n)] is made of digits and at most a leading minus sign. *)
Lemma str_of_Z_chars (P : ascii -> bool) z :
  (forall c, digit c <> None -> P c = true) ->
  P "-"%char = true ->
  str_all P (str_of_Z z) = true.
Proof.
  intros HP Hm. unfold str_of_Z.
  assert (Hu : forall d, str_all P (NilZero.string_of_uint d) = true).
  { intros d. destruct d; try apply (uint_chars P _ HP).
    simpl. rewrite HP; [reflexivity|discriminate]. }
  destruct (Z.to_int z) as [d|d]; simpl; [apply Hu|].
  now rewrite Hm, Hu.
Qed.

Lemma token_char_digit c : digit c <> None -> token_char c = true.
Proof.
  unfold digit, token_char. intros H.
  destruct (Ascii.eqb_spec c ":") as [->|_]; [now contradiction H|].
  destruct (Ascii.eqb_spec c "E") as [->|_]; [now contradiction H|].
  reflexivity.
Qed.

Lemma not_underscore_digit c : digit c <> None -> not_underscore c = true.
Proof.
  unfold digit, not_underscore. intros H.
  destruct (Ascii.eqb_spec c "_") as [->|_]; [now contradiction H|].
  reflexivity.
Qed.

Lemma str_of_Z_token z : str_all token_char (str_of_Z z) = true.
Proof. apply str_of_Z_chars; [apply token_char_digit | reflexivity]. Qed.

Lemma str_of_Z_no_underscore z : str_all not_underscore (str_of_Z z) = true.
Proof. apply str_of_Z_chars; [apply not_underscore_digit | reflexivity]. Qed.

Lemma concat_chars (P : ascii -> bool) l :
  Forall (fun x => str_all P x = true) l ->
  str_all P (String.concat "" l) = true.
Proof.
  induction 1 as [|x l Hx Hl IH]; [reflexivity|].
  simpl. destruct l; [exact Hx|].
  now rewrite !str_all_app, Hx, IH.
Qed.

Lemma zero_pad_token width z : str_all token_char (zero_pad width z) = true.
Proof.
  unfold zero_pad. rewrite str_all_app, str_of_Z_token, andb_true_r.
  apply concat_chars, Forall_forall. intros x Hx.
  apply repeat_spec in Hx. now subst.
Qed.

(** A key of the registry is one of the seven, all in lower-case letters. *)
Lemma registry_key club_key club_info :
  dict_get club_key CAMPUS_CLUBS = Some club_info ->
  str_all token_char club_key = true /\
  str_all not_underscore club_key = true /\
  lower club_key = club_key.
Proof.
  unfold CAMPUS_CLUBS. cbn [dict_get].
  repeat match goal with
         | |- context [String.eqb club_key ?k] =>
             destruct (String.eqb_spec club_key k) as [->|_];
             [intros _; repeat split; reflexivity|]
         end.
  discriminate.
Qed.

Lemma event_id_token club_key club_info n :
  dict_get club_key CAMPUS_CLUBS = Some club_info ->
  str_all token_char (club_key ++ "_" ++ str_of_nat n) = true.
Proof.
  intros Hc. destruct (registry_key _ _ Hc) as (Ht & _).
  rewrite !str_all_app, Ht. unfold str_of_nat. now rewrite str_of_Z_token.
Qed.

Lemma session_id_token club_key club_info now :
  dict_get club_key CAMPUS_CLUBS = Some club_info ->
  str_all token_char (club_key ++ "_" ++ strftime_session now) = true.
Proof.
  intros Hc. destruct (registry_key _ _ Hc) as (Ht & _).
  unfold strftime_session.
  now rewrite !str_all_app, Ht, !zero_pad_token.
Qed.

(** [str] of two different integers is two different texts. *)
Lemma str_of_Z_inj a b : str_of_Z a = str_of_Z b -> a = b.
Proof.
  unfold str_of_Z. intros H.
  assert (Hn : forall z, NilZero.int_of_string (NilZero.string_of_int (Z.to_int z)) =
                         Some (Z.to_int z)).
  { intros z. apply NilZero.isi; destruct z as [|p|p]; simpl; try discriminate;
      intros [= Hp]; now apply (DecimalPos.Unsigned.to_uint_nonnil p). }
  pose proof (Hn a) as Ha. rewrite H, Hn in Ha. injection Ha as Ha.
  rewrite <- (DecimalZ.of_to a), <- (DecimalZ.of_to b). now f_equal.
Qed.

Lemma str_of_nat_inj a b : str_of_nat a = str_of_nat b -> a = b.
Proof. unfold str_of_nat. intros H. apply str_of_Z_inj in H. lia. Qed.

(** Two identifiers [key_number] agree only when key and number do, the
    keys holding no underscore. *)
Lemma underscore_split a b a' b' :
  str_all not_underscore a = true ->
  str_all not_underscore a' = true ->
  a ++ "_" ++ b = a' ++ "_" ++ b' -> a = a' /\ b = b'.
Proof.
  revert a'. induction a as [|c a IH]; intros [|c' a']; simpl; intros Ha Ha' H.
  - injection H as H. now split.
  - injection H as Hc _. subst c'. discriminate.
  - injection H as Hc _. subst c. discriminate.
  - injection H as -> H.
    apply andb_prop in Ha as [_ Ha]. apply andb_prop in Ha' as [_ Ha'].
    destruct (IH _ Ha Ha' H) as [-> ->]. now split.
Qed.

(** ** More on the reaction handler *)

(** X1: marking present twice is marking present once: the second
    identical check-in on a session returns the state the first one left,
    with the member in the present list once more than before at most. *)
Theorem mark_present_twice r u w session_id session :
  is_check_in r u = true ->
  session_token r = Some session_id ->
  dict_get session_id (attendance (club_data w)) = Some session ->
  exists w1,
    on_reaction_add r u w = Done w1 /\
    on_reaction_add r u w1 = Done w1 /\
    list_in (str_of_Z (user_id u)) (present_of session_id w1) = true /\
    List.length (present_of session_id w1) =
      if list_in (str_of_Z (user_id u)) (ss_present session)
      then List.length (ss_present session)
      else S (List.length (ss_present session)).
Proof.
  intros Hc Ht Hg.
  rewrite (on_reaction_add_session r u w session_id session Hc Ht Hg). cbv zeta.
  destruct (list_in (str_of_Z (user_id u)) (ss_present session)) eqn:Hin.
  - exists w. split; [reflexivity|].
    rewrite (on_reaction_add_session r u w session_id session Hc Ht Hg).
    cbv zeta. rewrite Hin. unfold present_of. rewrite Hg. auto.
  - eexists. split; [reflexivity|].
    match goal with |- on_reaction_add r u ?w1 = _ /\ _ => set (w' := w1) end.
    assert (Hg' : dict_get session_id (attendance (club_data w')) =
                  Some (set_present session
                          (ss_present session ++ [str_of_Z (user_id u)])%list)).
    { unfold w'. rewrite club_data_save_data. simpl. apply dict_get_set_same. }
    rewrite (on_reaction_add_session r u w' session_id _ Hc Ht Hg').
    cbv zeta. simpl. rewrite list_in_app_self.
    unfold present_of. rewrite Hg'. simpl.
    rewrite list_in_app_self, length_app. simpl.
    repeat split. lia.
Qed.

Lemma mark_present_twice_art :
  exists w1,
    on_reaction_add art_check_in member art_world = Done w1 /\
    on_reaction_add art_check_in member w1 = Done w1 /\
    present_of "art_20250101_090000" w1 = ["42"].
Proof.
  destruct (mark_present_twice art_check_in member art_world "art_20250101_090000"
              (mk_session "art" "2025-01-01T09:00:00" 1 []))
    as (w1 & Hfirst & Hsecond & _); [reflexivity | reflexivity | reflexivity |].
  exists w1. split; [exact Hfirst|]. split; [exact Hsecond|].
  vm_compute in Hfirst. injection Hfirst as <-. reflexivity.
Defined.

(** X2: a reaction whose token names an existing session changes at most
    the present list of that one session: events, membership records and
    the unused collections are the same afterwards, the session keys are
    the same in the same order, every other session is the same, and the
    named session keeps its club, start time and duration. *)
Theorem mark_present_frame r u w session_id session :
  session_token r = Some session_id ->
  dict_get session_id (attendance (club_data w)) = Some session ->
  exists w',
    on_reaction_add r u w = Done w' /\
    events (club_data w') = events (club_data w) /\
    member_clubs (club_data w') = member_clubs (club_data w) /\
    announcements (club_data w') = announcements (club_data w) /\
    club_roles (club_data w') = club_roles (club_data w) /\
    dict_keys (attendance (club_data w')) = dict_keys (attendance (club_data w)) /\
    (forall k, k <> session_id ->
       dict_get k (attendance (club_data w')) = dict_get k (attendance (club_data w))) /\
    exists session',
      dict_get session_id (attendance (club_data w')) = Some session' /\
      session' = set_present session (ss_present session').
Proof.
  intros Ht Hg.
  assert (Hsame : exists session',
             dict_get session_id (attendance (club_data w)) = Some session' /\
             session' = set_present session (ss_present session')).
  { exists session. split; [assumption|]. now destruct session. }
  destruct (is_check_in r u) eqn:Hc.
  - rewrite (on_reaction_add_session r u w session_id session Hc Ht Hg). cbv zeta.
    destruct (list_in (str_of_Z (user_id u)) (ss_present session)).
    + exists w. repeat split; auto.
    + eexists. split; [reflexivity|].
      rewrite club_data_save_data. simpl.
      repeat split.
      * now apply dict_keys_set_present with (v0 := session).
      * intros k Hk. now apply dict_get_set_other.
      * eexists. split; [apply dict_get_set_same|reflexivity].
  - exists w. split; [|repeat split; auto].
    now apply reaction_ignored_route.
Qed.

Lemma mark_present_frame_campus :
  exists w',
    on_reaction_add art_check_in member campus_world = Done w' /\
    present_of "art_20250101_090000" w' = ["42"] /\
    events (club_data w') = events (club_data campus_world) /\
    member_clubs (club_data w') = member_clubs (club_data campus_world).
Proof.
  destruct (mark_present_frame art_check_in member campus_world
              "art_20250101_090000"
              (mk_session "art" "2025-01-01T09:00:00" 1 []))
    as (w' & Hrun & Hev & Hmem & _); [reflexivity | reflexivity |].
  exists w'. split; [exact Hrun|]. split; [|split; assumption].
  vm_compute in Hrun. injection Hrun as <-. reflexivity.
Defined.

(** X3: a reaction that leads nowhere is dropped without a trace: when the
    message has no embed, when the footer names an event or a session the
    store does not hold, or when the footer carries neither label, the
    handler returns the state as it was. *)
Theorem reaction_unrouted r u w :
  embeds (r_message r) = [] \/
  (exists event_id,
     event_token r = Some event_id /\
     dict_get event_id (events (club_data w)) = None) \/
  (exists session_id,
     session_token r = Some session_id /\
     dict_get session_id (attendance (club_data w)) = None) \/
  (exists e rest text,
     embeds (r_message r) = e :: rest /\ em_footer e = Some text /\
     str_in "Event ID:" text = false /\ str_in "Session ID:" text = false) ->
  on_reaction_add r u w = Done w.
Proof.
  unfold on_reaction_add, event_token, session_token.
  destruct (user_bot u); [reflexivity|].
  destruct (is_check_mark (r_emoji r));
    [|intros _; now destruct (embeds (r_message r))].
  intros [He | [(id & Ht & Hg) | [(id & Ht & Hg) | (e & rest & text & He & Hf & H1 & H2)]]].
  - now rewrite He.
  - destruct (embeds (r_message r)) as [|e rest]; [reflexivity|].
    destruct (em_footer e) as [text|]; [simpl|discriminate].
    destruct (str_in "Event ID:" text); [|discriminate].
    destruct (token_of text) as [t|]; [|discriminate].
    injection Ht as ->. simpl. now rewrite Hg.
  - destruct (embeds (r_message r)) as [|e rest]; [reflexivity|].
    destruct (em_footer e) as [text|]; [simpl|discriminate].
    destruct (str_in "Event ID:" text); [discriminate|].
    destruct (str_in "Session ID:" text); [|discriminate].
    destruct (token_of text) as [t|]; [|discriminate].
    injection Ht as ->. simpl. now rewrite Hg.
  - rewrite He, Hf. simpl. now rewrite H1, H2.
Qed.

Lemma reaction_unrouted_stale_event :
  on_reaction_add science_rsvp member lab_night_world = Done lab_night_world.
Proof.
  apply (reaction_unrouted science_rsvp member lab_night_world).
  right. left. exists "science_1". split; reflexivity.
Defined.

(** X4: a check-in on an embed without footer raises [TypeError], and on
    a footer that carries a label but no colon-space raises [IndexError];
    both happen before the store is touched. *)
Theorem reaction_raises r u w e rest :
  is_check_in r u = true ->
  embeds (r_message r) = e :: rest ->
  (em_footer e = None -> on_reaction_add r u w = Raise TypeError) /\
  (forall text,
     em_footer e = Some text ->
     str_in "Event ID:" text || str_in "Session ID:" text = true ->
     str_in ": " text = false ->
     on_reaction_add r u w = Raise IndexError).
Proof.
  unfold is_check_in, on_reaction_add. intros Hc He.
  apply andb_prop in Hc as [Hm Hb]. apply negb_true_iff in Hb.
  rewrite Hb, Hm, He. split.
  - now intros ->.
  - intros text -> Hlabel Hsep. simpl.
    assert (Htok : token_of text = Raise IndexError).
    { unfold token_of, split. now rewrite (split_from_absent _ _ _ Hsep). }
    rewrite Htok.
    destruct (str_in "Event ID:" text); [reflexivity|].
    simpl in Hlabel. now rewrite Hlabel.
Qed.

Lemma reaction_raises_examples :
  on_reaction_add (check_on (closed_embed science_club 3)) member campus_world =
    Raise TypeError /\
  on_reaction_add (check_on (mk_embed "" "" 0 [] (Some "Event ID:science_1")))
                  member campus_world = Raise IndexError.
Proof.
  split.
  - apply (proj1 (reaction_raises (check_on (closed_embed science_club 3)) member
                    campus_world _ [] eq_refl eq_refl)).
    reflexivity.
  - apply (proj2 (reaction_raises
                    (check_on (mk_embed "" "" 0 [] (Some "Event ID:science_1")))
                    member campus_world _ [] eq_refl eq_refl)
             "Event ID:science_1"); reflexivity.
Defined.

(** ** From the announcement back to the record *)

Section Announcements.
Context {L : DatetimeLib}.

(** X5: the announcement [create_event] posts leads back to the event it
    stored: a check mark a member puts on that embed is routed to the new
    event, which then has that member as its one attendee, and the other
    events keep theirs. *)
Theorem rsvp_on_announcement
    ctx club_key title description date time w club_info dt u :
  given club_key && given title && given description &&
  given date && given time = true ->
  dict_get (lower (arg club_key)) CAMPUS_CLUBS = Some club_info ->
  strptime (arg date ++ " " ++ arg time) = Some dt ->
  user_bot u = false ->
  let run := create_event ctx club_key title description date time w in
  let event_id := next_event_id (lower (arg club_key)) (club_data w) in
  exists embed rest w2,
    snd run = Send "" (Some embed) :: rest /\
    event_token (check_on embed) = Some event_id /\
    on_reaction_add (check_on embed) u (fst run) = Done w2 /\
    attendees_of event_id w2 = [str_of_Z (user_id u)] /\
    forall k, k <> event_id -> attendees_of k w2 = attendees_of k (fst run).
Proof.
  intros Hg Hc Hp Hb run event_id. unfold run.
  rewrite (create_event_created _ _ _ _ _ _ _ _ _ Hg Hc Hp). cbv zeta.
  fold event_id. cbn [fst snd app].
  eexists. eexists.
  set (event := mk_event _ _ _ _ _ []).
  set (w1 := save_data _).
  assert (Htok : event_token
            (check_on (event_embed club_info (arg title) (arg description) dt event_id)) =
            Some event_id).
  { apply event_footer_token; [|reflexivity].
    apply (event_id_token _ club_info). exact Hc. }
  assert (Hget : dict_get event_id (events (club_data w1)) = Some event).
  { unfold w1. rewrite club_data_save_data. simpl. apply dict_get_set_same. }
  assert (Hci : is_check_in
            (check_on (event_embed club_info (arg title) (arg description) dt event_id))
            u = true).
  { unfold is_check_in. now rewrite Hb. }
  eexists. split; [reflexivity|]. split; [exact Htok|].
  rewrite (on_reaction_add_event _ u w1 event_id event Hci Htok Hget).
  cbv zeta. cbn [ev_attendees event list_in existsb].
  split; [reflexivity|]. split.
  - unfold attendees_of. rewrite club_data_save_data. simpl.
    now rewrite dict_get_set_same.
  - intros k Hk. unfold attendees_of. rewrite club_data_save_data. simpl.
    now rewrite dict_get_set_other.
Qed.

End Announcements.

Lemma rsvp_on_announcement_science :
  exists embed rest w2,
    snd (create_event officer (Some "Science") (Some "Lab Night")
           (Some "Bring goggles") (Some "2025-01-01") (Some "12:00") debate_world) =
      Send "" (Some embed) :: rest /\
    on_reaction_add (check_on embed) member
      (fst (create_event officer (Some "Science") (Some "Lab Night")
              (Some "Bring goggles") (Some "2025-01-01") (Some "12:00")
              debate_world)) = Done w2 /\
    attendees_of "science_1" w2 = ["42"] /\
    attendees_of "debate_0" w2 = [].
Proof.
  destruct (rsvp_on_announcement officer (Some "Science") (Some "Lab Night")
              (Some "Bring goggles") (Some "2025-01-01") (Some "12:00")
              debate_world science_club lab_night_time member)
    as (embed & rest & w2 & Hsend & _ & Hrun & Hatt & Hother);
    [reflexivity | reflexivity | reflexivity | reflexivity |].
  exists embed, rest, w2. split; [exact Hsend|]. split; [exact Hrun|].
  split; [exact Hatt|].
  rewrite (Hother "debate_0"); [reflexivity | discriminate].
Defined.

(** X6: the message [start_attendance] posts leads back to the session it
    stored: a check mark a member puts on that embed marks the member
    present in the new session, and in no other. *)
Theorem check_in_on_attendance_message
    ctx club_key duration now_id now_start w club_info u :
  given club_key = true ->
  dict_get (lower (arg club_key)) CAMPUS_CLUBS = Some club_info ->
  user_bot u = false ->
  let run := start_attendance ctx club_key duration now_id now_start w in
  let session_id := lower (arg club_key) ++ "_" ++ strftime_session now_id in
  exists embed rest w2,
    snd (fst run) = Send "" (Some embed) :: rest /\
    session_token (check_on embed) = Some session_id /\
    on_reaction_add (check_on embed) u (fst (fst run)) = Done w2 /\
    present_of session_id w2 = [str_of_Z (user_id u)] /\
    forall k, k <> session_id -> present_of k w2 = present_of k (fst (fst run)).
Proof.
  intros Hg Hc Hb run session_id. unfold run, start_attendance.
  rewrite Hg, Hc. cbn [negb fst snd app]. fold session_id.
  set (d := match duration with Some n => n | None => 5%Z end).
  set (session := mk_session _ _ d []).
  set (w1 := save_data _).
  assert (Htok : session_token
            (check_on (attendance_embed club_info d session_id)) = Some session_id).
  { apply session_footer_token; [|reflexivity].
    apply (session_id_token _ club_info). exact Hc. }
  assert (Hget : dict_get session_id (attendance (club_data w1)) = Some session).
  { unfold w1. rewrite club_data_save_data. simpl. apply dict_get_set_same. }
  assert (Hci : is_check_in (check_on (attendance_embed club_info d session_id)) u
                = true).
  { unfold is_check_in. now rewrite Hb. }
  eexists. eexists. eexists. split; [reflexivity|]. split; [exact Htok|].
  rewrite (on_reaction_add_session _ u w1 session_id session Hci Htok Hget).
  cbv zeta. cbn [ss_present session list_in existsb].
  split; [reflexivity|]. split.
  - unfold present_of. rewrite club_data_save_data. simpl.
    now rewrite dict_get_set_same.
  - intros k Hk. unfold present_of. rewrite club_data_save_data. simpl.
    now rewrite dict_get_set_other.
Qed.

Lemma check_in_on_attendance_message_art :
  exists embed rest w2,
    snd (fst (start_attendance officer (Some "Art") None art_start art_start
                debate_world)) = Send "" (Some embed) :: rest /\
    on_reaction_add (check_on embed) member
      (fst (fst (start_attendance officer (Some "Art") None art_start art_start
                   debate_world))) = Done w2 /\
    present_of "art_20250101_090000" w2 = ["42"].
Proof.
  destruct (check_in_on_attendance_message officer (Some "Art") None art_start
              art_start debate_world (os_club_info art_open) member)
    as (embed & rest & w2 & Hsend & _ & Hrun & Hpresent & _);
    [reflexivity | reflexivity | reflexivity |].
  exists embed, rest, w2. split; [exact Hsend|]. split; [exact Hrun|].
  exact Hpresent.
Defined.

(** ** Every handler saves what it changes *)

(** Whatever the store of the process that reads it, a saved store is
    read back as it was saved. *)
Lemma load_data_saved_store d0 d writable :
  load_data (mk_world d0 (Document (json_encode (club_data_py d))) writable) =
  Some (mk_world d (Document (json_encode (club_data_py d))) writable).
Proof.
  unfold load_data. cbn [bot_data_json].
  now rewrite decode_encode_club_data, club_data_of_py_py.
Qed.

Lemma save_data_shape w d :
  save_data (set_club_data w d) =
  save_data (set_club_data w (club_data (save_data (set_club_data w d)))).
Proof. now rewrite club_data_save_data. Qed.

Section Steps.
Context {L : DatetimeLib}.

(** A handler either leaves the process state alone or assigns the store
    and calls [save_data]. *)
Lemma handler_step_shape w w' :
  handler_step w w' ->
  w' = w \/ w' = save_data (set_club_data w (club_data w')).
Proof.
  destruct 1 as [ w ctx ck t ds da ti | w ctx ck du n1 n2 | w r u w' Hrun
                | w ctx rid ck | w ctx ck ].
  - unfold create_event.
    destruct (negb _); [now left|].
    destruct (dict_get _ CAMPUS_CLUBS); [|now left].
    destruct (strptime _); [|now left].
    right. cbn [fst]. apply save_data_shape.
  - unfold start_attendance.
    destruct (negb _); [now left|].
    destruct (dict_get _ CAMPUS_CLUBS); [|now left].
    right. cbn [fst]. apply save_data_shape.
  - revert Hrun. unfold on_reaction_add.
    destruct (user_bot u); [intros [= <-]; now left|].
    destruct (is_check_mark (r_emoji r)); [|intros [= <-]; now left].
    destruct (embeds (r_message r)) as [|e rest]; [intros [= <-]; now left|].
    destruct (em_footer e) as [text|]; [|discriminate]. simpl.
    destruct (str_in "Event ID:" text).
    + destruct (token_of text) as [id|]; [|discriminate]. simpl.
      destruct (dict_get id (events (club_data w))); [|intros [= <-]; now left].
      destruct (list_in _ _); intros [= <-]; [now left|].
      right. apply save_data_shape.
    + destruct (str_in "Session ID:" text); [|intros [= <-]; now left].
      destruct (token_of text) as [id|]; [|discriminate]. simpl.
      destruct (dict_get id (attendance (club_data w))); [|intros [= <-]; now left].
      destruct (list_in _ _); intros [= <-]; [now left|].
      right. apply save_data_shape.
  - unfold join_club.
    destruct (negb _); [now left|].
    destruct (dict_get _ CAMPUS_CLUBS); [|now left].
    destruct (get_by_name _ _ _); cbv zeta;
      (destruct (has_role _ _); [now left|]);
      right; cbn [fst]; apply save_data_shape.
  - unfold leave_club.
    destruct (negb _); [now left|].
    destruct (dict_get _ CAMPUS_CLUBS); [|now left].
    destruct (get_club_role _ _); [|now left].
    destruct (negb _); [now left|].
    right. cbn [fst]. apply save_data_shape.
Qed.

(** X7: nothing a handler changes is lost by a restart, while the file can
    be written: after any command or reaction that changed the store, the
    file holds the new store, and [on_ready] in a fresh process reads
    exactly that store back. *)
Theorem change_survives_restart w w' :
  handler_step w w' ->
  disk_writable w = true ->
  club_data w' <> club_data w ->
  bot_data_json w' = Document (json_encode (club_data_py (club_data w'))) /\
  forall writable,
    on_ready (fresh_process (bot_data_json w') writable) =
    Some (mk_world (club_data w') (bot_data_json w') writable).
Proof.
  intros Hstep Hw Hneq.
  destruct (handler_step_shape w w' Hstep) as [->|Hshape]; [contradiction|].
  assert (Hfile : bot_data_json w' =
                  Document (json_encode (club_data_py (club_data w')))).
  { rewrite Hshape at 1. unfold save_data. cbn [set_club_data disk_writable].
    now rewrite Hw. }
  split; [exact Hfile|].
  intros writable. unfold on_ready, fresh_process. rewrite Hfile.
  apply load_data_saved_store.
Qed.


End Steps.

Lemma change_survives_restart_lab_night :
  dict_keys (events (club_data (fst (add_lab_night debate_world)))) =
    ["debate_0"; "science_1"] /\
  on_ready (fresh_process (bot_data_json (fst (add_lab_night debate_world))) false) =
    Some (mk_world (club_data (fst (add_lab_night debate_world)))
                   (bot_data_json (fst (add_lab_night debate_world))) false).
Proof.
  split; [reflexivity|].
  apply (change_survives_restart debate_world (fst (add_lab_night debate_world))).
  - apply step_create.
  - reflexivity.
  - discriminate.
Defined.


(** X9: the reaction handler writes the file only when it changed the
    store: a handled reaction that leaves the store as it was leaves the
    file, and the whole process state, as it was. *)
Theorem reaction_saves_on_change_only r u w w' :
  on_reaction_add r u w = Done w' ->
  club_data w' = club_data w ->
  w' = w.
Proof.
  unfold on_reaction_add.
  destruct (user_bot u); [now intros [= <-]|].
  destruct (is_check_mark (r_emoji r)); [|now intros [= <-]].
  destruct (embeds (r_message r)) as [|e rest]; [now intros [= <-]|].
  destruct (em_footer e) as [text|]; [|discriminate]. simpl.
  destruct (str_in "Event ID:" text).
  - destruct (token_of text) as [id|]; [|discriminate]. simpl.
    destruct (dict_get id (events (club_data w))) as [event|] eqn:Eg;
      [|now intros [= <-]].
    destruct (list_in _ _); intros [= <-]; [reflexivity|].
    rewrite club_data_save_data. simpl. intros Hsame. exfalso.
    apply (f_equal events) in Hsame. simpl in Hsame.
    apply (f_equal (dict_get id)) in Hsame.
    rewrite dict_get_set_same, Eg in Hsame. injection Hsame as Hsame.
    apply (f_equal ev_attendees) in Hsame. simpl in Hsame.
    apply (f_equal (@List.length string)) in Hsame.
    rewrite length_app in Hsame. simpl in Hsame. lia.
  - destruct (str_in "Session ID:" text); [|now intros [= <-]].
    destruct (token_of text) as [id|]; [|discriminate]. simpl.
    destruct (dict_get id (attendance (club_data w))) as [session|] eqn:Eg;
      [|now intros [= <-]].
    destruct (list_in _ _); intros [= <-]; [reflexivity|].
    rewrite club_data_save_data. simpl. intros Hsame. exfalso.
    apply (f_equal attendance) in Hsame. simpl in Hsame.
    apply (f_equal (dict_get id)) in Hsame.
    rewrite dict_get_set_same, Eg in Hsame. injection Hsame as Hsame.
    apply (f_equal ss_present) in Hsame. simpl in Hsame.
    apply (f_equal (@List.length string)) in Hsame.
    rewrite length_app in Hsame. simpl in Hsame. lia.
Qed.

Lemma reaction_saves_on_change_only_stale :
  on_reaction_add science_rsvp member offline_world = Done offline_world.
Proof.
  assert (H : exists w', on_reaction_add science_rsvp member offline_world = Done w')
    by (eexists; reflexivity).
  destruct H as (w' & Hrun). rewrite Hrun. f_equal.
  apply (reaction_saves_on_change_only science_rsvp member offline_world w' Hrun).
  vm_compute in Hrun. injection Hrun as <-. reflexivity.
Defined.

(** ** What a handler can do to the store *)

Lemma set_member_clubs_same d : set_member_clubs d (member_clubs d) = d.
Proof. now destruct d. Qed.

Section Changes.
Context {L : DatetimeLib}.

(** A handler leaves the store as it is, or changes it in one of the six
    ways of [store_change]. *)
Lemma handler_step_change w w' :
  handler_step w w' ->
  club_data w' = club_data w \/ store_change (club_data w) (club_data w').
Proof.
  destruct 1 as [ w ctx ck t ds da ti | w ctx ck du n1 n2 | w r u w' Hrun
                | w ctx rid ck | w ctx ck ].
  - unfold create_event.
    destruct (negb _); [now left|].
    destruct (dict_get _ CAMPUS_CLUBS) eqn:Ec; [|now left].
    destruct (strptime _) eqn:Ep; [|now left].
    right. cbn [fst]. rewrite club_data_save_data. cbn [set_club_data club_data].
    eapply change_event; eauto.
  - unfold start_attendance.
    destruct (negb _); [now left|].
    destruct (dict_get _ CAMPUS_CLUBS) eqn:Ec; [|now left].
    right. cbn [fst]. rewrite club_data_save_data. cbn [set_club_data club_data].
    eapply change_session; eauto.
  - revert Hrun. unfold on_reaction_add.
    destruct (user_bot u); [intros [= <-]; now left|].
    destruct (is_check_mark (r_emoji r)); [|intros [= <-]; now left].
    destruct (embeds (r_message r)) as [|e rest]; [intros [= <-]; now left|].
    destruct (em_footer e) as [text|]; [|discriminate]. simpl.
    destruct (str_in "Event ID:" text).
    + destruct (token_of text) as [id|]; [|discriminate]. simpl.
      destruct (dict_get id (events (club_data w))) eqn:Eg;
        [|intros [= <-]; now left].
      destruct (list_in _ _) eqn:Ein; intros [= <-]; [now left|].
      right. rewrite club_data_save_data. cbn [set_club_data club_data].
      now apply change_attendee.
    + destruct (str_in "Session ID:" text); [|intros [= <-]; now left].
      destruct (token_of text) as [id|]; [|discriminate]. simpl.
      destruct (dict_get id (attendance (club_data w))) eqn:Eg;
        [|intros [= <-]; now left].
      destruct (list_in _ _) eqn:Ein; intros [= <-]; [now left|].
      right. rewrite club_data_save_data. cbn [set_club_data club_data].
      now apply change_present.
  - unfold join_club.
    destruct (negb _); [now left|].
    destruct (dict_get _ CAMPUS_CLUBS) eqn:Ec; [|now left].
    destruct (get_by_name _ _ _); cbv zeta;
      (destruct (has_role _ _); [now left|]);
      right; cbn [fst]; rewrite club_data_save_data;
      cbn [set_club_data club_data];
      eapply (change_join _ _ _ _ Ec).
  - unfold leave_club.
    destruct (negb _); [now left|].
    destruct (dict_get _ CAMPUS_CLUBS); [|now left].
    destruct (get_club_role _ _); [|now left].
    destruct (negb _); [now left|].
    cbn [fst]. rewrite club_data_save_data. cbn [set_club_data club_data].
    destruct (dict_get _ (member_clubs (club_data w))) as [clubs|] eqn:Eg.
    + destruct (list_in _ clubs) eqn:Ein.
      * right. now apply change_leave.
      * left. apply set_member_clubs_same.
    + left. apply set_member_clubs_same.
Qed.

End Changes.

(** ** Invariants of the store, by the ways it changes *)

Lemma list_in_true x l : list_in x l = true <-> In x l.
Proof.
  unfold list_in. rewrite existsb_exists. split.
  - intros (y & Hy & He). apply String.eqb_eq in He. now subst.
  - intros H. exists x. split; [exact H | apply String.eqb_refl].
Qed.

Lemma list_in_false x l : list_in x l = false -> ~ In x l.
Proof.
  intros H Hin. apply list_in_true in Hin. congruence.
Qed.

Lemma NoDup_snoc {A} (x : A) l : NoDup l -> ~ In x l -> NoDup (l ++ [x])%list.
Proof.
  intros Hl Hx. apply NoDup_app; [exact Hl | repeat constructor; simpl; tauto |].
  intros y Hy [<-|[]]. contradiction.
Qed.

Lemma remove_first_In x c l : In x (remove_first c l) -> In x l.
Proof.
  induction l as [|y l IH]; simpl; [tauto|].
  destruct (String.eqb y c); simpl; [tauto|].
  intros [E|H]; [now left | right; auto].
Qed.

Lemma remove_first_NoDup c l : NoDup l -> NoDup (remove_first c l).
Proof.
  induction 1 as [|y l Hy Hl IH]; simpl; [constructor|].
  destruct (String.eqb y c); [exact Hl|].
  constructor; [|exact IH]. intros H. apply Hy. eapply remove_first_In; eauto.
Qed.

Lemma remove_first_other x c l : x <> c -> In x l -> In x (remove_first c l).
Proof.
  intros Hne. induction l as [|y l IH]; simpl; [tauto|].
  destruct (String.eqb_spec y c) as [->|Hy].
  - intros [E|H]; [congruence | exact H].
  - intros [E|H]; [now left | right; auto].
Qed.

(** After [l.remove(c)] on a list without repetition, [c] is gone. *)
Lemma remove_first_gone c l : NoDup l -> ~ In c (remove_first c l).
Proof.
  induction 1 as [|y l Hy Hl IH]; simpl; [tauto|].
  destruct (String.eqb_spec y c) as [->|Hne]; [exact Hy|].
  intros [E|H]; [congruence | contradiction].
Qed.

Lemma dict_get_key {V} k v (d : dict V) : dict_get k d = Some v -> In k (dict_keys d).
Proof.
  intros H. apply dict_get_In in H. unfold dict_keys.
  apply in_map_iff. now exists (k, v).
Qed.

Lemma dict_keys_length {V} (d : dict V) : List.length (dict_keys d) = List.length d.
Proof. unfold dict_keys. apply length_map. Qed.

Lemma dict_get_Forall {V} (P : string * V -> Prop) k v (d : dict V) :
  Forall P d -> dict_get k d = Some v -> P (k, v).
Proof.
  intros HF Hg. rewrite Forall_forall in HF. apply HF. now apply dict_get_In.
Qed.

Section Invariants.
Context {L : DatetimeLib}.

(** A property of the empty store that every change keeps holds of the
    store of every reachable state, and of the store in its file. *)
Lemma reachable_store_invariant (P : ClubData -> Prop) :
  P empty_club_data ->
  (forall d d', store_change d d' -> P d -> P d') ->
  forall w, reachable w -> P (club_data w) /\ file_holds P (bot_data_json w).
Proof.
  intros Hinit Hkeep.
  assert (Hstep : forall w w',
             handler_step w w' ->
             P (club_data w) /\ file_holds P (bot_data_json w) ->
             P (club_data w') /\ file_holds P (bot_data_json w')).
  { intros w w' Hs [Hp Hf].
    assert (Hp' : P (club_data w')).
    { destruct (handler_step_change w w' Hs) as [->|Hc]; eauto. }
    split; [exact Hp'|].
    destruct (handler_step_shape w w' Hs) as [->|Hshape]; [exact Hf|].
    rewrite Hshape. unfold save_data. cbn [set_club_data disk_writable].
    destruct (disk_writable w); [|exact Hf].
    cbn [bot_data_json file_holds]. now exists (club_data w'). }
  induction 1 as [ writable | w writable _ IH | w writable w' _ IH Hload
                 | w ctx ck t ds da ti _ IH | w ctx ck du n1 n2 _ IH
                 | w r u w' _ IH Hrun | w ctx rid ck _ IH | w ctx ck _ IH ].
  - split; [exact Hinit | exact I].
  - exact IH.
  - destruct IH as [_ Hf].
    destruct (bot_data_json w) as [ | |j] eqn:Ej.
    + injection Hload as <-. split; [exact Hinit | exact I].
    + injection Hload as <-. split; [exact Hinit | exact I].
    + destruct Hf as (d & -> & Hd).
      rewrite load_data_saved_store in Hload. injection Hload as <-.
      split; [exact Hd|]. now exists d.
  - eapply Hstep; [apply step_create | exact IH].
  - eapply Hstep; [apply step_attendance | exact IH].
  - eapply Hstep; [eapply step_reaction; exact Hrun | exact IH].
  - eapply Hstep; [apply step_join | exact IH].
  - eapply Hstep; [apply step_leave | exact IH].
Qed.

Lemma check_ins_distinct_kept d d' :
  store_change d d' -> check_ins_distinct d -> check_ins_distinct d'.
Proof.
  unfold check_ins_distinct.
  intros Hc [He Ha].
  destruct Hc as [ d ck ci t ds tx dt cr Hc Hp | d ck ci n st du Hc
                 | d id ev uid Hg Hin | d id ss uid Hg Hin
                 | d uid ck ci Hc | d uid ck clubs Hg Hin ]; simpl;
    split; auto.
  - apply Forall_dict_set; auto. simpl. constructor.
  - apply Forall_dict_set; auto. simpl. constructor.
  - apply Forall_dict_set; auto. simpl.
    apply NoDup_snoc; [|now apply list_in_false].
    exact (dict_get_Forall _ _ _ _ He Hg).
  - apply Forall_dict_set; auto. simpl.
    apply NoDup_snoc; [|now apply list_in_false].
    exact (dict_get_Forall _ _ _ _ Ha Hg).
Qed.

(** X10: nobody is counted twice: in every state a run reaches, no event
    has a member twice among its attendees and no session has a member
    twice among those present, however often reactions were added. *)
Theorem no_double_check_in w :
  reachable w -> check_ins_distinct (club_data w).
Proof.
  intros Hr.
  apply (reachable_store_invariant check_ins_distinct); auto.
  - split; constructor.
  - apply check_ins_distinct_kept.
Qed.

Lemma record_join_distinct uid club_key club_info m :
  dict_get club_key CAMPUS_CLUBS = Some club_info ->
  dict_wf m ->
  Forall (fun kv => NoDup (snd kv) /\
                    Forall (fun c => dict_mem c CAMPUS_CLUBS = true) (snd kv)) m ->
  dict_wf (record_join uid club_key m) /\
  Forall (fun kv => NoDup (snd kv) /\
                    Forall (fun c => dict_mem c CAMPUS_CLUBS = true) (snd kv))
         (record_join uid club_key m).
Proof.
  intros Hc Hwf HF. unfold record_join.
  set (m1 := if dict_mem uid m then m else dict_set uid [] m).
  assert (H1 : dict_wf m1 /\
               Forall (fun kv => NoDup (snd kv) /\
                        Forall (fun c => dict_mem c CAMPUS_CLUBS = true) (snd kv)) m1).
  { unfold m1. destruct (dict_mem uid m); [now split|]. split.
    - now apply dict_set_wf.
    - apply Forall_dict_set; auto. simpl. split; constructor. }
  destruct H1 as [Hwf1 HF1]. cbv zeta.
  destruct (dict_get uid m1) as [clubs|] eqn:Eg.
  - destruct (list_in club_key clubs) eqn:Ein; [now split|]. split.
    + now apply dict_set_wf.
    + apply Forall_dict_set; auto. simpl.
      destruct (dict_get_Forall _ _ _ _ HF1 Eg) as [Hn Hk]. simpl in Hn, Hk. split.
      * apply NoDup_snoc; [exact Hn | now apply list_in_false].
      * apply Forall_app. split; [exact Hk|].
        constructor; [|constructor]. unfold dict_mem. now rewrite Hc.
  - simpl. split.
    + now apply dict_set_wf.
    + apply Forall_dict_set; auto. simpl. split.
      * repeat constructor. simpl. tauto.
      * constructor; [|constructor]. unfold dict_mem. now rewrite Hc.
Qed.

Lemma records_distinct_kept d d' :
  store_change d d' -> records_distinct d -> records_distinct d'.
Proof.
  unfold records_distinct.
  intros Hc [Hwf HF].
  destruct Hc as [ d ck ci t ds tx dt cr Hc Hp | d ck ci n st du Hc
                 | d id ev uid Hg Hin | d id ss uid Hg Hin
                 | d uid ck ci Hc | d uid ck clubs Hg Hin ]; simpl;
    try (split; assumption).
  - now apply (record_join_distinct uid ck ci).
  - split; [now apply dict_set_wf|].
    apply Forall_dict_set; auto. simpl.
    destruct (dict_get_Forall _ _ _ _ HF Hg) as [Hn Hk]. simpl in Hn, Hk. split.
    + now apply remove_first_NoDup.
    + rewrite Forall_forall in *. intros c Hin'. apply Hk.
      eapply remove_first_In; eauto.
Qed.

(** X11: in every state a run reaches, a member has one membership record,
    it names clubs of the registry only, and none of them twice. *)
Theorem records_stay_distinct w :
  reachable w -> records_distinct (club_data w).
Proof.
  intros Hr.
  apply (reachable_store_invariant records_distinct); auto.
  - split; constructor.
  - apply records_distinct_kept.
Qed.

End Invariants.

Lemma busy_world_reachable : reachable busy_world.
Proof.
  unfold busy_world. cbv zeta. apply reach_join.
  apply (reach_reaction campus_world science_rsvp member); [|reflexivity].
  unfold campus_world. cbv zeta. apply reach_attendance, reach_create.
  unfold debate_world. apply reach_create. unfold fresh_world. apply reach_boot.
Qed.

Lemma no_double_check_in_busy :
  attendees_of "science_1" busy_world = ["42"] /\
  check_ins_distinct (club_data busy_world).
Proof.
  split; [reflexivity|].
  apply (no_double_check_in busy_world). exact busy_world_reachable.
Defined.

Lemma records_stay_distinct_busy :
  clubs_of "42" busy_world = ["music"] /\
  records_distinct (club_data busy_world).
Proof.
  split; [reflexivity|].
  apply (records_stay_distinct busy_world). exact busy_world_reachable.
Defined.

(** ** Event identifiers *)

Section EventIds.
Context {L : DatetimeLib}.

Lemma event_ids_numbered_kept d d' :
  store_change d d' -> event_ids_numbered d -> event_ids_numbered d'.
Proof.
  unfold event_ids_numbered.
  intros Hc Hn.
  destruct Hc as [ d ck ci t ds tx dt cr Hc Hp | d ck ci n st du Hc
                 | d id ev uid Hg Hin | d id ss uid Hg Hin
                 | d uid ck ci Hc | d uid ck clubs Hg Hin ]; simpl; auto.
  - destruct (dict_get (next_event_id ck d) (events d)) as [old|] eqn:Eg.
    + rewrite (dict_keys_set_present _ _ _ _ Eg).
      rewrite <- !dict_keys_length, (dict_keys_set_present _ _ _ _ Eg),
        dict_keys_length. exact Hn.
    + rewrite <- !dict_keys_length, (dict_keys_set_absent _ _ _ Eg),
        length_app, dict_keys_length. simpl.
      intros k Hk. apply in_app_or in Hk as [Hk|[<-|[]]].
      * destruct (Hn k Hk) as (c & i & -> & Hu & Hi).
        exists c, i. repeat split; auto. lia.
      * exists ck, (List.length (events d)).
        destruct (registry_key _ _ Hc) as (_ & Hu & _).
        repeat split; auto. lia.
  - rewrite (dict_keys_set_present _ _ _ _ Hg).
    rewrite <- !dict_keys_length, (dict_keys_set_present _ _ _ _ Hg),
      dict_keys_length. exact Hn.
Qed.

Lemma reachable_event_ids w : reachable w -> event_ids_numbered (club_data w).
Proof.
  intros Hr.
  apply (reachable_store_invariant event_ids_numbered); auto.
  - intros k [].
  - apply event_ids_numbered_kept.
Qed.

(** The identifier of the next event is not in use. *)
Lemma next_event_id_fresh d club_key club_info :
  event_ids_numbered d ->
  dict_get club_key CAMPUS_CLUBS = Some club_info ->
  dict_get (next_event_id club_key d) (events d) = None.
Proof.
  intros Hn Hc.
  destruct (dict_get (next_event_id club_key d) (events d)) as [old|] eqn:Eg;
    [exfalso|reflexivity].
  destruct (Hn _ (dict_get_key _ _ _ Eg)) as (c & i & Hk & Hu & Hi).
  destruct (registry_key _ _ Hc) as (_ & Hu' & _).
  unfold next_event_id in Hk.
  destruct (underscore_split _ _ _ _ Hu' Hu Hk) as [_ Hnum].
  apply str_of_nat_inj in Hnum. lia.
Qed.

(** X12: in a state a run has reached, a successful [create_event] takes
    an identifier that is not in use: the new event is appended, the number
    of events grows by one, and every event recorded before is still there
    as it was. *)
Theorem create_event_keeps_events
    w ctx club_key title description date time club_info dt :
  reachable w ->
  given club_key && given title && given description &&
  given date && given time = true ->
  dict_get (lower (arg club_key)) CAMPUS_CLUBS = Some club_info ->
  strptime (arg date ++ " " ++ arg time) = Some dt ->
  let w' := fst (create_event ctx club_key title description date time w) in
  let event_id := next_event_id (lower (arg club_key)) (club_data w) in
  dict_get event_id (events (club_data w)) = None /\
  dict_keys (events (club_data w')) =
    (dict_keys (events (club_data w)) ++ [event_id])%list /\
  List.length (events (club_data w')) = S (List.length (events (club_data w))) /\
  forall k event,
    dict_get k (events (club_data w)) = Some event ->
    dict_get k (events (club_data w')) = Some event.
Proof.
  intros Hr Hg Hc Hp w' event_id.
  pose proof (next_event_id_fresh _ _ _ (reachable_event_ids w Hr) Hc) as Hfresh.
  fold event_id in Hfresh.
  unfold w'. rewrite (create_event_created _ _ _ _ _ _ _ _ _ Hg Hc Hp).
  cbv zeta. cbn [fst]. rewrite club_data_save_data.
  cbn [set_club_data club_data set_events events]. fold event_id.
  split; [exact Hfresh|]. split; [now apply dict_keys_set_absent|]. split.
  - rewrite <- !dict_keys_length, (dict_keys_set_absent _ _ _ Hfresh), length_app.
    simpl. lia.
  - intros k event Hk. rewrite dict_get_set_other; [exact Hk|].
    intros ->. congruence.
Qed.

(** X13: in a state a run has reached, no command and no reaction removes
    an event or an attendee: every event is still recorded afterwards under
    its key, with the same club, title, description, time and creator, and
    with every attendee it had. *)
Theorem events_only_grow w w' event_id event :
  reachable w ->
  handler_step w w' ->
  dict_get event_id (events (club_data w)) = Some event ->
  exists event',
    dict_get event_id (events (club_data w')) = Some event' /\
    event' = set_attendees event (ev_attendees event') /\
    incl (ev_attendees event) (ev_attendees event').
Proof.
  intros Hr Hs Hg.
  assert (Hsame : exists event',
             dict_get event_id (events (club_data w)) = Some event' /\
             event' = set_attendees event (ev_attendees event') /\
             incl (ev_attendees event) (ev_attendees event')).
  { exists event. repeat split; auto; [now destruct event | apply incl_refl]. }
  destruct (handler_step_change w w' Hs) as [->|Hc]; [exact Hsame|].
  pose proof (reachable_event_ids w Hr) as Hn.
  remember (club_data w) as d eqn:Ed. remember (club_data w') as d' eqn:Ed'.
  clear Ed Ed' Hs Hr.
  destruct Hc as [ d ck ci t ds tx dt cr Hc Hp | d ck ci n st du Hc
                 | d id ev uid Hge Hin | d id ss uid Hge Hin
                 | d uid ck ci Hc | d uid ck clubs Hge Hin ]; simpl;
    try exact Hsame.
  - pose proof (next_event_id_fresh _ _ _ Hn Hc) as Hfresh.
    rewrite dict_get_set_other; [exact Hsame|]. intros ->. congruence.
  - destruct (String.eqb_spec event_id id) as [->|Hne].
    + rewrite dict_get_set_same. rewrite Hg in Hge. injection Hge as <-.
      eexists. split; [reflexivity|]. split; [reflexivity|].
      simpl. now apply incl_appl, incl_refl.
    + rewrite dict_get_set_other; [exact Hsame|exact Hne].
Qed.

End EventIds.

Lemma create_event_keeps_events_busy :
  dict_keys (events (club_data (fst (add_lab_night busy_world)))) =
    ["debate_0"; "science_1"; "science_2"] /\
  attendees_of "science_1" (fst (add_lab_night busy_world)) = ["42"].
Proof.
  destruct (create_event_keeps_events busy_world officer (Some "science")
              (Some "Lab Night") (Some "Bring goggles") (Some "2025-01-01")
              (Some "12:00") science_club lab_night_time busy_world_reachable)
    as (_ & Hkeys & _ & Hold); [reflexivity | reflexivity | reflexivity |].
  split; [exact Hkeys|].
  unfold attendees_of, add_lab_night.
  now rewrite (Hold "science_1"
                 (mk_event "science" "Lab Night" "Bring goggles"
                           "2025-01-01T12:00:00" "7" ["42"]) eq_refl).
Defined.

Lemma events_only_grow_busy :
  exists event',
    dict_get "science_1" (events (club_data (fst (add_lab_night busy_world)))) =
      Some event' /\
    incl ["42"] (ev_attendees event').
Proof.
  destruct (events_only_grow busy_world (fst (add_lab_night busy_world)) "science_1"
              (mk_event "science" "Lab Night" "Bring goggles"
                        "2025-01-01T12:00:00" "7" ["42"]) busy_world_reachable)
    as (event' & Hget & _ & Hincl).
  - apply step_create.
  - reflexivity.
  - exists event'. split; [exact Hget | exact Hincl].
Defined.

(** ** Joining and leaving a club *)

Lemma record_join_own uid club_key m :
  exists l,
    dict_get uid (record_join uid club_key m) = Some l /\
    In club_key l /\
    forall old, dict_get uid m = Some old -> incl old l.
Proof.
  unfold record_join, dict_mem.
  destruct (dict_get uid m) as [old|] eqn:Eg.
  - rewrite Eg. destruct (list_in club_key old) eqn:Ein.
    + exists old. split; [exact Eg|]. split; [now apply list_in_true|].
      intros ? [= <-]. apply incl_refl.
    + exists (old ++ [club_key])%list. split; [apply dict_get_set_same|].
      split; [apply in_or_app; right; now left|].
      intros ? [= <-]. now apply incl_appl, incl_refl.
  - rewrite dict_get_set_same. simpl.
    exists [club_key]. split; [apply dict_get_set_same|].
    split; [now left | discriminate].
Qed.

Lemma record_join_other uid club_key m k :
  k <> uid -> dict_get k (record_join uid club_key m) = dict_get k m.
Proof.
  intros Hk. unfold record_join.
  set (m1 := if dict_mem uid m then m else dict_set uid [] m).
  assert (H1 : dict_get k m1 = dict_get k m).
  { unfold m1. destruct (dict_mem uid m); [reflexivity|].
    now apply dict_get_set_other. }
  cbv zeta. destruct (list_in _ _); [exact H1|].
  now rewrite dict_get_set_other.
Qed.

(** X14: a successful [join_club] writes both halves of the membership:
    the member is given the club's role (the guild's, or the one just
    created), and the member's record holds the club, along with every club
    it held before; the records of other members, the events and the
    sessions are untouched. *)
Theorem join_club_records ctx new_role_id club_key w club_info :
  given club_key = true ->
  dict_get (lower (arg club_key)) CAMPUS_CLUBS = Some club_info ->
  let role :=
    match get_by_name role_name (name club_info ++ " Member") (roles (guild ctx)) with
    | Some r => r
    | None => mk_role new_role_id (name club_info ++ " Member")
    end in
  has_role role (author_roles ctx) = false ->
  let run := join_club ctx new_role_id club_key w in
  let uid := str_of_Z (user_id (author ctx)) in
  In (AddRoles role) (snd run) /\
  In (lower (arg club_key)) (clubs_of uid (fst run)) /\
  incl (clubs_of uid w) (clubs_of uid (fst run)) /\
  (forall k, k <> uid -> clubs_of k (fst run) = clubs_of k w) /\
  events (club_data (fst run)) = events (club_data w) /\
  attendance (club_data (fst run)) = attendance (club_data w).
Proof.
  intros Hg Hc role Hrole run uid.
  assert (Hrun : fst run =
                 save_data (set_club_data w
                   (set_member_clubs (club_data w)
                      (record_join uid (lower (arg club_key))
                                   (member_clubs (club_data w))))) /\
                 In (AddRoles role) (snd run)).
  { unfold run, join_club. rewrite Hg, Hc. cbn [negb]. unfold role in Hrole.
    destruct (get_by_name role_name _ (roles (guild ctx))); cbv zeta;
      rewrite Hrole; cbn [fst snd]; (split; [reflexivity|]);
      apply in_or_app; right; now left. }
  destruct Hrun as [Hw Hadd]. split; [exact Hadd|].
  unfold clubs_of. rewrite Hw, club_data_save_data.
  cbn [set_club_data club_data set_member_clubs member_clubs events attendance].
  destruct (record_join_own uid (lower (arg club_key)) (member_clubs (club_data w)))
    as (l & -> & Hin & Hold).
  repeat split; auto.
  - destruct (dict_get uid (member_clubs (club_data w))) as [old|];
      [now apply Hold | intros x []].
  - intros k Hk. now rewrite record_join_other.
Qed.

Lemma join_club_records_music :
  let run := join_club (mk_context member [] campus_guild) 12 (Some "Music")
               campus_world in
  In (AddRoles (mk_role 12 "Music Club Member")) (snd run) /\
  clubs_of "42" (fst run) = ["music"].
Proof.
  destruct (join_club_records (mk_context member [] campus_guild) 12 (Some "Music")
              campus_world (mk_club "Music Club" "🎵" 0x45b7d1))
    as (Hadd & _); [reflexivity | reflexivity | reflexivity |].
  split; [exact Hadd | reflexivity].
Defined.

(** X15: a successful [leave_club] takes the role away and, from a record
    that names no club twice, takes the club out: afterwards the record
    does not hold it, holds every other club it held, and the records of
    other members are untouched. *)
Theorem leave_club_forgets ctx club_key w club_info role :
  given club_key = true ->
  dict_get (lower (arg club_key)) CAMPUS_CLUBS = Some club_info ->
  get_club_role (guild ctx) (lower (arg club_key)) = Some role ->
  has_role role (author_roles ctx) = true ->
  let run := leave_club ctx club_key w in
  let uid := str_of_Z (user_id (author ctx)) in
  NoDup (clubs_of uid w) ->
  In (RemoveRoles role) (snd run) /\
  ~ In (lower (arg club_key)) (clubs_of uid (fst run)) /\
  (forall c, c <> lower (arg club_key) ->
     In c (clubs_of uid w) -> In c (clubs_of uid (fst run))) /\
  (forall k, k <> uid -> clubs_of k (fst run) = clubs_of k w).
Proof.
  intros Hg Hc Hr Hh run uid Hnd.
  unfold run, leave_club. rewrite Hg, Hc, Hr, Hh. cbn [negb fst snd].
  split; [now left|].
  unfold clubs_of in *. rewrite club_data_save_data.
  cbn [set_club_data club_data set_member_clubs member_clubs]. fold uid.
  destruct (dict_get uid (member_clubs (club_data w))) as [clubs|] eqn:Eg.
  - destruct (list_in (lower (arg club_key)) clubs) eqn:Ein.
    + rewrite dict_get_set_same. split; [now apply remove_first_gone|].
      split.
      * intros c Hne Hin. now apply remove_first_other.
      * intros k Hk. now rewrite dict_get_set_other.
    + rewrite Eg. split; [now apply list_in_false|]. split; auto.
    - rewrite Eg. split; [tauto|]. split; auto.
Qed.

Lemma leave_club_forgets_music :
  clubs_of "42" busy_world = ["music"] /\
  In (RemoveRoles music_role) (snd (leave_club music_member (Some "MUSIC") busy_world)) /\
  ~ In "music" (clubs_of "42" (fst (leave_club music_member (Some "MUSIC") busy_world))).
Proof.
  split; [reflexivity|].
  destruct (leave_club_forgets music_member (Some "MUSIC") busy_world
              (mk_club "Music Club" "🎵" 0x45b7d1) music_role)
    as (Hrm & Hgone & _); [reflexivity | reflexivity | reflexivity | reflexivity | |].
  - repeat constructor. simpl. tauto.
  - split; [exact Hrm | exact Hgone].
Defined.

(** X16: [join_club] and [leave_club] refuse without touching anything:
    with no club named, with a club outside the registry, when joining a
    club whose role the member already holds, and when leaving a club whose
    role the guild does not have or the member does not hold, the state is
    what it was and the only thing done is one message to the channel. *)
Theorem membership_refusals ctx new_role_id club_key w :
  (given club_key = false \/
   dict_mem (lower (arg club_key)) CAMPUS_CLUBS = false ->
   (exists text, join_club ctx new_role_id club_key w = (w, [Send text None])) /\
   (exists text, leave_club ctx club_key w = (w, [Send text None]))) /\
  (forall role,
     get_club_role (guild ctx) (lower (arg club_key)) = Some role ->
     given club_key = true ->
     has_role role (author_roles ctx) = true ->
     exists text, join_club ctx new_role_id club_key w = (w, [Send text None])) /\
  (given club_key = true ->
   match get_club_role (guild ctx) (lower (arg club_key)) with
   | Some role => has_role role (author_roles ctx) = false
   | None => True
   end ->
   exists text, leave_club ctx club_key w = (w, [Send text None])).
Proof.
  unfold join_club, leave_club, dict_mem, get_club_role, club_not_found.
  repeat split.
  - destruct H as [-> | H]; [eexists; reflexivity|].
    destruct (negb (given club_key)); [eexists; reflexivity|].
    destruct (dict_get _ CAMPUS_CLUBS); [discriminate | eexists; reflexivity].
  - destruct H as [-> | H]; [eexists; reflexivity|].
    destruct (negb (given club_key)); [eexists; reflexivity|].
    destruct (dict_get _ CAMPUS_CLUBS); [discriminate | eexists; reflexivity].
  - intros role Hr -> Hh. cbn [negb].
    destruct (dict_get _ CAMPUS_CLUBS); [|discriminate].
    rewrite Hr. cbv zeta. rewrite Hh. eexists. reflexivity.
  - intros -> Hr. cbn [negb].
    destruct (dict_get _ CAMPUS_CLUBS); [|eexists; reflexivity].
    destruct (get_by_name _ _ _); [|eexists; reflexivity].
    rewrite Hr. eexists. reflexivity.
Qed.

Lemma membership_refusals_examples :
  (exists text, join_club music_member 13 (Some "chess") busy_world =
                (busy_world, [Send text None])) /\
  (exists text, join_club music_member 13 (Some "music") busy_world =
                (busy_world, [Send text None])) /\
  (exists text, leave_club music_member (Some "science") busy_world =
                (busy_world, [Send text None])).
Proof.
  destruct (membership_refusals music_member 13 (Some "chess") busy_world)
    as (Hunknown & _).
  destruct (membership_refusals music_member 13 (Some "music") busy_world)
    as (_ & Hheld & _).
  destruct (membership_refusals music_member 13 (Some "science") busy_world)
    as (_ & _ & Hnot).
  split; [apply Hunknown; right; reflexivity|].
  split; [apply (Hheld music_role); reflexivity|].
  apply Hnot; reflexivity.
Defined.

(** X17: each command writes one collection of the store: [create_event]
    the events, [start_attendance] the sessions, [join_club] and
    [leave_club] the membership records; the other collections come out as
    they went in, whatever the arguments. *)
Theorem commands_write_one_collection {L : DatetimeLib} w :
  (forall ctx club_key title description date time,
     let w' := fst (create_event ctx club_key title description date time w) in
     attendance (club_data w') = attendance (club_data w) /\
     member_clubs (club_data w') = member_clubs (club_data w)) /\
  (forall ctx club_key duration now_id now_start,
     let w' := fst (fst (start_attendance ctx club_key duration now_id now_start w)) in
     events (club_data w') = events (club_data w) /\
     member_clubs (club_data w') = member_clubs (club_data w)) /\
  (forall ctx new_role_id club_key,
     let w' := fst (join_club ctx new_role_id club_key w) in
     events (club_data w') = events (club_data w) /\
     attendance (club_data w') = attendance (club_data w)) /\
  (forall ctx club_key,
     let w' := fst (leave_club ctx club_key w) in
     events (club_data w') = events (club_data w) /\
     attendance (club_data w') = attendance (club_data w)).
Proof.
  split; [|split; [|split]].
  - intros ctx ck t ds da ti. cbv zeta. unfold create_event.
    destruct (negb _); [now split|].
    destruct (dict_get _ CAMPUS_CLUBS); [|now split].
    destruct (strptime _); [|now split].
    cbn [fst]. rewrite club_data_save_data. now split.
  - intros ctx ck du n1 n2. cbv zeta. unfold start_attendance.
    destruct (negb _); [now split|].
    destruct (dict_get _ CAMPUS_CLUBS); [|now split].
    cbn [fst]. rewrite club_data_save_data. now split.
  - intros ctx rid ck. cbv zeta. unfold join_club.
    destruct (negb _); [now split|].
    destruct (dict_get _ CAMPUS_CLUBS); [|now split].
    destruct (get_by_name _ _ _); cbv zeta;
      (destruct (has_role _ _); [now split|]);
      cbn [fst]; rewrite club_data_save_data; now split.
  - intros ctx ck. cbv zeta. unfold leave_club.
    destruct (negb _); [now split|].
    destruct (dict_get _ CAMPUS_CLUBS); [|now split].
    destruct (get_club_role _ _); [|now split].
    destruct (negb _); [now split|].
    cbn [fst]. rewrite club_data_save_data. now split.
Qed.

(** ** More on listing and reminding *)

Lemma lower_empty s : lower s = "" <-> s = "".
Proof.
  destruct s as [|c s]; simpl; split; intros H;
    first [reflexivity | discriminate H].
Qed.

Lemma given_lower k k' : lower k = lower k' -> given (Some k) = given (Some k').
Proof.
  intros H. simpl.
  destruct (String.eqb_spec k "") as [Hk|Hk], (String.eqb_spec k' "") as [Hk'|Hk'];
    try reflexivity; exfalso.
  - apply Hk'. apply lower_empty. rewrite <- H. now apply lower_empty.
  - apply Hk. apply lower_empty. rewrite H. now apply lower_empty.
Qed.

(** The first ten of the sorted upcoming events hold an entry, or are ten
    entries no later than it. *)
Lemma first_ten_or_crowded (all : list entry) (x : entry) :
  In x all ->
  In x (firstn 10 (sort_by_time all)) \/
  (List.length (firstn 10 (sort_by_time all)) = 10%nat /\
   Forall (fun y => dt_leb (entry_time y) (entry_time x) = true)
          (firstn 10 (sort_by_time all))).
Proof.
  intros Hall.
  apply (Permutation_in _ (Permutation_sym (sort_by_time_perm all))) in Hall.
  rewrite <- (firstn_skipn 10 (sort_by_time all)) in Hall.
  apply in_app_or in Hall as [Hfirst|Hrest]; [now left|right].
  split.
  - apply firstn_length_le.
    destruct (Nat.le_gt_cases 10 (List.length (sort_by_time all))) as [Hle|Hgt];
      [exact Hle|].
    rewrite skipn_all2 in Hrest by lia. contradiction.
  - pose proof (sort_by_time_sorted all) as Hs.
    rewrite <- (firstn_skipn 10 (sort_by_time all)) in Hs.
    apply sorted_app_le in Hs.
    eapply Forall_impl; [|exact Hs].
    intros y Hy. rewrite Forall_forall in Hy. exact (Hy _ Hrest).
Qed.

Section ListingMore.
Context {L : DatetimeLib}.

Lemma collect_upcoming_lower k k' now evs :
  lower k = lower k' ->
  collect_upcoming (Some k) now evs = collect_upcoming (Some k') now evs.
Proof.
  intros H. induction evs as [|[id ev] evs IH]; simpl; [reflexivity|].
  now rewrite IH, H.
Qed.

(** X18: the club filter of [list_events] ignores case: two spellings of a
    club key that agree once lower-cased give the same reply. *)
Theorem list_events_ignores_case k k' now w :
  lower k = lower k' ->
  list_events (Some k) now w = list_events (Some k') now w.
Proof.
  intros H. unfold list_events, nothing_upcoming.
  rewrite (collect_upcoming_lower k k' now _ H), (given_lower k k' H).
  cbn [arg]. now rewrite H.
Qed.

(** X19: an upcoming event is left out of the listing only when ten events
    that are no later are shown: on a store whose times parse, every stored
    event of the club asked for that is later than now is listed, or the
    listing is full and each of its ten entries is no later than it. *)
Theorem listed_events_complete club_key now w event_id event t :
  events_parse w ->
  In (event_id, event) (events (club_data w)) ->
  fromisoformat (ev_datetime event) = Some t ->
  dt_ltb now t = true ->
  match club_key with
  | None => True
  | Some k => ev_club event = lower k
  end ->
  exists l,
    listed_events club_key now w = Done l /\
    (In (event_id, event, t) l \/
     (List.length l = 10%nat /\
      Forall (fun x => dt_leb (entry_time x) t = true) l)).
Proof.
  intros Hp Hin Ht Hlt Hclub. unfold listed_events.
  destruct (collect_upcoming_kept club_key now _ Hp) as (all & Hrun & _).
  rewrite Hrun. cbn [bind]. eexists. split; [reflexivity|].
  apply (first_ten_or_crowded all (event_id, event, t)).
  exact (collect_upcoming_complete _ _ _ _ _ _ _ Hrun Hin Ht Hlt Hclub).
Qed.

End ListingMore.

Lemma list_events_ignores_case_science :
  list_events (Some "SCIENCE") sweep_1110 campus_world =
  list_events (Some "science") sweep_1110 campus_world.
Proof.
  apply (list_events_ignores_case "SCIENCE" "science" sweep_1110 campus_world).
  reflexivity.
Defined.

Lemma listed_events_complete_debate :
  exists l,
    listed_events None sweep_1110 campus_world = Done l /\
    In ("debate_0",
        mk_event "debate" "Finals" "Grand final" "2025-03-01T18:00:00" "7" [],
        mk_datetime 2025 3 1 18 0 0 0) l.
Proof.
  destruct (listed_events_complete None sweep_1110 campus_world "debate_0"
              (mk_event "debate" "Finals" "Grand final" "2025-03-01T18:00:00" "7" [])
              (mk_datetime 2025 3 1 18 0 0 0))
    as (l & Hrun & [Hin | [Hlen _]]).
  - repeat constructor; discriminate.
  - left. reflexivity.
  - reflexivity.
  - reflexivity.
  - exact I.
  - exists l. split; [exact Hrun | exact Hin].
  - exfalso. vm_compute in Hrun. injection Hrun as <-. discriminate.
Defined.

Lemma for_each_app {A} (l1 l2 : list A) (body : A -> trace unit) :
  for_each (l1 ++ l2)%list body = (_ <~ for_each l1 body ;; for_each l2 body).
Proof.
  induction l1 as [|x l1 IH]; simpl.
  - unfold tbind, ret. now destruct (for_each l2 body).
  - rewrite IH. unfold tbind.
    destruct (body x) as [log [[]|e]]; [|reflexivity].
    destruct (for_each l1 body) as [log1 [[]|e1]]; [|reflexivity].
    destruct (for_each l2 body) as [log2 r2].
    now rewrite app_assoc.
Qed.

Section SweepMore.
Context {L : DatetimeLib}.

(** X20: the sweep reminds of nothing else: on a store whose times parse,
    no reminder is sent for an identifier the store does not hold, nor for
    an event whose time is outside [(now, now + 1h]]. *)
Theorem no_reminder_outside_window w guilds now event_id :
  dict_wf (events (club_data w)) ->
  events_parse w ->
  match dict_get event_id (events (club_data w)) with
  | Some event =>
      forall t, fromisoformat (ev_datetime event) = Some t ->
                in_reminder_window now t = false
  | None => True
  end ->
  reminders_for event_id (check_reminders now guilds w) = [].
Proof.
  intros Hwf Hp Hout. unfold check_reminders, reminders_for.
  destruct (add_one_hour now) as [reminder_time|] eqn:Eh; [|reflexivity].
  destruct (remind_events_count now reminder_time guilds _ event_id Hp Hwf)
    as (log & Hrun & Hcount).
  unfold lift, tbind. rewrite Hrun. cbn [fst app].
  apply length_zero_iff_nil. unfold count_for in Hcount. rewrite Hcount.
  destruct (dict_get event_id (events (club_data w))) as [event|]; [|reflexivity].
  destruct (fromisoformat (ev_datetime event)) as [t|]; [|reflexivity].
  specialize (Hout t eq_refl). unfold in_reminder_window in Hout.
  rewrite Eh in Hout. now rewrite Hout.
Qed.

(** X21: one unreadable time silences the rest of the sweep: the events
    stored before it are handled as usual, then [ValueError] ends the run,
    and no event stored after it is looked at. *)
Theorem sweep_stops_at_unreadable_time w guilds now reminder_time good k bad rest :
  add_one_hour now = Done reminder_time ->
  events (club_data w) = (good ++ (k, bad) :: rest)%list ->
  Forall (fun kv => fromisoformat (ev_datetime (snd kv)) <> None) good ->
  fromisoformat (ev_datetime bad) = None ->
  check_reminders now guilds w =
  (fst (check_reminders now guilds (set_club_data w (set_events (club_data w) good))),
   Raise ValueError).
Proof.
  intros Eh Eev Hgood Hbad. unfold check_reminders. rewrite Eh.
  cbn [set_club_data club_data set_events events]. rewrite Eev.
  unfold lift. cbn [tbind app]. rewrite for_each_app.
  assert (Hdone : exists log,
             for_each good (remind_event now reminder_time guilds) = (log, Done tt)).
  { clear Eev. induction Hgood as [|[id ev] good Hx _ (log' & IH)].
    - now exists [].
    - simpl in Hx. cbn [for_each]. unfold remind_event at 1.
      destruct (fromisoformat (ev_datetime ev)) as [t|]; [|congruence].
      cbn [or_raise lift tbind app].
      destruct (dt_ltb now t && dt_leb t reminder_time).
      + destruct (remind_guilds_log id ev guilds) as (log & -> & _).
        unfold tbind. rewrite IH. eexists. reflexivity.
      + unfold ret, tbind. rewrite IH. eexists. reflexivity. }
  destruct Hdone as (log & Hdone). rewrite Hdone.
  cbn [tbind for_each]. unfold remind_event at 1. rewrite Hbad.
  cbn [or_raise lift tbind fst]. now rewrite app_nil_r.
Qed.

End SweepMore.

Lemma no_reminder_outside_window_debate :
  reminders_for "debate_0" (check_reminders sweep_1110 [campus_guild] campus_world) = [].
Proof.
  apply (no_reminder_outside_window campus_world [campus_guild] sweep_1110 "debate_0").
  - repeat constructor; simpl; intuition discriminate.
  - repeat constructor; discriminate.
  - intros t [= <-]. reflexivity.
Defined.

Lemma sweep_stops_at_unreadable_time_damaged :
  check_reminders sweep_1110 [campus_guild] damaged_world =
  (fst (check_reminders sweep_1110 [campus_guild]
          (set_club_data damaged_world
             (set_events (club_data damaged_world)
                [ ("science_1",
                   mk_event "science" "Lab Night" "Bring goggles"
                            "2025-01-01T12:00:00" "7" []) ]))),
   Raise ValueError) /\
  reminders_for "science_2"
    (check_reminders sweep_1110 [campus_guild] damaged_world) = [].
Proof.
  split; [|reflexivity].
  apply (sweep_stops_at_unreadable_time damaged_world [campus_guild] sweep_1110
           (mk_datetime 2025 1 1 12 10 0 0)
           [ ("science_1",
              mk_event "science" "Lab Night" "Bring goggles"
                       "2025-01-01T12:00:00" "7" []) ]
           "art_9" (mk_event "art" "Vernissage" "Open doors" "next friday" "7" [])
           [ ("science_2",
              mk_event "science" "Lab Night II" "Again" "2025-01-01T12:00:00" "7" []) ]).
  - reflexivity.
  - reflexivity.
  - repeat constructor; discriminate.
  - reflexivity.
Defined.

(** ** More on attendance sessions *)

(** [start_attendance] refuses without touching anything: with no
    club named it sends the usage line, with a club outside the registry
    the club-not-found line; the state is what it was, nothing is posted to
    react on, and no close is scheduled. *)
Theorem start_attendance_refuses ctx club_key duration now_id now_start w :
  (given club_key = false ->
   start_attendance ctx club_key duration now_id now_start w =
   (w, [usage_attendance], None)) /\
  (given club_key = true ->
   dict_mem (lower (arg club_key)) CAMPUS_CLUBS = false ->
   start_attendance ctx club_key duration now_id now_start w =
   (w, [club_not_found (lower (arg club_key))], None)).
Proof.
  unfold start_attendance, dict_mem. split.
  - now intros ->.
  - intros ->. cbn [negb].
    now destruct (dict_get (lower (arg club_key)) CAMPUS_CLUBS).
Qed.

Lemma start_attendance_refuses_examples :
  start_attendance officer None (Some 10%Z) art_start art_start campus_world =
    (campus_world, [usage_attendance], None) /\
  start_attendance officer (Some "Chess") None art_start art_start campus_world =
    (campus_world, [club_not_found "chess"], None).
Proof.
  split.
  - apply (proj1 (start_attendance_refuses officer None (Some 10%Z) art_start
                    art_start campus_world)). reflexivity.
  - apply (proj2 (start_attendance_refuses officer (Some "Chess") None art_start
                    art_start campus_world)); reflexivity.
Defined.

(** X22: a session is stored under club and second.  [start_attendance]
    for a club of the registry puts a session with nobody present under
    [club_YYYYMMDD_HHMMSS]: appended when that identifier is new, and in
    place of the session already there, whose present list is lost, when
    the same club started one in the same second.  Every other session is
    as it was. *)
Theorem start_attendance_stores ctx club_key duration now_id now_start w club_info :
  given club_key = true ->
  dict_get (lower (arg club_key)) CAMPUS_CLUBS = Some club_info ->
  let w' := fst (fst (start_attendance ctx club_key duration now_id now_start w)) in
  let session_id := lower (arg club_key) ++ "_" ++ strftime_session now_id in
  present_of session_id w' = [] /\
  (forall k, k <> session_id ->
     dict_get k (attendance (club_data w')) = dict_get k (attendance (club_data w))) /\
  match dict_get session_id (attendance (club_data w)) with
  | Some _ =>
      dict_keys (attendance (club_data w')) = dict_keys (attendance (club_data w))
  | None =>
      dict_keys (attendance (club_data w')) =
      (dict_keys (attendance (club_data w)) ++ [session_id])%list
  end.
Proof.
  intros Hg Hc w' session_id. unfold w', start_attendance.
  rewrite Hg, Hc. cbn [negb fst]. rewrite club_data_save_data.
  cbn [set_club_data club_data set_attendance attendance]. fold session_id.
  unfold present_of. rewrite club_data_save_data.
  cbn [set_club_data club_data set_attendance attendance].
  rewrite dict_get_set_same. split; [reflexivity|]. split.
  - intros k Hk. now apply dict_get_set_other.
  - destruct (dict_get session_id (attendance (club_data w))) eqn:Eg.
    + now apply dict_keys_set_present with (v0 := s).
    + now apply dict_keys_set_absent.
Qed.

Lemma start_attendance_stores_same_second :
  present_of "art_20250101_090000" art_attended = ["42"] /\
  present_of "art_20250101_090000"
    (fst (fst (start_attendance officer (Some "art") (Some 1%Z) art_start art_start
                 art_attended))) = [] /\
  dict_keys (attendance (club_data
    (fst (fst (start_attendance officer (Some "art") (Some 1%Z) art_start art_start
                 art_attended))))) = ["art_20250101_090000"].
Proof.
  split; [reflexivity|].
  destruct (start_attendance_stores officer (Some "art") (Some 1%Z) art_start
              art_start art_attended (os_club_info art_open))
    as (Hpresent & _ & Hkeys); [reflexivity | reflexivity |].
  split; [exact Hpresent | exact Hkeys].
Defined.

(** ** Further commands *)





Lemma dm_loop_counts a ms s0 f0 :
  let '(steps, s, f) := dm_loop a ms s0 f0 in
  s = (s0 + List.length (filter m_accepts_dm ms))%nat /\
  f = (f0 + List.length (filter (fun m => negb (m_accepts_dm m)) ms))%nat /\
  steps =
    flat_map (fun m => if m_accepts_dm m then [Dm (m_user m) a; Wait 1]
                       else [DmFailed (m_user m)]) ms.
Proof.
  revert s0 f0. induction ms as [|m ms IH]; intros s0 f0; simpl.
  - repeat split; lia.
  - destruct (m_accepts_dm m); simpl.
    + specialize (IH (S s0) f0). destruct (dm_loop a ms (S s0) f0) as [[steps s] f].
      destruct IH as (-> & -> & ->). repeat split; lia.
    + specialize (IH s0 (S f0)). destruct (dm_loop a ms s0 (S f0)) as [[steps s] f].
      destruct IH as (-> & -> & ->). repeat split; lia.
Qed.

(** X24: [announce_dm] accounts for every holder of the role: for a club
    of the registry whose role the guild has, one direct message is tried
    for each member holding the role, in guild order, and for nobody else;
    a one-second wait follows each message that went through; and the
    closing report counts those that went through and those that failed,
    the two adding up to the number of holders. *)
Theorem announce_dm_accounts
    ctx members display_name avatar_url now club_key message club_info role :
  given club_key = true ->
  given message = true ->
  dict_get (lower (arg club_key)) CAMPUS_CLUBS = Some club_info ->
  get_club_role (guild ctx) (lower (arg club_key)) = Some role ->
  let holders := role_members role members in
  let sent := List.length (filter m_accepts_dm holders) in
  let failed := List.length (filter (fun m => negb (m_accepts_dm m)) holders) in
  exists a,
    an_embed a = mk_embed ("📢 " ++ name club_info ++ " Announcement") (arg message)
                          (color club_info) [] None /\
    announce_dm ctx members display_name avatar_url now club_key message =
      (flat_map (fun m => if m_accepts_dm m then [Dm (m_user m) a; Wait 1]
                          else [DmFailed (m_user m)]) holders ++
       [Say (announce_report sent failed)])%list /\
    (sent + failed = List.length holders)%nat.
Proof.
  intros Hg Hm Hc Hr holders sent failed.
  unfold announce_dm. rewrite Hg, Hm, Hc, Hr. cbn [negb orb].
  eexists. split; [|split].
  2: { match goal with
       | |- context [dm_loop ?a ?ms 0 0] =>
           pose proof (dm_loop_counts a ms 0 0) as H;
           destruct (dm_loop a ms 0 0) as [[steps s] f]
       end.
       destruct H as (-> & -> & ->). reflexivity. }
  - reflexivity.
  - unfold sent, failed. clear.
    induction holders as [|m ms IH]; simpl; [reflexivity|].
    destruct (m_accepts_dm m); simpl; lia.
Qed.

Lemma announce_dm_accounts_music :
  exists a,
    announce_dm music_officer guild_members "Ada" None sweep_1110
                (Some "Music") (Some "Rehearsal at six") =
    [ Dm member a; Wait 1; DmFailed (mk_user 43 false);
      Say "✅ Announcement sent via DM to 1 members. Failed to send to 1 members." ].
Proof.
  destruct (announce_dm_accounts music_officer guild_members "Ada" None sweep_1110
              (Some "Music") (Some "Rehearsal at six")
              (mk_club "Music Club" "🎵" 0x45b7d1) music_role)
    as (a & _ & Hrun & _); [reflexivity | reflexivity | reflexivity | reflexivity |].
  exists a. exact Hrun.
Defined.


(** X26: a count of zero or below rolls nothing and is not an error: with
    a count that reads as an integer not above zero and a limit that reads
    as any integer, even one below one, the reply reports no result and the
    total 0. *)
Theorem roll_nothing {D : DiceLib} ctx dice a b rolls limit :
  split "d" (lower dice) = [a; b] ->
  py_int a = Some rolls ->
  py_int b = Some limit ->
  (rolls <= 0)%Z ->
  roll ctx (Some dice) =
  Send ("🎲 " ++ mention_user (author ctx) ++ " rolled:  (Total: 0)") None.
Proof.
  intros Hs Ha Hb Hr. unfold roll, roll_outcome_of. rewrite Hs, Ha, Hb.
  destruct (Z.gtb_spec rolls 20) as [Hgt|_]; [lia|].
  destruct (Z.ltb_spec 0 rolls) as [Hpos|_]; [lia|]. cbn [andb].
  replace (Z.to_nat rolls) with 0%nat by lia. reflexivity.
Qed.

Lemma roll_nothing_zero :
  roll officer (Some "0D0") = Send "🎲 <@7> rolled:  (Total: 0)" None.
Proof.
  apply (roll_nothing officer "0D0" "0" "0" 0%Z 0%Z); first [reflexivity | lia].
Defined.

(** ** The count at closing *)

Lemma NoDup_same_length {A} (l1 l2 : list A) :
  NoDup l1 -> NoDup l2 -> (forall x, In x l1 <-> In x l2) ->
  List.length l1 = List.length l2.
Proof.
  intros H1 H2 H. apply Permutation_length. now apply NoDup_Permutation.
Qed.

Lemma react_all_present r users w session_id session :
  is_check_mark (r_emoji r) = true ->
  session_token r = Some session_id ->
  Forall (fun u => user_bot u = false) users ->
  dict_get session_id (attendance (club_data w)) = Some session ->
  NoDup (ss_present session) ->
  exists session',
    dict_get session_id (attendance (club_data (react_all r users w))) =
      Some session' /\
    NoDup (ss_present session') /\
    forall x, In x (ss_present session') <->
              In x (ss_present session) \/
              In x (map (fun u => str_of_Z (user_id u)) users).
Proof.
  intros Hm Ht Hu. revert w session.
  induction Hu as [|u users Hb _ IH]; intros w session Hg Hn.
  - exists session. simpl. repeat split; auto; tauto.
  - cbn [react_all].
    assert (Hc : is_check_in r u = true) by (unfold is_check_in; now rewrite Hm, Hb).
    rewrite (on_reaction_add_session r u w session_id session Hc Ht Hg). cbv zeta.
    destruct (list_in (str_of_Z (user_id u)) (ss_present session)) eqn:Hin.
    + destruct (IH w session Hg Hn) as (s' & Hg' & Hn' & Hiff).
      exists s'. split; [exact Hg'|]. split; [exact Hn'|].
      intros x. rewrite Hiff. simpl. apply list_in_true in Hin.
      split; [tauto|]. intros [H|[<-|H]]; auto.
    + match goal with |- context [react_all r users ?w1] => set (w' := w1) end.
      assert (Hg' : dict_get session_id (attendance (club_data w')) =
                    Some (set_present session
                            (ss_present session ++ [str_of_Z (user_id u)])%list)).
      { unfold w'. rewrite club_data_save_data. simpl. apply dict_get_set_same. }
      destruct (IH w' _ Hg') as (s' & Hg'' & Hn' & Hiff).
      { simpl. apply NoDup_snoc; [exact Hn | now apply list_in_false]. }
      exists s'. split; [exact Hg''|]. split; [exact Hn'|].
      intros x. rewrite Hiff. simpl. rewrite in_app_iff. simpl. tauto.
Qed.

(** X27: the count shown at closing is the number of members who checked
    in, not of reactions: after any sequence of check marks by accounts
    that are not bots on the message of a session opened with nobody
    present, the present list names each of them once, and the closing
    embed reports the number of distinct members among them. *)
Theorem closing_count_is_members r users w o session :
  is_check_mark (r_emoji r) = true ->
  session_token r = Some (os_session_id o) ->
  Forall (fun u => user_bot u = false) users ->
  dict_get (os_session_id o) (attendance (club_data w)) = Some session ->
  ss_present session = [] ->
  let w' := react_all r users w in
  let ids := map (fun u => str_of_Z (user_id u)) users in
  NoDup (present_of (os_session_id o) w') /\
  (forall x, In x (present_of (os_session_id o) w') <-> In x ids) /\
  close_attendance o w' =
    [Edit (closed_embed (os_club_info o)
             (List.length (nodup string_dec ids)))].
Proof.
  intros Hm Ht Hu Hg He w' ids.
  destruct (react_all_present r users w _ session Hm Ht Hu Hg)
    as (s' & Hg' & Hn & Hiff); [rewrite He; constructor|].
  assert (Hin : forall x, In x (ss_present s') <-> In x ids).
  { intros x. rewrite Hiff, He. simpl. tauto. }
  unfold present_of, close_attendance, w'. rewrite Hg'.
  split; [exact Hn|]. split; [exact Hin|].
  do 3 f_equal. apply NoDup_same_length; [exact Hn | apply NoDup_nodup |].
  intros x. rewrite Hin. symmetry. apply nodup_In.
Qed.

Lemma closing_count_is_members_art :
  close_attendance art_open
    (react_all art_check_in [member; mk_user 43 false; member] art_world) =
  [Edit (closed_embed (os_club_info art_open) 2)].
Proof.
  apply (closing_count_is_members art_check_in [member; mk_user 43 false; member]
           art_world art_open (mk_session "art" "2025-01-01T09:00:00" 1 []));
    try reflexivity.
  repeat constructor.
Defined.

(** ** Runs that never raise *)

Section SafeRuns.
Context {L : DatetimeLib}.

(** What [strptime] returns, [isoformat] writes in a form [fromisoformat]
    reads. *)
Hypothesis strptime_readable :
  forall s dt, strptime s = Some dt -> fromisoformat (isoformat dt) <> None.

(** X28: no sequence of commands, reactions and restarts, begun on an
    empty store, brings the store to a state on which the listing or the
    sweep raises, as long as [fromisoformat] reads what [isoformat] writes
    for the times [strptime] returns: in every reachable state
    [list_events] replies, for any club filter, and the sweep runs to its
    end whenever the clock is not in the last hour of year 9999. *)
Theorem reachable_runs_complete w club_key now guilds :
  reachable w ->
  (exists reply, list_events club_key now w = Done reply) /\
  (forall reminder_time,
     add_one_hour now = Done reminder_time ->
     snd (check_reminders now guilds w) = Done tt).
Proof.
  intros Hr.
  destruct (reachable_events strptime_readable w Hr) as (Hwf & Hp & Hk).
  split.
  - destruct (list_events_replies club_key now w Hp Hk)
      as (l & _ & [[_ ->] | (fs & _ & ->)]); eexists; reflexivity.
  - intros reminder_time Eh. unfold check_reminders. rewrite Eh.
    destruct (remind_events_count now reminder_time guilds _ "" Hp Hwf)
      as (log & Hrun & _).
    unfold lift, tbind. now rewrite Hrun.
Qed.

(** X29: an event that was just created is listed: after a successful
    [create_event] in a reachable state, for a time [fromisoformat] reads
    back as [strptime] read it and that is later than now, the listing for
    all clubs, and the listing for the event's club, hold the new event, or
    are full with ten events no later than it. *)
Theorem created_event_is_listed
    w ctx club_key title description date time club_info dt now filter :
  reachable w ->
  given club_key && given title && given description &&
  given date && given time = true ->
  dict_get (lower (arg club_key)) CAMPUS_CLUBS = Some club_info ->
  strptime (arg date ++ " " ++ arg time) = Some dt ->
  fromisoformat (isoformat dt) = Some dt ->
  dt_ltb now dt = true ->
  filter = None \/ filter = club_key ->
  let w' := fst (create_event ctx club_key title description date time w) in
  let event_id := next_event_id (lower (arg club_key)) (club_data w) in
  let event := mk_event (lower (arg club_key)) (arg title) (arg description)
                        (isoformat dt) (str_of_Z (user_id (author ctx))) [] in
  exists l,
    listed_events filter now w' = Done l /\
    (In (event_id, event, dt) l \/
     (List.length l = 10%nat /\
      Forall (fun x => dt_leb (entry_time x) dt = true) l)).
Proof.
  intros Hr Hg Hc Hp Hiso Hlt Hf w' event_id event.
  assert (Hr' : reachable w') by (unfold w'; now apply reach_create).
  destruct (reachable_events strptime_readable w' Hr') as (_ & Hparse & _).
  unfold listed_events.
  destruct (collect_upcoming_kept filter now _ Hparse) as (all & Hrun & _).
  rewrite Hrun. cbn [bind]. eexists. split; [reflexivity|].
  apply (first_ten_or_crowded all (event_id, event, dt)).
  apply (collect_upcoming_complete _ _ _ _ _ _ _ Hrun).
  - apply dict_get_In. unfold w'.
    rewrite (create_event_created _ _ _ _ _ _ _ _ _ Hg Hc Hp). cbv zeta.
    cbn [fst]. rewrite club_data_save_data. simpl. apply dict_get_set_same.
  - exact Hiso.
  - exact Hlt.
  - destruct Hf as [-> | ->]; [exact I|].
    destruct club_key as [k|]; [|exact I]. reflexivity.
Qed.

End SafeRuns.

Lemma reachable_runs_complete_busy :
  (exists reply, list_events (Some "science") sweep_1110 busy_world = Done reply) /\
  snd (check_reminders sweep_1110 [campus_guild] busy_world) = Done tt.
Proof.
  destruct (reachable_runs_complete padded_strptime_readable busy_world
              (Some "science") sweep_1110 [campus_guild] busy_world_reachable)
    as (Hlist & Hsweep).
  split; [exact Hlist|].
  apply (Hsweep (mk_datetime 2025 1 1 12 10 0 0)). reflexivity.
Defined.

Lemma created_event_is_listed_busy :
  exists l,
    listed_events (Some "science") sweep_1110 (fst (add_lab_night busy_world)) = Done l /\
    In ("science_2",
        mk_event "science" "Lab Night" "Bring goggles" "2025-01-01T12:00:00" "7" [],
        lab_night_time) l.
Proof.
  destruct (created_event_is_listed padded_strptime_readable busy_world officer
              (Some "science") (Some "Lab Night") (Some "Bring goggles")
              (Some "2025-01-01") (Some "12:00") science_club lab_night_time
              sweep_1110 (Some "science") busy_world_reachable)
    as (l & Hrun & [Hin | [Hlen _]]);
    [reflexivity | reflexivity | reflexivity | reflexivity | reflexivity
    | right; reflexivity | | ].
  - exists l. split; [exact Hrun | exact Hin].
  - exfalso. vm_compute in Hrun. injection Hrun as <-. discriminate.
Defined.
